(** * AirSoft game simulator: timing and objective-state engine

    A shallow embedding of the Arduino sketch (Zutils.ino, the password
    helpers, SearchAndDestroy.ino, Sabotage.ino, the Domination mode and
    Splash.ino) together with the properties of its clock, hold-to-act
    loops, code comparison and mode state machines.

    Integer widths are those of the AVR boards the sketch targets:
    [int] is 16 bits, [unsigned int] 16 bits, [unsigned long] 32 bits and
    [byte] 8 bits.  Every machine integer is a [Z] with its wrap-around
    written out.

    The sketch is one polling loop over [millis()] and the keypad.  The
    world carries the clock and a script of keypad polls; time moves on
    at a poll (by the [dt] of the poll) and in a [delay], and the hold
    flags [defusing] and [cancelando] change only inside
    [keypad.getKey()], where the listener [keypadEvent] runs.  Output
    (LCD, LEDs, tones) is appended to a time-stamped trace, which also
    records each function entered and each write to [team]. *)

From Stdlib Require Import ZArith List Bool Lia String Ascii.
From Stdlib Require Import DecimalString.
Import ListNotations.
Local Open Scope Z_scope.

(** ** Machine integers *)

Definition two32 : Z := 4294967296.
Definition ulong (z : Z) : Z := z mod two32.
Definition uint16 (z : Z) : Z := z mod 65536.
Definition byte8 (z : Z) : Z := z mod 256.
Definition int16 (z : Z) : Z := (z + 32768) mod 65536 - 32768.

(** ** Clock arithmetic shared by [printTime] and the mode loops *)

(** [minutes - aTime / 60000] evaluated in [unsigned long]. *)
Definition remainingMinutes (minutes aTime : Z) : Z :=
  ulong (minutes - aTime / 60000).

(** [59 - ((aTime / 1000) % 60)]. *)
Definition remainingSecs (aTime : Z) : Z :=
  59 - ((aTime / 1000) mod 60).

(** The expiry test of the main loops:
    [minutes - e / 60000 == 0 && 59 - ((e / 1000) % 60) == 0]. *)
Definition timeExpired (minutes e : Z) : bool :=
  (remainingMinutes minutes e =? 0) && (remainingSecs e =? 0).

(** The expiry test of the hold loops, with the overflow safeguard
    [minutes - e / 60000 > 4000000000]. *)
Definition timeExpiredGuarded (minutes e : Z) : bool :=
  timeExpired minutes e || (4000000000 <? remainingMinutes minutes e).

(** The two numbers [printTime] shows: remaining minutes and seconds. *)
Definition time_fields (minutes aTime : Z) : Z * Z :=
  (remainingMinutes minutes aTime, remainingSecs aTime).

(** Remaining time in whole seconds, as read off the display. *)
Definition fields_seconds (f : Z * Z) : Z := 60 * fst f + snd f.

(** ** Output trace *)

Inductive proc : Type :=
| PSearch | PDestroy | PSabotage | PDestroySabotage
| PDomination | PGameOver
| PFailSplash | PExplodeSplash | PDisarmedSplash | PPlayAgain
| PMenu.

Inductive pin : Type := REDLED | GREENLED | BLUELED | RELAYPIN.

Inductive event : Type :=
| Cls
| SetCursor (col row : Z)
| LcdPrint (s : string)
| LcdWrite (glyph : Z)
| DigitalWrite (p : pin) (high : bool)
| Tone (freq dur : Z)
| ToneOn (freq : Z)
| NoTone
| Enter (p : proc)          (* control enters the function [p] *)
| TeamWrite (k : Z).        (* the global [team] is assigned [k] *)

(** Decimal text of a non-negative number, as [lcd.print] shows it. *)
Definition dec (z : Z) : string :=
  NilZero.string_of_uint (N.to_uint (Z.to_N z)).

(** ** Configuration and world

    The configuration is what [configQuickGame] leaves in the globals
    before a session; the mode functions only read it. *)

Record config : Type := mkConfig {
  GAMEMINUTES : Z;
  BOMBMINUTES : Z;
  ACTIVATESECONDS : Z;
  soundEnable : bool;
  relayEnable : bool;
  passwordEnable : bool;
  sdStatus : bool;
  saStatus : bool;
  password : list ascii;
  RELAY_TIME : Z
}.

(** One call of [keypad.getKey()]: the time that passed since the previous
    poll, the key it reports (if any) and the values the event listener
    [keypadEvent] leaves in [defusing] and [cancelando]. *)
Record tick : Type := mkTick {
  dt : Z;
  key : option ascii;
  heldD : bool;
  heldC : bool
}.

Record world : Type := mkWorld {
  now : Z;                     (* what [millis()] returns *)
  script : list tick;          (* keypad polls still to come *)
  defusing : bool;
  cancelando : bool;
  endGame : bool;
  start : bool;
  iTime : Z;
  team : Z;
  iZoneTime : Z;
  redTime : Z;
  greenTime : Z;
  codeInput : list ascii;
  out : list (Z * event)       (* newest first, stamped with [now] *)
}.

Definition set_clock (t : Z) (s : list tick) (d c : bool) (w : world) : world :=
  mkWorld t s d c (endGame w) (start w) (iTime w) (team w) (iZoneTime w)
          (redTime w) (greenTime w) (codeInput w) (out w).
Definition set_now (t : Z) (w : world) : world :=
  set_clock t (script w) (defusing w) (cancelando w) w.
Definition set_endGame (b : bool) (w : world) : world :=
  mkWorld (now w) (script w) (defusing w) (cancelando w) b (start w) (iTime w)
          (team w) (iZoneTime w) (redTime w) (greenTime w) (codeInput w) (out w).
Definition set_start (b : bool) (w : world) : world :=
  mkWorld (now w) (script w) (defusing w) (cancelando w) (endGame w) b (iTime w)
          (team w) (iZoneTime w) (redTime w) (greenTime w) (codeInput w) (out w).
Definition set_iTime (t : Z) (w : world) : world :=
  mkWorld (now w) (script w) (defusing w) (cancelando w) (endGame w) (start w) t
          (team w) (iZoneTime w) (redTime w) (greenTime w) (codeInput w) (out w).
Definition set_team (k : Z) (w : world) : world :=
  mkWorld (now w) (script w) (defusing w) (cancelando w) (endGame w) (start w)
          (iTime w) k (iZoneTime w) (redTime w) (greenTime w) (codeInput w)
          ((now w, TeamWrite k) :: out w).
Definition set_iZoneTime (t : Z) (w : world) : world :=
  mkWorld (now w) (script w) (defusing w) (cancelando w) (endGame w) (start w)
          (iTime w) (team w) t (redTime w) (greenTime w) (codeInput w) (out w).
Definition set_redTime (t : Z) (w : world) : world :=
  mkWorld (now w) (script w) (defusing w) (cancelando w) (endGame w) (start w)
          (iTime w) (team w) (iZoneTime w) t (greenTime w) (codeInput w) (out w).
Definition set_greenTime (t : Z) (w : world) : world :=
  mkWorld (now w) (script w) (defusing w) (cancelando w) (endGame w) (start w)
          (iTime w) (team w) (iZoneTime w) (redTime w) t (codeInput w) (out w).
Definition set_codeInput (l : list ascii) (w : world) : world :=
  mkWorld (now w) (script w) (defusing w) (cancelando w) (endGame w) (start w)
          (iTime w) (team w) (iZoneTime w) (redTime w) (greenTime w) l (out w).
Definition add_out (e : event) (w : world) : world :=
  mkWorld (now w) (script w) (defusing w) (cancelando w) (endGame w) (start w)
          (iTime w) (team w) (iZoneTime w) (redTime w) (greenTime w)
          (codeInput w) ((now w, e) :: out w).

(** ** A state monad with halting

    A run halts when the keypad script is used up (the sketch would go on
    polling), when a loop runs out of fuel, or on a division by zero. *)

Inductive halt : Type := OutOfInput | OutOfFuel | DivByZero.

Inductive res (A : Type) : Type :=
| Ok (a : A) (w : world)
| Halt (h : halt) (w : world).
Arguments Ok {A} a w.
Arguments Halt {A} h w.

Definition M (A : Type) : Type := world -> res A.

Definition ret {A} (a : A) : M A := fun w => Ok a w.
Definition bind {A B} (m : M A) (f : A -> M B) : M B :=
  fun w => match m w with
           | Ok a w' => f a w'
           | Halt h w' => Halt h w'
           end.
Definition stop {A} (h : halt) : M A := fun w => Halt h w.

Notation "x <- m ;; k" := (bind m (fun x => k))
  (at level 61, m at next level, right associativity).
Notation "m ;; k" := (bind m (fun _ => k))
  (at level 61, right associativity).

Definition get {A} (f : world -> A) : M A := fun w => Ok (f w) w.
Definition modify (f : world -> world) : M unit := fun w => Ok tt (f w).
Definition when (b : bool) (m : M unit) : M unit := if b then m else ret tt.

Definition final {A} (r : res A) : world :=
  match r with Ok _ w => w | Halt _ w => w end.

(** *** Hardware primitives *)

Definition millis : M Z := get now.
Definition emit (e : event) : M unit := modify (add_out e).
Definition delay (ms : Z) : M unit :=
  modify (fun w => set_now (ulong (now w + ms)) w).

(** [keypad.getKey()]: time moves on, the listener updates the hold flags,
    and a freshly pressed key (if any) is returned. *)
Definition getKey : M (option ascii) :=
  fun w => match script w with
           | [] => Halt OutOfInput w
           | k :: rest =>
               Ok (key k) (set_clock (ulong (now w + dt k)) rest (heldD k) (heldC k) w)
           end.

(** [keypad.waitForKey()]: poll until a key is reported. *)
Fixpoint waitForKey (fuel : nat) : M ascii :=
  match fuel with
  | O => stop OutOfFuel
  | S f => k <- getKey ;;
           match k with
           | Some c => ret c
           | None => waitForKey f
           end
  end.

(** [cls()]: [lcd.clear()] and the cursor back to (0,0). *)
Definition cls : M unit := emit Cls.
Definition lcd_print (s : string) : M unit := emit (LcdPrint s).
Definition lcd_setCursor (c r : Z) : M unit := emit (SetCursor c r).
Definition digitalWrite (p : pin) (v : bool) : M unit := emit (DigitalWrite p v).
Definition tone (f d : Z) : M unit := emit (Tone f d).

Fixpoint times (n : nat) (m : M unit) : M unit :=
  match n with
  | O => ret tt
  | S n' => m ;; times n' m
  end.

(** A counted [for] loop over the values its index takes. *)
Fixpoint for_each {A} (l : list A) (body : A -> M unit) : M unit :=
  match l with
  | [] => ret tt
  | i :: l' => body i ;; for_each l' body
  end.

Definition alarmTone1 : Z := 700.
Definition alarmTone2 : Z := 2600.
Definition activeTone : Z := 1330.
Definition errorTone : Z := 100.

(** ** Zutils.ino *)

(** [drawBar(byte percent)]. *)
Definition drawBar (percent : Z) : M unit :=
  let percent := byte8 percent in
  let percent := if 100 <? percent then 100 else percent in
  let fullBars := percent / (100 / 16) in
  lcd_setCursor 0 1 ;;
  times (Z.to_nat (fullBars / 5)) (emit (LcdWrite 4)) ;;
  let remainder := fullBars mod 5 in
  when (0 <? remainder) (emit (LcdWrite (remainder - 1))) ;;
  times (Z.to_nat (16 - fullBars)) (lcd_print " ").

(** [printTime(unsigned long minutes, unsigned long aTime)].  The two
    leading fields are [time_fields (ulong minutes) aTime]. *)
Definition printTime (minutes aTime : Z) : M unit :=
  let remMin := fst (time_fields (ulong minutes) aTime) in
  let hours := remMin / 60 in
  when (1 <=? hours)
       (when (hours <? 10) (lcd_print "0") ;;
        lcd_print (dec hours) ;;
        lcd_print ":") ;;
  let mins := remMin mod 60 in
  when (mins <? 10) (lcd_print "0") ;;
  lcd_print (dec mins) ;;
  lcd_print ":" ;;
  let remSecs := snd (time_fields (ulong minutes) aTime) in
  when (remSecs <? 10) (lcd_print "0") ;;
  lcd_print (dec remSecs) ;;
  lcd_print ":" ;;
  t <- millis ;;
  lcd_print (dec (999 - t mod 1000)).

(** [printTimeDom(unsigned long aTime, boolean showMillis)]. *)
Definition printTimeDom (aTime : Z) (showMillis : bool) : M unit :=
  let mins := aTime / 60000 in
  when (mins <? 10) (lcd_print "0") ;;
  lcd_print (dec mins) ;;
  lcd_print ":" ;;
  let secs := (aTime / 1000) mod 60 in
  when (secs <? 10) (lcd_print "0") ;;
  lcd_print (dec secs) ;;
  when showMillis
       (lcd_print ":" ;;
        t <- millis ;;
        lcd_print (dec (999 - t mod 1000))).

(** ** Password helpers *)

Definition NUL : ascii := Ascii.zero.

(** [codeInput[i] = c]. *)
Fixpoint store (i : nat) (c : ascii) (l : list ascii) : list ascii :=
  match l, i with
  | [], _ => []
  | _ :: t, O => c :: t
  | h :: t, S i' => h :: store i' c t
  end.

(** The [for] loop of [comparePassword()], from index [i] for [k] more
    rounds: the first mismatch returns [false]. *)
Fixpoint compare_from (k i : nat) (code pass : list ascii) : bool :=
  match k with
  | O => true
  | S k' =>
      if negb (Ascii.eqb (nth i code NUL) (nth i pass NUL)) then false
      else compare_from k' (S i) code pass
  end.

(** [comparePassword()] on the two 8-character arrays. *)
Definition comparePassword (code pass : list ascii) : bool :=
  compare_from 8 0 code pass.

Definition is_digit (c : ascii) : bool :=
  let n := N.to_nat (N_of_ascii c) in
  (48 <=? n)%nat && (n <=? 57)%nat.

(** [getNumber()]: wait for a key; a digit is returned as it is, any other
    key as ['x']. *)
Fixpoint getNumber (fuel : nat) : M ascii :=
  match fuel with
  | O => stop OutOfFuel
  | S f =>
      keyPressed <- getKey ;;
      match keyPressed with
      | Some c => if is_digit c then ret c else ret "x"%char
      | None => getNumber f
      end
  end.

Section Sketch.

Variable cfg : config.

(** [startGameCount()]. *)
Definition startGameCount (fuel : nat) : M unit :=
  cls ;;
  lcd_setCursor 1 0 ;; lcd_print "Ready to Begin" ;;
  lcd_setCursor 0 1 ;; lcd_print "Push ANY Button" ;;
  _ <- waitForKey fuel ;;
  cls ;;
  lcd_setCursor 1 0 ;; lcd_print "Starting Game" ;;
  for_each [5; 4; 3; 2; 1]
    (fun i =>
       lcd_setCursor 5 1 ;;
       when (soundEnable cfg) (tone 2000 100) ;;
       lcd_print "IN " ;; lcd_print (dec i) ;;
       delay 1000) ;;
  cls.

(** [activateRelay()]. *)
Definition activateRelay : M unit :=
  digitalWrite RELAYPIN true ;;
  delay (RELAY_TIME cfg) ;;
  digitalWrite RELAYPIN false.

(** The remaining entry time [ACTIVATESECONDS * 1000 + startTime - millis()]
    of [setCodeTime]: the product is an [int], the sum an [unsigned long]. *)
Definition codeTimeLeft (startTime t : Z) : Z :=
  ulong (int16 (ACTIVATESECONDS cfg * 1000) + startTime - t).

(** The [while (true)] of [setCodeTime()] for position [i]. *)
Fixpoint setCodeTime_digit (fuel : nat) (startTime : Z) (i : nat) : M unit :=
  match fuel with
  | O => stop OutOfFuel
  | S f =>
      t <- millis ;;
      if codeTimeLeft startTime t <=? 100 then
        modify (fun w => set_codeInput (store i "x"%char (codeInput w)) w)
      else
        lcd_setCursor 11 0 ;;
        printTimeDom (codeTimeLeft startTime t) false ;;
        inputChar <- getNumber f ;;
        if negb (Ascii.eqb inputChar "x"%char) then
          modify (fun w => set_codeInput (store i inputChar (codeInput w)) w) ;;
          when (negb (Nat.eqb i 0))
               (lcd_setCursor (Z.of_nat i - 1) 1 ;; lcd_print "*") ;;
          lcd_setCursor (Z.of_nat i) 1 ;;
          lcd_print (String inputChar EmptyString) ;;
          when (soundEnable cfg) (tone 2400 30)
        else setCodeTime_digit f startTime i
  end.

(** [setCodeTime()]. *)
Definition setCodeTime (fuel : nat) : M unit :=
  startTime <- millis ;;
  for_each (seq 0 8) (fun i => setCodeTime_digit fuel startTime i).

(** ** The hold-to-act loop

    The seven hold loops of the sketch ([search], [destroy], [sabotage],
    [destroySabotage] and the three of [domination]) share one shape:

    [while (held) { keypad.getKey(); e = millis() - clockStart;
       if (expired(e) || minutes - e / 60000 > 4000000000) { endGame = true; leave }
       cues((millis() - startActionTime) % 1000);
       progressPercent = (millis() - startActionTime) / divisor;
       drawBar(progressPercent);
       if (progressPercent >= 100) { complete; leave } }]

    They differ in the hold flag tested and the cues (fixed by the kind of
    action), in the clock, in the type of the divisor and in the
    completion statements.  [progressPercent] is an [unsigned int]. *)

Definition between (lo x hi : Z) : bool := (lo <=? x) && (x <=? hi).

Inductive hold_kind : Type :=
| Arm | Disarm | CaptureRed | CaptureGreen | Neutralize.

(** The loop condition: [defusing], [cancelando] or [defusing || cancelando]. *)
Definition held_flags (k : hold_kind) (d c : bool) : bool :=
  match k with
  | Arm | Disarm | CaptureRed => d
  | CaptureGreen => c
  | Neutralize => d || c
  end.

Definition held (k : hold_kind) (w : world) : bool :=
  held_flags k (defusing w) (cancelando w).

(** Cues while arming: red LED, windows 0-40 and 480-520. *)
Definition arm_cues (actionCycle : Z) : M unit :=
  when (actionCycle <=? 40)
       (digitalWrite REDLED true ;;
        when (soundEnable cfg) (tone alarmTone1 200)) ;;
  when (between 480 actionCycle 520)
       (when (soundEnable cfg) (tone alarmTone2 200) ;;
        digitalWrite REDLED false).

(** Cues while disarming: green LED, windows 0-20 and 480-500. *)
Definition disarm_cues (actionCycle : Z) : M unit :=
  when (actionCycle <=? 20)
       (digitalWrite GREENLED true ;;
        when (soundEnable cfg) (tone alarmTone1 200)) ;;
  when (between 480 actionCycle 500)
       (when (soundEnable cfg) (tone alarmTone2 200) ;;
        digitalWrite GREENLED false).

(** Cues of the neutralizing loop. *)
Definition neutralize_cues (actionCycle : Z) : M unit :=
  when (between 0 actionCycle 20 && soundEnable cfg) (tone alarmTone1 200) ;;
  when (between 480 actionCycle 500 && soundEnable cfg) (tone alarmTone2 200).

(** Cues of a capturing loop, blinking the capturing team's LED. *)
Definition capture_cues (led : pin) (actionCycle : Z) : M unit :=
  when (between 0 actionCycle 20)
       (digitalWrite led true ;;
        when (soundEnable cfg) (tone alarmTone1 200)) ;;
  when (between 480 actionCycle 500)
       (when (soundEnable cfg) (tone alarmTone2 200) ;;
        digitalWrite led false).

Definition cues (k : hold_kind) : Z -> M unit :=
  match k with
  | Arm => arm_cues
  | Disarm => disarm_cues
  | CaptureRed => capture_cues REDLED
  | CaptureGreen => capture_cues GREENLED
  | Neutralize => neutralize_cues
  end.

(** The clock a loop measures expiry against: a local start instant, or
    the global [iTime] of Sabotage. *)
Inductive clock_src : Type := Since (t0 : Z) | SinceITime.

Definition clock_start (c : clock_src) (w : world) : Z :=
  match c with
  | Since t0 => t0
  | SinceITime => iTime w
  end.

Inductive hold_exit : Type := Released | Expired | Completed.

Definition progressPercent (divisor elapsedAction : Z) : Z :=
  uint16 (elapsedAction / divisor).

Fixpoint holdLoop (fuel : nat) (k : hold_kind) (clock : clock_src)
         (minutes divisor : Z) (complete : M unit)
         (startActionTime : Z) : M hold_exit :=
  match fuel with
  | O => stop OutOfFuel
  | S f =>
      h <- get (held k) ;;
      if negb h then ret Released
      else
        _ <- getKey ;;
        t <- millis ;;
        c0 <- get (clock_start clock) ;;
        let elapsedTime := ulong (t - c0) in
        if timeExpiredGuarded minutes elapsedTime then
          modify (set_endGame true) ;; ret Expired
        else
          let actionCycle := ulong (t - startActionTime) mod 1000 in
          cues k actionCycle ;;
          let elapsedAction := ulong (t - startActionTime) in
          if divisor =? 0 then stop DivByZero
          else
            let percent := progressPercent divisor elapsedAction in
            drawBar percent ;;
            if 100 <=? percent then complete ;; ret Completed
            else holdLoop f k clock minutes divisor complete startActionTime
  end.

(** A hold action from its start: the locals
    [progressPercent = 0; startActionTime = millis();] and the loop. *)
Definition hold (fuel : nat) (k : hold_kind) (clock : clock_src)
           (minutes divisor : Z) (complete : M unit) : M hold_exit :=
  startActionTime <- millis ;;
  holdLoop fuel k clock minutes divisor complete startActionTime.

(** [ACTIVATESECONDS * 10] (an [int], as in [domination]) and
    [ACTIVATESECONDS * 10UL] (as in the armed modes), as divisors. *)
Definition divisor_int : Z := ulong (int16 (ACTIVATESECONDS cfg * 10)).
Definition divisor_ul : Z := ulong (ulong (ACTIVATESECONDS cfg) * 10).

(** Control leaves a mode function either by calling another one in tail
    position ([f(); return;]) or by a plain [return]. *)
Inductive next : Type := Goto (p : proc) | Return.

(** ** Domination *)

Definition dom_minutes : Z := int16 (GAMEMINUTES cfg - 1).

(** [greenTime += millis() - iZoneTime] for the holder, as written both
    in the neutralizing loop and at the top of [gameOver()]. *)
Definition accumulate : M unit :=
  tm <- get team ;;
  t <- millis ;;
  iz <- get iZoneTime ;;
  when (tm =? 1)
       (modify (fun w => set_greenTime (ulong (greenTime w + ulong (t - iz))) w)) ;;
  when (tm =? 2)
       (modify (fun w => set_redTime (ulong (redTime w + ulong (t - iz))) w)).

(** Completion of neutralizing: lines 135-139. *)
Definition neutralize_complete : M unit :=
  delay 1000 ;;
  accumulate ;;
  modify (set_iZoneTime 0) ;;
  modify (set_team 0).

(** Completion of a capture by team [k]: lines 180-183 and 225-228. *)
Definition capture_complete (k : Z) (otherLed : pin) : M unit :=
  digitalWrite otherLed false ;;
  modify (set_team k) ;;
  t <- millis ;;
  modify (set_iZoneTime t) ;;
  delay 1000.

(** One of the three [while (cond) { banner; hold loop; after }] blocks of
    [domination()].  The result [true] is the [return] that the hold loop
    executes on clock expiry. *)
Fixpoint dom_while (fuel : nat) (cond : world -> bool) (k : hold_kind)
         (banner : string) (complete after : M unit)
         (initialTime : Z) : M bool :=
  match fuel with
  | O => stop OutOfFuel
  | S f =>
      c <- get cond ;;
      if negb c then ret false
      else
        cls ;;
        lcd_print banner ;;
        lcd_setCursor 0 1 ;;
        r <- hold f k (Since initialTime) dom_minutes divisor_int complete ;;
        match r with
        | Expired => ret true
        | _ =>
            after ;;
            dom_while f cond k banner complete after initialTime
        end
  end.

Definition dom_neutralize (fuel : nat) (initialTime : Z) : M bool :=
  dom_while fuel (fun w => (defusing w || cancelando w) && (0 <? team w))
            Neutralize "NEUTRALIZING..." neutralize_complete
            cls initialTime.

Definition dom_capture_red (fuel : nat) (initialTime : Z) : M bool :=
  dom_while fuel (fun w => defusing w && (team w =? 0))
            CaptureRed " CAPTURING ZONE" (capture_complete 2 GREENLED)
            (cls ;; digitalWrite REDLED false) initialTime.

Definition dom_capture_green (fuel : nat) (initialTime : Z) : M bool :=
  dom_while fuel (fun w => cancelando w && (team w =? 0))
            CaptureGreen " CAPTURING ZONE" (capture_complete 1 REDLED)
            (cls ;; digitalWrite GREENLED false) initialTime.

(** The statements of one round of the main loop of [domination()] up to
    the expiry test: LEDs, tones and the alternating display. *)
Definition dom_display (t initialTime : Z) : M unit :=
  let elapsedGameTime := ulong (t - initialTime) in
  let blinkCycle := ulong (t - initialTime) mod 1000 in
  let toneDuration := 50 in
  tm <- get team ;;
  when (between 0 blinkCycle 40)
       (when (tm =? 1) (digitalWrite GREENLED true) ;;
        when (tm =? 2) (digitalWrite REDLED true)) ;;
  when (between 50 blinkCycle 100)
       (when (tm =? 1) (digitalWrite GREENLED false) ;;
        when (tm =? 2) (digitalWrite REDLED false)) ;;
  when (between 0 blinkCycle 40 && soundEnable cfg)
       (tone activeTone toneDuration) ;;
  when (between 245 blinkCycle 255
        && (remainingMinutes dom_minutes elapsedGameTime <? 2)
        && soundEnable cfg) (tone activeTone toneDuration) ;;
  when (between 495 blinkCycle 510
        && (remainingMinutes dom_minutes elapsedGameTime <? 4)
        && soundEnable cfg) (tone activeTone toneDuration) ;;
  when (between 745 blinkCycle 760
        && (remainingMinutes dom_minutes elapsedGameTime <? 2)
        && soundEnable cfg) (tone activeTone toneDuration).

Definition dom_show (t initialTime : Z) (showGameTime : bool) : M unit :=
  let elapsedGameTime := ulong (t - initialTime) in
  if showGameTime then
    lcd_setCursor 3 0 ;; lcd_print "GAME TIME" ;;
    lcd_setCursor 3 1 ;; printTime dom_minutes elapsedGameTime
  else
    lcd_setCursor 2 0 ;;
    tm <- get team ;;
    when (tm =? 0) (lcd_print "NEUTRAL ZONE") ;;
    when (tm =? 1) (lcd_print " GREEN ZONE") ;;
    when (tm =? 2) (lcd_print "  RED ZONE") ;;
    when (0 <? tm)
         (lcd_setCursor 3 1 ;;
          iz <- get iZoneTime ;;
          printTimeDom (ulong (t - iz)) true).

(** The [while (true)] of [domination()]. *)
Fixpoint domination_loop (fuel : nat) (initialTime : Z)
         (showGameTime : bool) (lastDisplayToggle : Z) : M next :=
  match fuel with
  | O => stop OutOfFuel
  | S f =>
      eg <- get endGame ;;
      if eg then ret (Goto PGameOver)
      else
        _ <- getKey ;;
        t <- millis ;;
        let elapsedGameTime := ulong (t - initialTime) in
        dom_display t initialTime ;;
        let toggle := 2000 <=? ulong (t - lastDisplayToggle) in
        let lastDisplayToggle' := if toggle then t else lastDisplayToggle in
        let showGameTime' := if toggle then negb showGameTime else showGameTime in
        when toggle cls ;;
        dom_show t initialTime showGameTime' ;;
        if timeExpired dom_minutes elapsedGameTime then ret (Goto PGameOver)
        else
          r1 <- dom_neutralize f initialTime ;;
          if r1 : bool then ret Return
          else
            r2 <- dom_capture_red f initialTime ;;
            if r2 : bool then ret Return
            else
              r3 <- dom_capture_green f initialTime ;;
              if r3 : bool then ret Return
              else domination_loop f initialTime showGameTime' lastDisplayToggle'
  end.

(** [domination()]. *)
Definition domination (fuel : nat) : M next :=
  initialTime <- millis ;;
  modify (set_team 0) ;;
  modify (set_iZoneTime 0) ;;
  modify (set_redTime 0) ;;
  modify (set_greenTime 0) ;;
  lastDisplayToggle <- millis ;;
  domination_loop fuel initialTime true lastDisplayToggle.

(** The winner shown by [gameOver()]: [greenTime > redTime] picks green,
    anything else red. *)
Inductive side : Type := Green | Red.

Definition winner (green red : Z) : side :=
  if red <? green then Green else Red.

Definition show_winner : M unit :=
  g <- get greenTime ;;
  r <- get redTime ;;
  match winner g r with
  | Green => lcd_print " GREEN TEAM WINS" ;; digitalWrite GREENLED true
  | Red => lcd_print "  RED TEAM WINS" ;; digitalWrite REDLED true
  end.

(** The result screens of [gameOver()], cycled until the defuse key is
    held.  No key is polled between the inner tests of [defusing]. *)
Fixpoint gameOver_screens (fuel : nat) : M unit :=
  match fuel with
  | O => stop OutOfFuel
  | S f =>
      d <- get defusing ;;
      if d : bool then ret tt
      else
        _ <- getKey ;;
        d1 <- get defusing ;;
        if d1 : bool then ret tt
        else
          cls ;; lcd_setCursor 3 0 ;; lcd_print "TIME OVER!" ;;
          lcd_setCursor 0 1 ;;
          show_winner ;;
          delay 3000 ;;
          d2 <- get defusing ;;
          if d2 : bool then ret tt
          else
            cls ;; lcd_print "Red Time:" ;; lcd_setCursor 5 1 ;;
            r <- get redTime ;;
            printTimeDom r false ;;
            delay 3000 ;;
            d3 <- get defusing ;;
            if d3 : bool then ret tt
            else
              cls ;; lcd_print "Green Time:" ;; lcd_setCursor 5 1 ;;
              g <- get greenTime ;;
              printTimeDom g false ;;
              delay 3000 ;;
              d4 <- get defusing ;;
              if d4 : bool then ret tt
              else gameOver_screens f
  end.

(** The "Play Again?" loop at the end of [gameOver()]. *)
Fixpoint gameOver_prompt (fuel : nat) : M next :=
  match fuel with
  | O => stop OutOfFuel
  | S f =>
      choice <- waitForKey f ;;
      if Ascii.eqb choice "a"%char then
        tone 2400 30 ;; cls ;; ret (Goto PDomination)
      else if Ascii.eqb choice "b"%char then
        tone 2400 30 ;; ret (Goto PMenu)
      else gameOver_prompt f
  end.

(** [gameOver()]. *)
Definition gameOver (fuel : nat) : M next :=
  accumulate ;;
  digitalWrite GREENLED false ;;
  digitalWrite REDLED false ;;
  gameOver_screens fuel ;;
  digitalWrite GREENLED false ;;
  digitalWrite REDLED false ;;
  cls ;;
  delay 100 ;;
  lcd_print "Play Again?" ;;
  lcd_setCursor 0 1 ;;
  lcd_print "A : Yes B : No" ;;
  gameOver_prompt fuel.

(** ** The armed-objective modes *)

Definition game_minutes : Z := int16 (GAMEMINUTES cfg - 1).
Definition bomb_minutes : Z := int16 (BOMBMINUTES cfg - 1).

(** Green LED heartbeat and game time of the pre-arming loops. *)
Definition prearm_display (label : string) (minutes elapsedTime : Z) : M unit :=
  let blinkCycle := elapsedTime mod 1000 in
  when (blinkCycle <=? 50) (digitalWrite GREENLED true) ;;
  when (between 90 blinkCycle 130) (digitalWrite GREENLED false) ;;
  lcd_setCursor 3 0 ;;
  lcd_print label ;;
  lcd_setCursor 3 1 ;;
  printTime minutes elapsedTime.

(** Red LED, tones and detonation time of the armed loops; the result is
    the new [toneDuration]. *)
Definition armed_display (minutes elapsedTime toneDuration : Z) : M Z :=
  let blinkCycle := elapsedTime mod 1000 in
  when (blinkCycle <=? 40)
       (digitalWrite REDLED true ;;
        when (soundEnable cfg) (tone activeTone toneDuration)) ;;
  when (between 180 blinkCycle 220) (digitalWrite REDLED false) ;;
  when (between 245 blinkCycle 255
        && (remainingMinutes minutes elapsedTime <? 2) && soundEnable cfg)
       (tone activeTone toneDuration) ;;
  when (between 495 blinkCycle 510
        && (remainingMinutes minutes elapsedTime <? 4) && soundEnable cfg)
       (tone activeTone toneDuration) ;;
  when (between 745 blinkCycle 760
        && (remainingMinutes minutes elapsedTime <? 2) && soundEnable cfg)
       (tone activeTone toneDuration) ;;
  let toneDuration' :=
    if (remainingMinutes minutes elapsedTime =? 0) && (remainingSecs elapsedTime <? 10)
    then 300 else toneDuration in
  lcd_setCursor 1 0 ;;
  lcd_print "DETONATION IN" ;;
  lcd_setCursor 3 1 ;;
  printTime minutes elapsedTime ;;
  ret toneDuration'.

(** The code-entry branch [if (key == 'd' && passwordEnable) {...}]: the
    result tells whether the entered code matched.  [intro] is the text
    shown first, [col] the column of the error text. *)
Definition code_entry (fuel : nat) (k : option ascii) (intro : M unit)
           (col : Z) : M bool :=
  match k with
  | Some c =>
      if Ascii.eqb c "d"%char && passwordEnable cfg then
        intro ;;
        delay 1000 ;;
        cls ;;
        lcd_setCursor 0 0 ;;
        lcd_print "Enter Code" ;;
        setCodeTime fuel ;;
        code <- get codeInput ;;
        if comparePassword code (password cfg) then ret true
        else
          cls ;;
          lcd_setCursor col 0 ;;
          lcd_print "Code Error!" ;;
          when (soundEnable cfg) (tone errorTone 200) ;;
          delay 500 ;;
          cls ;;
          ret false
      else ret false
  | None => ret false
  end.

(** The [while (true)] of [search()]. *)
Fixpoint search_loop (fuel : nat) (gameStartTime : Z) : M next :=
  match fuel with
  | O => stop OutOfFuel
  | S f =>
      eg <- get endGame ;;
      if eg then ret (Goto PFailSplash)
      else
        _ <- getKey ;;
        t <- millis ;;
        let elapsedTime := ulong (t - gameStartTime) in
        prearm_display "GAME TIME" game_minutes elapsedTime ;;
        if timeExpired game_minutes elapsedTime then ret (Goto PFailSplash)
        else
          k <- getKey ;;
          armed <- code_entry f k
                     (cls ;; lcd_setCursor 2 0 ;; lcd_print "ARMING BOMB") 3 ;;
          if armed : bool then ret (Goto PDestroy)
          else
            d <- get defusing ;;
            if d && negb (passwordEnable cfg) then
              digitalWrite GREENLED false ;;
              cls ;;
              lcd_setCursor 2 0 ;;
              lcd_print "ARMING BOMB" ;;
              lcd_setCursor 0 1 ;;
              r <- hold f Arm (Since gameStartTime) game_minutes
                        divisor_ul (digitalWrite GREENLED false) ;;
              match r with
              | Completed => ret (Goto PDestroy)
              | _ =>
                  digitalWrite REDLED false ;;
                  cls ;;
                  search_loop f gameStartTime
              end
            else search_loop f gameStartTime
  end.

(** [search()].  The display flag [refresh], which the mode functions
    only write, is left out. *)
Definition search (fuel : nat) : M next :=
  cls ;;
  digitalWrite REDLED false ;;
  digitalWrite GREENLED false ;;
  digitalWrite BLUELED false ;;
  gameStartTime <- millis ;;
  search_loop fuel gameStartTime.

(** The [while (true)] of [destroy()]. *)
Fixpoint destroy_loop (fuel : nat) (bombStartTime toneDuration : Z) : M next :=
  match fuel with
  | O => stop OutOfFuel
  | S f =>
      eg <- get endGame ;;
      if eg then ret (Goto PExplodeSplash)
      else
        _ <- getKey ;;
        t <- millis ;;
        let elapsedTime := ulong (t - bombStartTime) in
        toneDuration' <- armed_display bomb_minutes elapsedTime toneDuration ;;
        if timeExpired bomb_minutes elapsedTime then ret (Goto PExplodeSplash)
        else
          k <- getKey ;;
          ok <- code_entry f k
                  (cls ;; lcd_setCursor 1 0 ;; lcd_print "DISARMING BOMB") 3 ;;
          if ok : bool then ret (Goto PDisarmedSplash)
          else
            d <- get defusing ;;
            if d && negb (passwordEnable cfg) then
              cls ;;
              digitalWrite REDLED false ;;
              lcd_setCursor 3 0 ;;
              lcd_print "DISARMING" ;;
              lcd_setCursor 0 1 ;;
              r <- hold f Disarm (Since bombStartTime) bomb_minutes
                        divisor_ul (ret tt) ;;
              match r with
              | Completed => ret (Goto PDisarmedSplash)
              | _ =>
                  digitalWrite REDLED false ;;
                  digitalWrite GREENLED false ;;
                  cls ;;
                  destroy_loop f bombStartTime toneDuration'
              end
            else destroy_loop f bombStartTime toneDuration'
  end.

(** [destroy()]. *)
Definition destroy (fuel : nat) : M next :=
  cls ;;
  lcd_setCursor 3 0 ;;
  lcd_print "BOMB ARMED" ;;
  delay 1000 ;;
  bombStartTime <- millis ;;
  destroy_loop fuel bombStartTime 50.

(** The [while (true)] of [sabotage()]; the clock is the global [iTime]. *)
Fixpoint sabotage_loop (fuel : nat) : M next :=
  match fuel with
  | O => stop OutOfFuel
  | S f =>
      eg <- get endGame ;;
      if eg then ret (Goto PFailSplash)
      else
        _ <- getKey ;;
        t <- millis ;;
        i0 <- get iTime ;;
        let elapsedTime := ulong (t - i0) in
        prearm_display "Game Time:" game_minutes elapsedTime ;;
        if timeExpired game_minutes elapsedTime then ret (Goto PFailSplash)
        else
          k <- getKey ;;
          armed <- code_entry f k
                     (cls ;; lcd_setCursor 2 0 ;; lcd_print "ARMING BOMB") 2 ;;
          if armed : bool then ret (Goto PDestroySabotage)
          else
            d <- get defusing ;;
            if d && negb (passwordEnable cfg) then
              cls ;;
              digitalWrite GREENLED false ;;
              lcd_setCursor 2 0 ;;
              lcd_print "ARMING BOMB" ;;
              lcd_setCursor 0 1 ;;
              r <- hold f Arm SinceITime game_minutes
                        divisor_ul (digitalWrite GREENLED false) ;;
              match r with
              | Completed => ret (Goto PDestroySabotage)
              | _ =>
                  digitalWrite REDLED false ;;
                  cls ;;
                  sabotage_loop f
              end
            else sabotage_loop f
  end.

(** [sabotage()]: the game clock [iTime] is taken only when [start] is
    set. *)
Definition sabotage (fuel : nat) : M next :=
  modify (set_endGame false) ;;
  cls ;;
  digitalWrite REDLED false ;;
  digitalWrite GREENLED false ;;
  st <- get start ;;
  when st
       (t <- millis ;;
        modify (set_iTime t) ;;
        modify (set_start false)) ;;
  sabotage_loop fuel.

(** The [while (true)] of [destroySabotage()]. *)
Fixpoint destroySabotage_loop (fuel : nat) (bombStartTime toneDuration : Z)
  : M next :=
  match fuel with
  | O => stop OutOfFuel
  | S f =>
      eg <- get endGame ;;
      if eg then ret (Goto PExplodeSplash)
      else
        _ <- getKey ;;
        t <- millis ;;
        let elapsedTime := ulong (t - bombStartTime) in
        toneDuration' <- armed_display bomb_minutes elapsedTime toneDuration ;;
        if timeExpired bomb_minutes elapsedTime then ret (Goto PFailSplash)
        else
          k <- getKey ;;
          ok <- code_entry f k
                  (cls ;;
                   digitalWrite REDLED false ;;
                   digitalWrite GREENLED true ;;
                   lcd_print "DISARMING BOMB") 2 ;;
          if ok : bool then ret (Goto PSabotage)
          else
            d <- get defusing ;;
            if d && negb (passwordEnable cfg) then
              cls ;;
              digitalWrite REDLED false ;;
              lcd_setCursor 3 0 ;;
              lcd_print "DISARMING" ;;
              lcd_setCursor 0 1 ;;
              r <- hold f Disarm (Since bombStartTime) bomb_minutes
                        divisor_ul
                        (cls ;; lcd_print "Bomb Disarmed" ;; delay 1000) ;;
              match r with
              | Completed => ret (Goto PSabotage)
              | _ =>
                  digitalWrite REDLED false ;;
                  digitalWrite GREENLED false ;;
                  cls ;;
                  destroySabotage_loop f bombStartTime toneDuration'
              end
            else destroySabotage_loop f bombStartTime toneDuration'
  end.

(** [destroySabotage()]. *)
Definition destroySabotage (fuel : nat) : M next :=
  modify (set_endGame false) ;;
  cls ;;
  lcd_setCursor 3 0 ;;
  lcd_print "BOMB ARMED" ;;
  delay 1000 ;;
  bombStartTime <- millis ;;
  destroySabotage_loop fuel bombStartTime 50.

(** ** Splash.ino *)

Fixpoint countdown (n : nat) : list Z :=
  match n with
  | O => []
  | S n' => Z.of_nat n :: countdown n'
  end.

(** [explosionSound()]. *)
Definition explosionSound : M unit :=
  when (soundEnable cfg)
       (for_each (countdown 200)
                 (fun freq => emit (ToneOn freq) ;; delay 20) ;;
        emit NoTone).

(** The body shared by [explodeSplash()] and [failSplash()], which differ
    in the first line of text. *)
Definition lostSplash (line : string) : M next :=
  digitalWrite REDLED false ;;
  digitalWrite GREENLED false ;;
  cls ;;
  delay 100 ;;
  modify (set_endGame false) ;;
  lcd_setCursor 1 0 ;;
  lcd_print line ;;
  lcd_setCursor 4 1 ;;
  lcd_print "GAME OVER" ;;
  explosionSound ;;
  when (relayEnable cfg) activateRelay ;;
  delay 5000 ;;
  ret (Goto PPlayAgain).

Definition explodeSplash : M next := lostSplash "TERRORISTS WIN".
Definition failSplash : M next := lostSplash "  TIME OUT".

(** [disarmedSplash()]. *)
Definition disarmedSplash : M next :=
  modify (set_endGame false) ;;
  digitalWrite REDLED false ;;
  digitalWrite GREENLED false ;;
  when (sdStatus cfg || saStatus cfg)
       (cls ;;
        lcd_setCursor 2 0 ;; lcd_print "BOMB DISARMED" ;;
        lcd_setCursor 3 1 ;; lcd_print "GOOD GUYS WIN!" ;;
        digitalWrite GREENLED true ;;
        delay 5000 ;;
        digitalWrite GREENLED false) ;;
  ret (Goto PPlayAgain).

(** The [while (true)] of [playAgainPrompt()]. *)
Fixpoint playAgain_loop (fuel : nat) : M next :=
  match fuel with
  | O => stop OutOfFuel
  | S f =>
      var <- waitForKey f ;;
      if Ascii.eqb var "a"%char then
        when (soundEnable cfg) (tone 2400 30) ;;
        if sdStatus cfg then
          startGameCount f ;; ret (Goto PSearch)
        else if saStatus cfg then
          startGameCount f ;;
          modify (set_start true) ;;
          ret (Goto PSabotage)
        else playAgain_loop f
      else if Ascii.eqb var "b"%char then
        when (soundEnable cfg) (tone 2400 30) ;;
        ret (Goto PMenu)
      else playAgain_loop f
  end.

(** [playAgainPrompt()]. *)
Definition playAgainPrompt (fuel : nat) : M next :=
  digitalWrite REDLED false ;;
  digitalWrite GREENLED false ;;
  cls ;;
  lcd_print "Play Again?" ;;
  lcd_setCursor 0 1 ;;
  lcd_print "A : Yes B : No" ;;
  playAgain_loop fuel.

(** ** Control flow between the functions

    Every call from one mode function to another is a tail call, so a
    session is a walk over [proc]: the body of a function runs and names
    the function entered next.  A plain [return] unwinds to [loop()],
    which enters the main menu again; the menu itself is the end of the
    session. *)

Definition body (fuel : nat) (p : proc) : M next :=
  match p with
  | PSearch => search fuel
  | PDestroy => destroy fuel
  | PSabotage => sabotage fuel
  | PDestroySabotage => destroySabotage fuel
  | PDomination => domination fuel
  | PGameOver => gameOver fuel
  | PFailSplash => failSplash
  | PExplodeSplash => explodeSplash
  | PDisarmedSplash => disarmedSplash
  | PPlayAgain => playAgainPrompt fuel
  | PMenu => ret Return
  end.

Fixpoint exec (fuel : nat) (p : proc) : M unit :=
  match fuel with
  | O => stop OutOfFuel
  | S f =>
      emit (Enter p) ;;
      match p with
      | PMenu => ret tt
      | _ =>
          n <- body f p ;;
          match n with
          | Goto q => exec f q
          | Return => exec f PMenu
          end
      end
  end.

End Sketch.


(** ** The rest of the password helpers *)

(** [getRealNumber()]: the value of a digit key, 11 for any other key. *)
Definition getRealNumber (fuel : nat) : M Z :=
  keyPressed <- waitForKey fuel ;;
  if is_digit keyPressed then ret (Z.of_N (N_of_ascii keyPressed) - 48)
  else ret 11.

Section Passwords.

Variable cfg : config.

(** The [while (true)] of [setCode()] for position [i]: keys that are not
    digits are asked again. *)
Fixpoint setCode_digit (fuel : nat) (i : nat) : M unit :=
  match fuel with
  | O => stop OutOfFuel
  | S f =>
      inputChar <- getNumber f ;;
      if negb (Ascii.eqb inputChar "x"%char) then
        modify (fun w => set_codeInput (store i inputChar (codeInput w)) w) ;;
        when (negb (Nat.eqb i 0))
             (lcd_setCursor (Z.of_nat i - 1) 1 ;; lcd_print "*") ;;
        lcd_setCursor (Z.of_nat i) 1 ;;
        lcd_print (String inputChar EmptyString) ;;
        when (soundEnable cfg) (tone 2400 30)
      else setCode_digit f i
  end.

(** [setCode()]. *)
Definition setCode (fuel : nat) : M unit :=
  lcd_setCursor 0 1 ;;
  for_each (seq 0 8) (fun i => setCode_digit fuel i).

(** The [while (true)] of [setPass()] for position [i]; the array
    [password] is passed in and returned. *)
Fixpoint setPass_digit (fuel : nat) (i : nat) (pass : list ascii)
  : M (list ascii) :=
  match fuel with
  | O => stop OutOfFuel
  | S f =>
      inputChar <- getNumber f ;;
      if negb (Ascii.eqb inputChar "x"%char) then
        when (negb (Nat.eqb i 0))
             (lcd_setCursor (Z.of_nat i - 1) 1 ;; lcd_print "*") ;;
        lcd_setCursor (Z.of_nat i) 1 ;;
        lcd_print (String inputChar EmptyString) ;;
        when (soundEnable cfg) (tone 2400 30) ;;
        ret (store i inputChar pass)
      else setPass_digit f i pass
  end.

(** The [for] loop of [setPass()] over the positions [l]. *)
Fixpoint setPass_from (fuel : nat) (l : list nat) (pass : list ascii)
  : M (list ascii) :=
  match l with
  | [] => ret pass
  | i :: l' =>
      pass' <- setPass_digit fuel i pass ;;
      setPass_from fuel l' pass'
  end.

(** [setPass()]. *)
Definition setPass (fuel : nat) (pass : list ascii) : M (list ascii) :=
  lcd_setCursor 0 1 ;;
  setPass_from fuel (seq 0 8) pass.

(** [setNewPass()]: the new [password] is the result. *)
Fixpoint setNewPass (fuel : nat) (pass : list ascii) : M (list ascii) :=
  match fuel with
  | O => stop OutOfFuel
  | S f =>
      cls ;;
      lcd_setCursor 0 0 ;;
      lcd_print "Enter New Pass" ;;
      pass' <- setPass f pass ;;
      cls ;;
      lcd_setCursor 0 0 ;;
      lcd_print "Retype Pass" ;;
      setCode f ;;
      code <- get codeInput ;;
      if comparePassword code pass' then
        cls ;;
        lcd_setCursor 0 0 ;;
        lcd_print "Password Set OK!" ;;
        delay 2000 ;;
        ret pass'
      else
        cls ;;
        lcd_setCursor 0 0 ;;
        lcd_print "ERROR Dont Match!" ;;
        when (soundEnable cfg) (tone errorTone 200) ;;
        delay 2000 ;;
        setNewPass f pass'
  end.

End Passwords.

(** ** Zutils.ino: menu arrows *)

(** [checkArrows(byte i, byte maxx)]: glyph 5 is the up arrow, glyph 6 the
    down arrow. *)
Definition checkArrows (i maxx : Z) : M unit :=
  let i := byte8 i in
  let maxx := byte8 maxx in
  if i =? 0 then
    lcd_setCursor 15 1 ;; emit (LcdWrite 6)
  else if i =? maxx then
    lcd_setCursor 15 0 ;; emit (LcdWrite 5)
  else if (0 <? i) && (i <? maxx) then
    lcd_setCursor 15 0 ;; emit (LcdWrite 5) ;;
    lcd_setCursor 15 1 ;; emit (LcdWrite 6)
  else ret tt.

(** ** Menu.ino

    The globals the quick configuration writes are returned as a new
    [config].  The byte array [time] is written before it is read, so the
    digits entered are the result of an entry.  The cursor and blink
    switches of the LCD have no event and are left out. *)

Definition BT_UP : ascii := "a".
Definition BT_DOWN : ascii := "b".
Definition BT_SEL : ascii := "d".
Definition BT_CANCEL : ascii := "c".

Definition menu1 (i : Z) : string :=
  if i =? 0 then "Search & Destroy"
  else if i =? 1 then "Sabotage"
  else if i =? 2 then "Domination"
  else "Configuration".

Definition menu2 (i : Z) : string :=
  if i =? 0 then "Game Config"
  else if i =? 1 then "Sound Config"
  else if i =? 2 then "Relay Test"
  else "Auto Test".

(** The [while (true)] around [getRealNumber()]: invalid keys are asked
    again, a digit is echoed. *)
Fixpoint enter_digit (fuel : nat) (sound : bool) : M Z :=
  match fuel with
  | O => stop OutOfFuel
  | S f =>
      digit <- getRealNumber f ;;
      if negb (digit =? 11) then
        lcd_print (dec digit) ;;
        when sound (tone 2400 30) ;;
        ret digit
      else enter_digit f sound
  end.

(** The [for] loop over the positions [l] of an entry; the game time
    prints a colon before position 2. *)
Fixpoint enter_digits (fuel : nat) (sound colon : bool) (l : list nat)
  : M (list Z) :=
  match l with
  | [] => ret []
  | i :: l' =>
      when (Nat.eqb i 2 && colon) (lcd_print ":") ;;
      d <- enter_digit fuel sound ;;
      ds <- enter_digits fuel sound colon l' ;;
      ret (d :: ds)
  end.

(** The confirmation loop: [BT_SEL] accepts, [BT_CANCEL] asks again. *)
Fixpoint confirm (fuel : nat) (sound : bool) : M bool :=
  match fuel with
  | O => stop OutOfFuel
  | S f =>
      k <- waitForKey f ;;
      if Ascii.eqb k BT_SEL then when sound (tone 2400 30) ;; ret true
      else if Ascii.eqb k BT_CANCEL then when sound (tone 2400 30) ;; ret false
      else confirm f sound
  end.

(** One [do { ... } while (!accepted)] block of [configQuickGame()]. *)
Fixpoint ask_number (fuel : nat) (sound : bool) (prompt placeholder : string)
         (n : nat) (colon : bool) : M (list Z) :=
  match fuel with
  | O => stop OutOfFuel
  | S f =>
      cls ;;
      lcd_print prompt ;;
      delay 100 ;;
      lcd_setCursor 0 1 ;;
      lcd_print placeholder ;;
      lcd_setCursor 0 1 ;;
      ds <- enter_digits f sound colon (seq 0 n) ;;
      lcd_setCursor 13 1 ;;
      lcd_print "ok?" ;;
      accepted <- confirm f sound ;;
      if accepted : bool then ret ds
      else ask_number f sound prompt placeholder n colon
  end.

(** A yes/no prompt: [a] is yes, [b] is no. *)
Fixpoint yes_no (fuel : nat) : M bool :=
  match fuel with
  | O => stop OutOfFuel
  | S f =>
      k <- waitForKey f ;;
      if Ascii.eqb k "a"%char then ret true
      else if Ascii.eqb k "b"%char then ret false
      else yes_no f
  end.

(** [(time[0] * 600) + (time[1] * 60) + (time[2] * 10) + time[3]] and
    [(time[0] * 10) + time[1]], in [int]. *)
Definition game_time_of (ds : list Z) : Z :=
  int16 (nth 0 ds 0 * 600 + nth 1 ds 0 * 60 + nth 2 ds 0 * 10 + nth 3 ds 0).
Definition two_digits_of (ds : list Z) : Z :=
  int16 (nth 0 ds 0 * 10 + nth 1 ds 0).

(** [configQuickGame()] for the mode flags [sd], [sa], [dO] set by the
    main menu. *)
Definition configQuickGame (fuel : nat) (sd sa dO : bool) (cfg : config)
  : M config :=
  cls ;;
  gameMinutes <-
    (if sd || dO || sa then
       ds <- ask_number fuel (soundEnable cfg) "Game Time:" "00:00 hh:mm" 4 true ;;
       cls ;; ret (game_time_of ds)
     else ret (GAMEMINUTES cfg)) ;;
  bombMinutes <-
    (if sd || sa then
       ds <- ask_number fuel (soundEnable cfg) "Bomb Time:" "00 minutes" 2 false ;;
       cls ;; ret (two_digits_of ds)
     else ret (BOMBMINUTES cfg)) ;;
  activateSeconds <-
    (if sd || dO || sa then
       ds <- ask_number fuel (soundEnable cfg) "Arm Time:" "00 seconds" 2 false ;;
       cls ;; ret (two_digits_of ds)
     else ret (ACTIVATESECONDS cfg)) ;;
  sound <-
    (if sd || sa || dO then
       cls ;;
       lcd_print "Enable Sound?" ;;
       lcd_setCursor 0 1 ;;
       lcd_print "A:Yes B:No" ;;
       yes <- yes_no fuel ;;
       when yes (tone 2400 30) ;;
       cls ;; ret yes
     else ret (soundEnable cfg)) ;;
  relay <-
    (if sd || sa then
       cls ;;
       lcd_print "Enable Relay?" ;;
       lcd_setCursor 0 1 ;;
       lcd_print "A:Yes B:No" ;;
       yes <- yes_no fuel ;;
       when sound (tone 2400 30) ;;
       cls ;; ret yes
     else ret (relayEnable cfg)) ;;
  code <-
    (if sd || sa then
       cls ;;
       lcd_print "Enable Code Arm?" ;;
       lcd_setCursor 0 1 ;;
       lcd_print "A:Yes B:No" ;;
       yes <- yes_no fuel ;;
       when sound (tone 2400 30) ;;
       pass <- (if yes : bool then
                  setNewPass (mkConfig gameMinutes bombMinutes activateSeconds
                                       sound relay (passwordEnable cfg) sd sa
                                       (password cfg) (RELAY_TIME cfg))
                             fuel (password cfg)
                else ret (password cfg)) ;;
       cls ;; ret (yes, pass)
     else ret (passwordEnable cfg, password cfg)) ;;
  ret (mkConfig gameMinutes bombMinutes activateSeconds sound relay
                (fst code) sd sa (snd code) (RELAY_TIME cfg)).

(** What [menuPrincipal()] does once [BT_SEL] is pressed: it starts a
    mode with the configuration just entered, opens [config()], or, if
    no [case] of the [switch] applies, just returns. *)
Inductive menu_exit : Type :=
| Play (c : config) (p : proc)
| Configure
| NoEntry.

(** The [switch (menuIndex)] of [menuPrincipal()]. *)
Definition menu_select (f : nat) (cfg : config) (menuIndex : Z) : M menu_exit :=
  if menuIndex =? 0 then
    c <- configQuickGame f true false false cfg ;;
    startGameCount c f ;;
    ret (Play c PSearch)
  else if menuIndex =? 1 then
    c <- configQuickGame f false true false cfg ;;
    startGameCount c f ;;
    ret (Play c PSabotage)
  else if menuIndex =? 2 then
    c <- configQuickGame f false false true cfg ;;
    startGameCount c f ;;
    ret (Play c PDomination)
  else if menuIndex =? 3 then ret Configure
  else ret NoEntry.

(** The [while (true)] of [menuPrincipal()]. *)
Fixpoint menuPrincipal_loop (fuel : nat) (cfg : config) (menuIndex : Z)
  : M menu_exit :=
  match fuel with
  | O => stop OutOfFuel
  | S f =>
      k <- waitForKey f ;;
      if Ascii.eqb k BT_UP && (0 <? menuIndex) then
        when (soundEnable cfg) (tone 2400 30) ;;
        cls ;;
        lcd_print (menu1 (menuIndex - 1)) ;;
        checkArrows (menuIndex - 1) 3 ;;
        delay 50 ;;
        menuPrincipal_loop f cfg (menuIndex - 1)
      else if Ascii.eqb k BT_DOWN && (menuIndex <? 3) then
        when (soundEnable cfg) (tone 2400 30) ;;
        cls ;;
        lcd_print (menu1 (menuIndex + 1)) ;;
        checkArrows (menuIndex + 1) 3 ;;
        delay 50 ;;
        menuPrincipal_loop f cfg (menuIndex + 1)
      else if Ascii.eqb k BT_SEL then
        when (soundEnable cfg) (tone 2400 30) ;;
        cls ;;
        menu_select f cfg menuIndex
      else menuPrincipal_loop f cfg menuIndex
  end.

(** [menuPrincipal()]. *)
Definition menuPrincipal (fuel : nat) (cfg : config) : M menu_exit :=
  digitalWrite GREENLED false ;;
  digitalWrite REDLED false ;;
  digitalWrite BLUELED false ;;
  cls ;;
  lcd_print (menu1 0) ;;
  lcd_setCursor 15 1 ;;
  checkArrows 0 3 ;;
  menuPrincipal_loop fuel cfg 0.

(** The [while (true)] of [config()]; the result [true] is the relay
    test, after which [config()] calls itself, [false] is [BT_CANCEL],
    after which it calls [menuPrincipal()]. *)
Fixpoint config_loop (fuel : nat) (cfg : config) (menuIndex : Z) : M bool :=
  match fuel with
  | O => stop OutOfFuel
  | S f =>
      k <- waitForKey f ;;
      if Ascii.eqb k BT_UP && (0 <? menuIndex) then
        when (soundEnable cfg) (tone 2400 30) ;;
        cls ;;
        lcd_print (menu2 (menuIndex - 1)) ;;
        checkArrows (menuIndex - 1) 3 ;;
        delay 50 ;;
        config_loop f cfg (menuIndex - 1)
      else if Ascii.eqb k BT_DOWN && (menuIndex <? 3) then
        when (soundEnable cfg) (tone 2400 30) ;;
        cls ;;
        lcd_print (menu2 (menuIndex + 1)) ;;
        checkArrows (menuIndex + 1) 3 ;;
        delay 50 ;;
        config_loop f cfg (menuIndex + 1)
      else if Ascii.eqb k BT_CANCEL then
        when (soundEnable cfg) (tone 2400 30) ;;
        ret false
      else if Ascii.eqb k BT_SEL then
        when (soundEnable cfg) (tone 2400 30) ;;
        cls ;;
        if menuIndex =? 2 then
          lcd_print "RELAYPIN ON!" ;;
          digitalWrite RELAYPIN true ;;
          delay 4000 ;;
          cls ;;
          lcd_print "RELAYPIN OFF!" ;;
          digitalWrite RELAYPIN false ;;
          delay 2000 ;;
          ret true
        else config_loop f cfg menuIndex
      else config_loop f cfg menuIndex
  end.

(** [config()], up to its call of [menuPrincipal()]. *)
Fixpoint config_menu (fuel : nat) (cfg : config) : M unit :=
  match fuel with
  | O => stop OutOfFuel
  | S f =>
      cls ;;
      lcd_print (menu2 0) ;;
      checkArrows 0 3 ;;
      delay 500 ;;
      again <- config_loop f cfg 0 ;;
      if again : bool then config_menu f cfg else ret tt
  end.
(** * Definitions used by the statements *)

(** The display of a mode loop for [M] configured minutes: the loops pass
    [int minutes = M - 1] to [printTime]. *)
Definition display_fields (M E : Z) : Z * Z :=
  time_fields (ulong (int16 (M - 1))) E.


(** ** Frames and triples *)

(** Control events of the trace: a function is entered, or [team] is
    written. *)
Definition is_ctl (e : event) : bool :=
  match e with
  | Enter _ | TeamWrite _ => true
  | _ => false
  end.

Definition ctl (tr : list (Z * event)) : list (Z * event) :=
  filter (fun x => is_ctl (snd x)) tr.

(** [unchanged w w']: the zone state, the session flags and the game
    clock are the same in [w'] as in [w], and no control event was added.
    Time, keypad, code buffer and display may differ. *)
Record unchanged (w w' : world) : Prop := mkUnchanged {
  un_endGame : endGame w' = endGame w;
  un_start : start w' = start w;
  un_iTime : iTime w' = iTime w;
  un_team : team w' = team w;
  un_iZoneTime : iZoneTime w' = iZoneTime w;
  un_redTime : redTime w' = redTime w;
  un_greenTime : greenTime w' = greenTime w;
  un_ctl : ctl (out w') = ctl (out w)
}.

(** [m] changes nothing but time, keypad, code buffer and display,
    however it ends. *)
Definition quiet {A} (m : M A) : Prop :=
  forall w, unchanged w (final (m w)).

(** [shown w w']: [w'] is [w] with more display output. *)
Record shown (w w' : world) : Prop := mkShown {
  sh_now : now w' = now w;
  sh_script : script w' = script w;
  sh_defusing : defusing w' = defusing w;
  sh_cancelando : cancelando w' = cancelando w;
  sh_codeInput : codeInput w' = codeInput w;
  sh_unchanged : unchanged w w'
}.

(** [m] only prints, and always returns. *)
Definition display_only {A} (m : M A) : Prop :=
  forall w, exists a w', m w = Ok a w' /\ shown w w'.

(** Triples: from a world satisfying [P], a returning run ends in [Q] and
    a halted run in [H]. *)
Definition hoare {A} (P : world -> Prop) (m : M A)
           (Q : A -> world -> Prop) (H : world -> Prop) : Prop :=
  forall w, P w ->
            match m w with
            | Ok a w' => Q a w'
            | Halt _ w' => H w'
            end.

(** A predicate on worlds that [unchanged] steps preserve. *)
Definition stable (I : world -> Prop) : Prop :=
  forall w w', I w -> unchanged w w' -> I w'.

(** ** Hold actions over a stretch of polls *)

(** [in_progress k c0 minutes divisor start t polls]: starting at clock
    value [t], at every poll of [polls] the clock that started at [c0] has
    not expired, the progress since [start] is below 100 and the hold
    flag of kind [k] is still set afterwards. *)
Fixpoint in_progress (k : hold_kind) (c0 minutes divisor start t : Z)
         (polls : list tick) : bool :=
  match polls with
  | [] => true
  | p :: rest =>
      let t' := ulong (t + dt p) in
      negb (timeExpiredGuarded minutes (ulong (t' - c0)))
      && (progressPercent divisor (ulong (t' - start)) <? 100)
      && held_flags k (heldD p) (heldC p)
      && in_progress k c0 minutes divisor start t' rest
  end.

(** The clock value after the polls. *)
Fixpoint clock_after (t : Z) (polls : list tick) : Z :=
  match polls with
  | [] => t
  | p :: rest => clock_after (ulong (t + dt p)) rest
  end.

(** A hold that starts at clock value [t] stays in progress over the
    polls [pre] and is found released at the poll [last], where the clock
    that started at [c0] has not expired and the progress since [t] is
    still below 100. *)
Definition released_early (k : hold_kind) (c0 minutes divisor t : Z)
           (pre : list tick) (last : tick) : bool :=
  in_progress k c0 minutes divisor t t pre
  && negb (timeExpiredGuarded minutes
             (ulong (ulong (clock_after t pre + dt last) - c0)))
  && (progressPercent divisor (ulong (ulong (clock_after t pre + dt last) - t))
      <? 100)
  && negb (held_flags k (heldD last) (heldC last)).

(** The hold action that a poll of the main loop of [domination()]
    starts when the zone belongs to [tm], in the order of the three
    [while] blocks: neutralizing an owned zone with either key, capturing
    a neutral one for red with the defuse key, or else for green with the
    cancel key. *)
Definition dom_starts (tm : Z) (p : tick) : option hold_kind :=
  if (heldD p || heldC p) && (0 <? tm) then Some Neutralize
  else if heldD p && (tm =? 0) then Some CaptureRed
  else if heldC p && (tm =? 0) then Some CaptureGreen
  else None.

(** ** The game clock of Sabotage *)

(** The game clock [iTime] and the flag [start] that makes [sabotage()]
    take a new one are as in [w0]. *)
Definition clock_kept (w0 w : world) : Prop :=
  iTime w = iTime w0 /\ start w = start w0.

(** ** Zone control as the specification words it

    The control intervals are read off the trace: a team acquires the
    zone when [team] is written with its number, and releases it when
    [team] is written 0 or when the session ends, which is when
    [gameOver()] is entered or when control is back in the main menu;
    entering [domination()] starts a new session. *)

Record interval : Type := mkInterval {
  i_team : Z;
  i_acquire : Z;
  i_release : Z
}.

Record zone_view : Type := mkView {
  holder : Z;                   (* 0 when nobody holds the zone *)
  since : Z;                    (* acquire instant of the holder *)
  closed : list interval        (* finished intervals, newest first *)
}.

Definition view0 : zone_view := mkView 0 0 [].

Definition close_at (t : Z) (v : zone_view) : zone_view :=
  if holder v =? 0 then v
  else mkView 0 0 (mkInterval (holder v) (since v) t :: closed v).

Definition view_step (e : Z * event) (v : zone_view) : zone_view :=
  match snd e with
  | Enter PDomination => view0
  | Enter PGameOver | Enter PMenu => close_at (fst e) v
  | TeamWrite k =>
      if k =? 0 then close_at (fst e) v
      else mkView k (fst e) (closed (close_at (fst e) v))
  | _ => v
  end.

Definition view (tr : list (Z * event)) : zone_view :=
  fold_right view_step view0 tr.

(** The sum of (release - acquire) over the intervals of team [k], each
    difference taken in [unsigned long]. *)
Fixpoint interval_sum (k : Z) (l : list interval) : Z :=
  match l with
  | [] => 0
  | i :: l' =>
      (if i_team i =? k then ulong (i_release i - i_acquire i) else 0)
      + interval_sum k l'
  end.

Definition control_time (k : Z) (tr : list (Z * event)) : Z :=
  interval_sum k (closed (view tr)).

(** The totals of the sketch agree with the intervals of the trace. *)
Definition totals_agree (w : world) : Prop :=
  greenTime w = ulong (control_time 1 (out w))
  /\ redTime w = ulong (control_time 2 (out w)).

(** While [domination()] runs: the totals agree, the holder of the trace
    is [team], and [iZoneTime] is its acquire instant. *)
Definition zone_inv (w : world) : Prop :=
  totals_agree w
  /\ holder (view (out w)) = team w
  /\ (team w <> 0 -> since (view (out w)) = iZoneTime w).

(** After [gameOver()] has closed the last interval. *)
Definition zone_over (w : world) : Prop :=
  totals_agree w /\ holder (view (out w)) = 0.

(** The session ended by a return to the main menu at [T] while [team]
    held the zone: the last interval of the trace is the holder's, from
    [iZoneTime] to [T], and the totals of the sketch are the sums without
    it. *)
Definition lost_interval (w : world) : Prop :=
  exists T tr,
    out w = (T, Enter PMenu) :: tr
    /\ team w <> 0
    /\ closed (view (out w))
       = mkInterval (team w) (iZoneTime w) T :: closed (view tr)
    /\ greenTime w = ulong (control_time 1 tr)
    /\ redTime w = ulong (control_time 2 tr).

(** ** The winner declared on the display *)

(** The side that a display line declares the winner: the two lines that
    [gameOver()] prints for it. *)
Definition declares (e : event) : option side :=
  match e with
  | LcdPrint s =>
      if String.eqb s " GREEN TEAM WINS" then Some Green
      else if String.eqb s "  RED TEAM WINS" then Some Red
      else None
  | _ => None
  end.

(** The sides declared winner in a trace, newest first. *)
Fixpoint declared (tr : list (Z * event)) : list side :=
  match tr with
  | [] => []
  | x :: tr' =>
      match declares (snd x) with
      | Some s => s :: declared tr'
      | None => declared tr'
      end
  end.

(** [m] declares no winner, however it ends. *)
Definition declares_none {A} (m : M A) : Prop :=
  forall w, declared (out (final (m w))) = declared (out w).

(** The totals are [g] and [r], and on top of the declarations [d0] only
    the winner for these totals has been declared. *)
Definition result_inv (g r : Z) (d0 : list side) (w : world) : Prop :=
  greenTime w = g /\ redTime w = r
  /\ exists n, declared (out w) = repeat (winner g r) n ++ d0.

(** ** Sample sessions *)

(** A keypad poll [dt] ms after the previous one, with no new key and the
    given hold flags, and one that reports the key [c]. *)
Definition idle_poll (dt : Z) (d c : bool) : tick := mkTick dt None d c.
Definition key_poll (dt : Z) (c : ascii) : tick := mkTick dt (Some c) false false.

(** Power-on state with the keypad script [s]. *)
Definition world0 (s : list tick) : world :=
  mkWorld 0 s false false false true 0 0 0 0 0 (repeat NUL 8) [].

(** One minute of Domination, 5 s to capture or neutralize. *)
Definition cfg_dom : config :=
  mkConfig 1 1 5 true false false false false [] 5000.

(** Green captures the zone in the first 5 s; 56 s into the game the
    defuse key is held to neutralize and is still held when the minute
    runs out. *)
Definition script_expiry_in_hold : list tick :=
  [idle_poll 10 false true; idle_poll 5000 false true]
  ++ repeat (idle_poll 1000 false false) 50
  ++ [idle_poll 10 true false; idle_poll 1000 true false;
      idle_poll 1000 true false; idle_poll 1000 true false].

(** The same capture, no key held when the minute runs out, then the
    defuse key and [b] at the result screens. *)
Definition script_expiry_idle : list tick :=
  [idle_poll 10 false true; idle_poll 5000 false true]
  ++ repeat (idle_poll 1000 false false) 53
  ++ [idle_poll 10 true false; key_poll 10 "b"].

(** The same capture, the defuse key held at the poll that sees the
    minute run out, then [b]. *)
Definition script_expiry_defuse_held : list tick :=
  [idle_poll 10 false true; idle_poll 5000 false true]
  ++ repeat (idle_poll 1000 false false) 52
  ++ [idle_poll 1000 true false; key_poll 10 "b"].

(** The same capture, no key held when the minute runs out nor at the
    first poll of the result screens, the defuse key at the second, then
    [b]. *)
Definition script_expiry_result_shown : list tick :=
  [idle_poll 10 false true; idle_poll 5000 false true]
  ++ repeat (idle_poll 1000 false false) 53
  ++ [idle_poll 10 false false; idle_poll 10 true false; key_poll 10 "b"].

(** One minute of Search and Destroy with the code 12345678 enabled. *)
Definition cfg_code : config :=
  mkConfig 1 1 5 true false true true false
           (list_ascii_of_string "12345678") 5000.

(** [d] is pressed 58 s into the game, a wrong code is typed over the
    next 3.2 s, and the pre-arming loop is polled for 10 more seconds. *)
Definition script_code_over_deadline : list tick :=
  [idle_poll 58000 false false; key_poll 10 "d"]
  ++ map (key_poll 400) (list_ascii_of_string "12345679")
  ++ repeat (idle_poll 1000 false false) 10.

(** Ten minutes of Sabotage or Search and Destroy, a 2 minute bomb, 5 s
    holds, no code. *)
Definition cfg_sabotage : config :=
  mkConfig 10 2 5 true false false false true [] 5000.
Definition cfg_search : config :=
  mkConfig 10 2 5 true false false true false [] 5000.

(** The defuse key held over four polls, 5 s from the third to the last. *)
Definition script_hold : list tick :=
  [idle_poll 10 true false; idle_poll 10 true false;
   idle_poll 2500 true false; idle_poll 2500 true false].

(** The defuse key found held at the second poll, still held 3 s later
    and released at the next poll. *)
Definition script_partial_hold : list tick :=
  [idle_poll 10 false false; idle_poll 10 true false;
   idle_poll 3000 true false; idle_poll 10 false false].

(** Arm, disarm, arm and disarm again. *)
Definition script_two_cycles : list tick :=
  [idle_poll 1000 false false] ++ script_hold
  ++ [idle_poll 1000 false false] ++ script_hold
  ++ [idle_poll 1000 false false] ++ script_hold
  ++ [idle_poll 1000 false false] ++ script_hold
  ++ [idle_poll 10 false false].

(** An armed bomb, one second after power-on. *)
Definition world_armed (s : list tick) : world :=
  mkWorld 1000 s false false false false 0 0 0 0 0 (repeat NUL 8) [].

(** [gameOver()] is about to be entered at 59010 ms; green holds the zone
    since 5010 ms. *)
Definition world_game_over (s : list tick) : world :=
  mkWorld 59010 s false false false true 0 1 5010 0 0 (repeat NUL 8) [].

(** The green capture key held at power-on. *)
Definition world_capturing (s : list tick) : world :=
  mkWorld 0 s false true false true 0 0 0 0 0 (repeat NUL 8) [].

(** ** More definitions used by the statements *)

(** [w] with the events [l] (newest first) added to its trace. *)
Definition with_out (l : list (Z * event)) (w : world) : world :=
  mkWorld (now w) (script w) (defusing w) (cancelando w) (endGame w) (start w)
          (iTime w) (team w) (iZoneTime w) (redTime w) (greenTime w)
          (codeInput w) (l ++ out w).

(** Character cells written by a piece of trace. *)
Definition is_cell (e : Z * event) : bool :=
  match snd e with
  | LcdWrite _ | LcdPrint _ => true
  | _ => false
  end.

Definition cells (l : list (Z * event)) : nat := List.length (filter is_cell l).

(** Every glyph written is one of the five bar glyphs. *)
Definition bar_glyphs (l : list (Z * event)) : Prop :=
  forall t g, In (t, LcdWrite g) l -> 0 <= g <= 4.

(** ** Keypad input *)

(** A poll that reports no key. *)
Definition no_key (p : tick) : bool :=
  match key p with
  | None => true
  | Some _ => false
  end.

(** The world after the polls [pre ++ [last]], with [rest] still to come:
    the clock has advanced over all of them and the hold flags are those
    of the last one. *)
Definition polled (pre : list tick) (last : tick) (rest : list tick)
           (w : world) : world :=
  set_clock (clock_after (now w) (pre ++ [last])) rest
            (heldD last) (heldC last) w.

(** The digit keys a stretch of polls reports, in order. *)
Fixpoint digit_keys (l : list tick) : list ascii :=
  match l with
  | [] => []
  | p :: l' =>
      match key p with
      | Some c => if is_digit c then c :: digit_keys l' else digit_keys l'
      | None => digit_keys l'
      end
  end.

(** The value of a digit character. *)
Definition digit_value (c : ascii) : Z := Z.of_N (N_of_ascii c) - 48.

(** ** Time and output without keypad polls *)

(** [w] with the clock at [t] and the events [l] added to its trace. *)
Definition at_time (t : Z) (l : list (Z * event)) (w : world) : world :=
  with_out l (set_now t w).

Definition pin_eqb (p q : pin) : bool :=
  match p, q with
  | REDLED, REDLED | GREENLED, GREENLED | BLUELED, BLUELED
  | RELAYPIN, RELAYPIN => true
  | _, _ => false
  end.

(** The level a piece of trace (newest first) leaves on pin [p], if it
    writes the pin at all. *)
Fixpoint pin_level (p : pin) (l : list (Z * event)) : option bool :=
  match l with
  | [] => None
  | (_, DigitalWrite q v) :: l' => if pin_eqb q p then Some v else pin_level p l'
  | _ :: l' => pin_level p l'
  end.

Definition is_sound (e : Z * event) : bool :=
  match snd e with
  | Tone _ _ | ToneOn _ => true
  | _ => false
  end.

(** No tone is started in a piece of trace. *)
Definition silent (l : list (Z * event)) : bool := forallb (fun e => negb (is_sound e)) l.

(** Duration of [explodeSplash()] and [failSplash()]: 100 ms, the
    explosion sound (200 steps of 20 ms), the relay pulse and 5 s. *)
Definition lostSplash_ms (cfg : config) : Z :=
  100 + (if soundEnable cfg then 4000 else 0)
  + (if relayEnable cfg then RELAY_TIME cfg else 0) + 5000.

(** ** The call graph of a session *)

(** The functions entered in a piece of trace, newest first. *)
Fixpoint entered (tr : list (Z * event)) : list proc :=
  match tr with
  | [] => []
  | (_, Enter p) :: tr' => p :: entered tr'
  | _ :: tr' => entered tr'
  end.

(** The function control passes to: a plain [return] unwinds to the main
    menu. *)
Definition target (n : next) : proc :=
  match n with
  | Goto q => q
  | Return => PMenu
  end.

(** The functions each mode function can pass control to. *)
Definition successors (cfg : config) (p : proc) : list proc :=
  match p with
  | PSearch => [PFailSplash; PDestroy]
  | PDestroy => [PDisarmedSplash; PExplodeSplash]
  | PSabotage => [PDestroySabotage; PFailSplash]
  | PDestroySabotage => [PSabotage; PExplodeSplash; PFailSplash]
  | PDomination => [PGameOver; PMenu]
  | PGameOver => [PDomination; PMenu]
  | PFailSplash | PExplodeSplash | PDisarmedSplash => [PPlayAgain]
  | PPlayAgain =>
      (if sdStatus cfg then [PSearch]
       else if saStatus cfg then [PSabotage] else []) ++ [PMenu]
  | PMenu => []
  end.

(** The functions of the three modes. *)
Definition in_search (p : proc) : bool :=
  match p with
  | PSearch | PDestroy | PFailSplash | PExplodeSplash | PDisarmedSplash
  | PPlayAgain | PMenu => true
  | _ => false
  end.

Definition in_sabotage (p : proc) : bool :=
  match p with
  | PSabotage | PDestroySabotage | PFailSplash | PExplodeSplash
  | PPlayAgain | PMenu => true
  | _ => false
  end.

Definition in_domination (p : proc) : bool :=
  match p with
  | PDomination | PGameOver | PMenu => true
  | _ => false
  end.

(** ** Menu navigation *)

(** The keys a stretch of polls reports, in order. *)
Fixpoint keys_of (l : list tick) : list ascii :=
  match l with
  | [] => []
  | p :: l' =>
      match key p with
      | Some c => c :: keys_of l'
      | None => keys_of l'
      end
  end.

(** The line of a four-line menu after a key: up and down move by one
    and stop at the first and the last line, other keys do not move. *)
Definition menu_move (i : Z) (k : ascii) : Z :=
  if Ascii.eqb k BT_UP then Z.max 0 (i - 1)
  else if Ascii.eqb k BT_DOWN then Z.min 3 (i + 1)
  else i.

Definition menu_index (ks : list ascii) : Z := fold_left menu_move ks 0.

(** ** Typing a code *)

(** A key press as the keypad script has it: the polls that report no
    key, then the poll that reports the key. *)
Definition press : Type := (list tick * tick)%type.

Fixpoint press_polls (ps : list press) : list tick :=
  match ps with
  | [] => []
  | p :: ps' => fst p ++ snd p :: press_polls ps'
  end.

(** The keys of the presses, in order. *)
Definition pressed (ps : list press) : list (option ascii) :=
  map (fun p => key (snd p)) ps.

(** The presses are the entry of a code that started at [st], the clock
    being at [t]: no poll before a press reports a key, and when the entry
    of a symbol begins more than 100 ms of the entry time are left. *)
Fixpoint typed_in_time (cfg : config) (st t : Z) (ps : list press) : bool :=
  match ps with
  | [] => true
  | p :: ps' =>
      negb (codeTimeLeft cfg st t <=? 100)
      && forallb no_key (fst p)
      && typed_in_time cfg st (clock_after t (fst p ++ [snd p])) ps'
  end.

(** Eight key presses 400 ms apart that type 12345678, after a poll that
    reports no key and one that reports [d]. *)
Definition script_code_typed : list tick :=
  [idle_poll 10 false false; key_poll 10 "d"]
  ++ map (key_poll 400) (list_ascii_of_string "12345678").

Definition presses_code_typed : list press :=
  map (fun c => ([], key_poll 400 c)) (list_ascii_of_string "12345678").
(** * Properties *)

(** ** Machine integers *)

Lemma ulong_range z : 0 <= ulong z < two32.
Proof. unfold ulong, two32. apply Z.mod_pos_bound. lia. Qed.

Lemma ulong_small z : 0 <= z < two32 -> ulong z = z.
Proof. intros H. unfold ulong. apply Z.mod_small. exact H. Qed.

Lemma ulong_idem z : ulong (ulong z) = ulong z.
Proof. apply ulong_small, ulong_range. Qed.

Example dec_examples : dec 0 = "0"%string /\ dec 59 = "59"%string.
Proof. split; reflexivity. Qed.

(** ** The countdown display *)

Lemma int16_small z : -32768 <= z < 32768 -> int16 z = z.
Proof. intros H. unfold int16. rewrite Z.mod_small; lia. Qed.

Lemma display_fields_eq M E :
  1 <= M <= 32768 -> 0 <= E < M * 60000 ->
  display_fields M E = (M - 1 - E / 60000, 59 - (E / 1000) mod 60).
Proof.
  intros HM HE. unfold display_fields, time_fields, remainingMinutes, remainingSecs.
  rewrite int16_small by lia.
  rewrite (ulong_small (M - 1)) by (unfold two32; lia).
  assert (Hq : 0 <= E / 60000 <= M - 1).
  { split; [apply Z.div_pos; lia|].
    assert (E / 60000 < M) by (apply Z.div_lt_upper_bound; lia). lia. }
  rewrite ulong_small by (unfold two32; lia). reflexivity.
Qed.

Lemma display_seconds M E :
  1 <= M <= 32768 -> 0 <= E < M * 60000 ->
  fields_seconds (display_fields M E) = 60 * M - 1 - E / 1000.
Proof.
  intros HM HE. rewrite display_fields_eq by assumption.
  unfold fields_seconds; cbn [fst snd].
  assert (Hd : E / 60000 = E / 1000 / 60) by (rewrite Z.div_div by lia; reflexivity).
  pose proof (Z.div_mod (E / 1000) 60 ltac:(lia)). lia.
Qed.

(** C3 (as stated, refuted).  The display is not strictly decreasing in
    [E]: it is the same at [E = 0] and [E = 1].  With [1] as the minutes
    argument of [printTime] no [E] below [1 * 60000] shows (0, 0): the
    range ends at 1 minute 0 seconds.  With [1] as the configured minutes
    the loop shows [0] minutes at [E = 0], not [M - E / 60000 = 1]. *)
Lemma remaining_time_claim_fails :
  ~ (forall M E E', 0 <= E -> E < E' -> E' < M * 60000 ->
       fields_seconds (time_fields M E') < fields_seconds (time_fields M E))
  /\ ~ (exists E, 0 <= E < 1 * 60000 /\ time_fields 1 E = (0, 0))
  /\ time_fields 1 59999 = (1, 0)
  /\ fst (display_fields 1 0) <> 1 - 0 / 60000.
Proof.
  split; [|split; [|split]].
  - intros H. specialize (H 1 0 1 ltac:(lia) ltac:(lia) ltac:(lia)).
    vm_compute in H. discriminate H.
  - intros (E & HE & HF).
    assert (Hq : E / 60000 = 0) by (apply Z.div_small; lia).
    unfold time_fields, remainingMinutes in HF. rewrite Hq in HF.
    apply (f_equal fst) in HF. vm_compute in HF. discriminate HF.
  - reflexivity.
  - vm_compute. congruence.
Qed.

(** C3 (amended).  For [M] configured minutes the mode loops call
    [printTime(M - 1, E)]; for [0 <= E < M * 60000] it shows
    [M - 1 - E / 60000] minutes and [59 - (E / 1000 mod 60)] seconds, that
    is [60 * M - 1 - E / 1000] seconds in all.  The display never
    increases with [E], decreases strictly from one whole second to the
    next, and is (0, 0) exactly during the last second of the range. *)
Theorem remaining_time_display (M E : Z) :
  1 <= M <= 32768 -> 0 <= E < M * 60000 ->
  display_fields M E = (M - 1 - E / 60000, 59 - (E / 1000) mod 60)
  /\ fields_seconds (display_fields M E) = 60 * M - 1 - E / 1000
  /\ (forall E', E <= E' < M * 60000 ->
        fields_seconds (display_fields M E') <= fields_seconds (display_fields M E))
  /\ (forall E', E' < M * 60000 -> E / 1000 < E' / 1000 ->
        fields_seconds (display_fields M E') < fields_seconds (display_fields M E))
  /\ (display_fields M E = (0, 0) <-> M * 60000 - 1000 <= E).
Proof.
  intros HM HE.
  split; [apply display_fields_eq; assumption|].
  split; [apply display_seconds; assumption|].
  split; [|split].
  - intros E' HE'. rewrite !display_seconds by lia.
    assert (E / 1000 <= E' / 1000) by (apply Z.div_le_mono; lia). lia.
  - intros E' HE' Hlt.
    assert (0 <= E') by
      (destruct (Z_lt_le_dec E' 0) as [Hn|]; [|assumption];
       assert (E' / 1000 < 0) by (apply Z.div_lt_upper_bound; lia);
       assert (0 <= E / 1000) by (apply Z.div_pos; lia); lia).
    rewrite !display_seconds by lia. lia.
  - pose proof (display_seconds M E HM HE) as Hs.
    assert (Hf : display_fields M E = (M - 1 - E / 60000, 59 - (E / 1000) mod 60))
      by (apply display_fields_eq; assumption).
    assert (Hq : 0 <= E / 60000 <= M - 1).
    { split; [apply Z.div_pos; lia|].
      assert (E / 60000 < M) by (apply Z.div_lt_upper_bound; lia). lia. }
    pose proof (Z.mod_pos_bound (E / 1000) 60 ltac:(lia)) as Hm.
    split.
    + intros H0. rewrite H0 in Hs. unfold fields_seconds in Hs; cbn [fst snd] in Hs.
      assert (E / 1000 = 60 * M - 1) by lia.
      destruct (Z_lt_le_dec E (M * 60000 - 1000)) as [Hlt|]; [|assumption].
      assert (E / 1000 < 60 * M - 1) by (apply Z.div_lt_upper_bound; lia). lia.
    + intros Hge.
      assert (60 * M - 1 <= E / 1000) by (apply Z.div_le_lower_bound; lia).
      assert (E / 1000 < 60 * M) by (apply Z.div_lt_upper_bound; lia).
      rewrite Hf in Hs |- *. unfold fields_seconds in Hs; cbn [fst snd] in Hs.
      f_equal; lia.
Qed.

(** A run of the countdown for 2 configured minutes, 500 ms before the
    end. *)
Lemma remaining_time_display_witness :
  display_fields 2 119500 = (0, 0)
  /\ fields_seconds (display_fields 2 119500) = 0.
Proof.
  destruct (remaining_time_display 2 119500 ltac:(lia) ltac:(lia))
    as (_ & Hs & _ & _ & Hz).
  split; [apply Hz; lia | exact Hs].
Defined.

(** ** Code comparison *)

Lemma compare_from_true_iff k : forall i code pass,
  compare_from k i code pass = true <->
  (forall j, (i <= j < i + k)%nat -> nth j code NUL = nth j pass NUL).
Proof.
  induction k as [|k IH]; intros i code pass; cbn [compare_from].
  - split; [intros _ j Hj; lia | reflexivity].
  - destruct (Ascii.eqb_spec (nth i code NUL) (nth i pass NUL)) as [He|Hne];
      cbn [negb].
    + rewrite IH. split; intros H j Hj.
      * destruct (Nat.eq_dec j i) as [->|]; [assumption | apply H; lia].
      * apply H; lia.
    + split; [discriminate|]. intros H. exfalso. apply Hne, H. lia.
Qed.

Lemma nth_store_same i c : forall l, (i < List.length l)%nat -> nth i (store i c l) NUL = c.
Proof.
  induction i as [|i IH]; intros [|h t] Hl; cbn in *; try lia.
  - reflexivity.
  - apply IH. lia.
Qed.

Lemma nth_store_other i c : forall j l, j <> i -> nth j (store i c l) NUL = nth j l NUL.
Proof.
  induction i as [|i IH]; intros j [|h t] Hj; cbn; try reflexivity.
  - destruct j; [congruence | reflexivity].
  - destruct j; [reflexivity | apply IH; congruence].
Qed.

Lemma store_length i c : forall l, List.length (store i c l) = List.length l.
Proof.
  induction i as [|i IH]; intros [|h t]; cbn; try reflexivity.
  f_equal. apply IH.
Qed.

(** C9.  [comparePassword] of an 8-symbol buffer with itself is [true];
    two 8-symbol buffers compare equal only when all 8 positions agree;
    so overwriting any one position with a different symbol (a digit or
    the sentinel ['x']) makes the comparison [false], whichever side is
    changed. *)
Theorem comparePassword_exact (code pass : list ascii) (i : nat) (c : ascii) :
  List.length code = 8%nat -> List.length pass = 8%nat -> (i < 8)%nat ->
  c <> nth i code NUL ->
  comparePassword code code = true
  /\ (comparePassword code pass = true <-> code = pass)
  /\ comparePassword (store i c code) code = false
  /\ comparePassword code (store i c code) = false.
Proof.
  intros Hc Hp Hi Hne.
  assert (Hiff : forall a b, List.length a = 8%nat -> List.length b = 8%nat ->
                             (comparePassword a b = true <-> a = b)).
  { intros a b Ha Hb. unfold comparePassword. rewrite compare_from_true_iff.
    split.
    - intros H. apply (nth_ext a b NUL NUL); [congruence|].
      intros n Hn. apply H. lia.
    - intros -> j _. reflexivity. }
  split; [apply Hiff; auto|].
  split; [apply Hiff; auto|].
  assert (Hd : store i c code <> code).
  { intros E. apply Hne. rewrite <- E at 1. symmetry. apply nth_store_same. lia. }
  split.
  - destruct (comparePassword (store i c code) code) eqn:E; [|reflexivity].
    apply Hiff in E; [contradiction | now rewrite store_length | assumption].
  - destruct (comparePassword code (store i c code)) eqn:E; [|reflexivity].
    apply Hiff in E; [congruence | assumption | now rewrite store_length].
Qed.

(** The stored code 12345678 against an entry whose position 3 timed
    out. *)
Lemma comparePassword_exact_witness :
  let code := list_ascii_of_string "12345678" in
  comparePassword code code = true
  /\ comparePassword (store 3 "x"%char code) code = false.
Proof.
  destruct (comparePassword_exact (list_ascii_of_string "12345678")
              (list_ascii_of_string "12345678") 3 "x"%char
              eq_refl eq_refl ltac:(lia) ltac:(vm_compute; congruence))
    as (H1 & _ & H3 & _).
  split; assumption.
Defined.

(** ** Frame lemmas *)

Lemma unchanged_refl w : unchanged w w.
Proof. constructor; reflexivity. Qed.

Lemma unchanged_trans w1 w2 w3 :
  unchanged w1 w2 -> unchanged w2 w3 -> unchanged w1 w3.
Proof. intros [] []; constructor; congruence. Qed.

Lemma shown_refl w : shown w w.
Proof. constructor; try reflexivity. apply unchanged_refl. Qed.

Lemma shown_trans w1 w2 w3 : shown w1 w2 -> shown w2 w3 -> shown w1 w3.
Proof.
  intros [] []; constructor; try congruence.
  eapply unchanged_trans; eassumption.
Qed.

Lemma quiet_ret {A} (a : A) : quiet (ret a).
Proof. intros w. apply unchanged_refl. Qed.

Lemma quiet_stop {A} h : quiet (@stop A h).
Proof. intros w. apply unchanged_refl. Qed.

Lemma quiet_bind {A B} (m : M A) (f : A -> M B) :
  quiet m -> (forall a, quiet (f a)) -> quiet (bind m f).
Proof.
  intros Hm Hf w. unfold bind. specialize (Hm w).
  destruct (m w) as [a w'|h w']; cbn in *; [|assumption].
  eapply unchanged_trans; [eassumption | apply Hf].
Qed.

Lemma quiet_get {A} (f : world -> A) : quiet (get f).
Proof. intros w. apply unchanged_refl. Qed.

Lemma quiet_emit e : is_ctl e = false -> quiet (emit e).
Proof.
  intros He w. constructor; try reflexivity.
  cbn. unfold ctl. cbn. rewrite He. reflexivity.
Qed.

Lemma quiet_delay ms : quiet (delay ms).
Proof. intros w. constructor; reflexivity. Qed.

Lemma quiet_getKey : quiet getKey.
Proof.
  intros w. unfold getKey. destruct (script w); cbn.
  - apply unchanged_refl.
  - constructor; reflexivity.
Qed.

Lemma quiet_store f : quiet (modify (fun w => set_codeInput (f w) w)).
Proof. intros w. constructor; reflexivity. Qed.

Lemma quiet_when b m : quiet m -> quiet (when b m).
Proof. intros Hm. destruct b; [exact Hm | apply quiet_ret]. Qed.

Lemma quiet_times n m : quiet m -> quiet (times n m).
Proof.
  intros Hm. induction n; cbn [times]; [apply quiet_ret|].
  apply quiet_bind; auto.
Qed.

Lemma quiet_for_each {A} (l : list A) body :
  (forall i, quiet (body i)) -> quiet (for_each l body).
Proof.
  intros Hb. induction l; cbn [for_each]; [apply quiet_ret|].
  apply quiet_bind; auto.
Qed.

(** One step of a proof that a command is [quiet]. *)
Ltac quiet_step :=
  lazymatch goal with
  | |- quiet (bind _ _) => apply quiet_bind; [|intro]
  | |- quiet (ret _) => apply quiet_ret
  | |- quiet (stop _) => apply quiet_stop
  | |- quiet (get _) => apply quiet_get
  | |- quiet millis => apply quiet_get
  | |- quiet (when _ _) => apply quiet_when
  | |- quiet (times _ _) => apply quiet_times
  | |- quiet (for_each _ _) => apply quiet_for_each; intro
  | |- quiet (emit _) => apply quiet_emit; reflexivity
  | |- quiet cls => apply quiet_emit; reflexivity
  | |- quiet (lcd_print _) => apply quiet_emit; reflexivity
  | |- quiet (lcd_setCursor _ _) => apply quiet_emit; reflexivity
  | |- quiet (digitalWrite _ _) => apply quiet_emit; reflexivity
  | |- quiet (tone _ _) => apply quiet_emit; reflexivity
  | |- quiet (delay _) => apply quiet_delay
  | |- quiet getKey => apply quiet_getKey
  | |- quiet (modify (fun w => set_codeInput _ w)) => apply quiet_store
  | |- quiet (if ?b then _ else _) => destruct b
  | |- quiet (match ?x with _ => _ end) => destruct x
  | |- quiet (let _ := _ in _) => cbv zeta
  end.

Ltac quiet_tac := repeat quiet_step.

Lemma quiet_drawBar p : quiet (drawBar p).
Proof. unfold drawBar. quiet_tac. Qed.

Lemma quiet_printTime m e : quiet (printTime m e).
Proof. unfold printTime. quiet_tac. Qed.

Lemma quiet_printTimeDom e b : quiet (printTimeDom e b).
Proof. unfold printTimeDom. quiet_tac. Qed.

Lemma quiet_waitForKey fuel : quiet (waitForKey fuel).
Proof. induction fuel; cbn [waitForKey]; quiet_tac. assumption. Qed.

Lemma quiet_getNumber fuel : quiet (getNumber fuel).
Proof. induction fuel; cbn [getNumber]; quiet_tac. assumption. Qed.

Lemma quiet_cues cfg k c : quiet (cues cfg k c).
Proof.
  destruct k; cbn [cues];
    unfold arm_cues, disarm_cues, capture_cues, neutralize_cues; quiet_tac.
Qed.

Lemma quiet_startGameCount cfg fuel : quiet (startGameCount cfg fuel).
Proof. unfold startGameCount. quiet_tac. apply quiet_waitForKey. Qed.

Lemma quiet_setCodeTime_digit cfg fuel : forall s i,
  quiet (setCodeTime_digit cfg fuel s i).
Proof.
  induction fuel; intros s i; cbn [setCodeTime_digit]; quiet_tac;
    try apply quiet_printTimeDom; try apply quiet_getNumber; auto.
Qed.

Lemma quiet_setCodeTime cfg fuel : quiet (setCodeTime cfg fuel).
Proof. unfold setCodeTime. quiet_tac. apply quiet_setCodeTime_digit. Qed.

Lemma quiet_code_entry cfg fuel k intro col :
  quiet intro -> quiet (code_entry cfg fuel k intro col).
Proof.
  intros Hi. unfold code_entry. quiet_tac; try assumption.
  apply quiet_setCodeTime.
Qed.

Lemma display_only_ret {A} (a : A) : display_only (ret a).
Proof. intros w. exists a, w. split; [reflexivity | apply shown_refl]. Qed.

Lemma display_only_bind {A B} (m : M A) (f : A -> M B) :
  display_only m -> (forall a, display_only (f a)) -> display_only (bind m f).
Proof.
  intros Hm Hf w. destruct (Hm w) as (a & w1 & E1 & S1).
  destruct (Hf a w1) as (b & w2 & E2 & S2).
  exists b, w2. unfold bind. rewrite E1. split; [exact E2|].
  eapply shown_trans; eassumption.
Qed.

Lemma display_only_get {A} (f : world -> A) : display_only (get f).
Proof. intros w. exists (f w), w. split; [reflexivity | apply shown_refl]. Qed.

Lemma display_only_emit e : is_ctl e = false -> display_only (emit e).
Proof.
  intros He w. exists tt, (add_out e w). split; [reflexivity|].
  constructor; try reflexivity. apply (quiet_emit e He w).
Qed.

Lemma display_only_when b m : display_only m -> display_only (when b m).
Proof. intros Hm. destruct b; [exact Hm | apply display_only_ret]. Qed.

Lemma display_only_times n m : display_only m -> display_only (times n m).
Proof.
  intros Hm. induction n; cbn [times]; [apply display_only_ret|].
  apply display_only_bind; auto.
Qed.

Ltac display_step :=
  lazymatch goal with
  | |- display_only (bind _ _) => apply display_only_bind; [|intro]
  | |- display_only (ret _) => apply display_only_ret
  | |- display_only (get _) => apply display_only_get
  | |- display_only millis => apply display_only_get
  | |- display_only (when _ _) => apply display_only_when
  | |- display_only (times _ _) => apply display_only_times
  | |- display_only (emit _) => apply display_only_emit; reflexivity
  | |- display_only cls => apply display_only_emit; reflexivity
  | |- display_only (lcd_print _) => apply display_only_emit; reflexivity
  | |- display_only (lcd_setCursor _ _) => apply display_only_emit; reflexivity
  | |- display_only (digitalWrite _ _) => apply display_only_emit; reflexivity
  | |- display_only (tone _ _) => apply display_only_emit; reflexivity
  | |- display_only (if ?b then _ else _) => destruct b
  | |- display_only (let _ := _ in _) => cbv zeta
  end.

Lemma display_only_drawBar p : display_only (drawBar p).
Proof. unfold drawBar. repeat display_step. Qed.

Lemma display_only_cues cfg k c : display_only (cues cfg k c).
Proof.
  destruct k; cbn [cues];
    unfold arm_cues, disarm_cues, capture_cues, neutralize_cues;
    repeat display_step.
Qed.

(** ** Triples *)

Lemma hoare_ret {A} (P : world -> Prop) (a : A) Q H :
  (forall w, P w -> Q a w) -> hoare P (ret a) Q H.
Proof. intros HQ w Hw. apply HQ, Hw. Qed.

Lemma hoare_stop {A} (P : world -> Prop) h (Q : A -> world -> Prop) (H : world -> Prop) :
  (forall w, P w -> H w) -> hoare P (stop h) Q H.
Proof. intros HH w Hw. apply HH, Hw. Qed.

Lemma hoare_bind {A B} P (m : M A) (f : A -> M B) R Q H :
  hoare P m R H -> (forall a, hoare (R a) (f a) Q H) -> hoare P (bind m f) Q H.
Proof.
  intros Hm Hf w Hw. unfold bind. specialize (Hm w Hw).
  destruct (m w) as [a w'|h w']; [apply Hf, Hm | exact Hm].
Qed.

Lemma hoare_read {A} (P : world -> Prop) (f : world -> A) H :
  hoare P (get f) (fun _ => P) H.
Proof. intros w Hw. exact Hw. Qed.

Lemma hoare_read_eq {A} (P : world -> Prop) (f : world -> A) H :
  hoare P (get f) (fun a w => P w /\ a = f w) H.
Proof. intros w Hw. split; [exact Hw | reflexivity]. Qed.

Lemma hoare_modify P f Q H :
  (forall w, P w -> Q tt (f w)) -> hoare P (modify f) Q H.
Proof. intros HQ w Hw. apply HQ, Hw. Qed.

Lemma hoare_conseq {A} (P P' : world -> Prop) (m : M A) (Q Q' : A -> world -> Prop)
      (H H' : world -> Prop) :
  hoare P' m Q' H' ->
  (forall w, P w -> P' w) -> (forall a w, Q' a w -> Q a w) ->
  (forall w, H' w -> H w) -> hoare P m Q H.
Proof.
  intros Hm HP HQ HH w Hw. specialize (Hm w (HP w Hw)).
  destruct (m w); auto.
Qed.

(** A quiet command keeps every stable predicate. *)
Lemma hoare_quiet {A} (I : world -> Prop) (m : M A) (H : world -> Prop) :
  stable I -> quiet m -> (forall w, I w -> H w) ->
  hoare I m (fun _ => I) H.
Proof.
  intros HI Hm HH w Hw. specialize (Hm w).
  destruct (m w) as [a w'|h w']; cbn in Hm; [|apply HH]; eapply HI; eassumption.
Qed.

Lemma hoare_pre {A} (P P' : world -> Prop) (m : M A) Q H :
  (forall w, P w -> P' w) -> hoare P' m Q H -> hoare P m Q H.
Proof. intros HP Hm w Hw. apply Hm, HP, Hw. Qed.

(** The hold loop, exit by exit: a stable [I] survives a release; expiry
    additionally sets [endGame]; completion runs [complete] once. *)
Lemma hoare_holdLoop cfg (I E J H : world -> Prop) fuel k clock minutes divisor
      complete start :
  stable I ->
  (forall w, I w -> E (set_endGame true w)) ->
  (forall w, I w -> H w) ->
  hoare I complete (fun _ => J) H ->
  hoare I (holdLoop cfg fuel k clock minutes divisor complete start)
        (fun r w => match r with
                    | Released => I w /\ held k w = false
                    | Expired => E w
                    | Completed => J w
                    end) H.
Proof.
  intros HI HE HH Hc.
  induction fuel as [|f IH]; cbn [holdLoop].
  - apply hoare_stop. assumption.
  - eapply hoare_bind; [apply hoare_read_eq|].
    intros h; cbn beta. destruct h; cbn [negb].
    2:{ apply hoare_ret. intros w [Hw Hh]. auto. }
    apply (hoare_pre _ I); [intros w [Hw _]; exact Hw|].
    eapply hoare_bind; [apply (hoare_quiet I); [assumption | apply quiet_getKey | assumption]|].
    intros ?; cbn beta. eapply hoare_bind; [apply hoare_read|].
    intros t. eapply hoare_bind; [apply hoare_read|].
    intros c0. cbv zeta.
    destruct (timeExpiredGuarded minutes (ulong (t - c0))).
    { apply (hoare_bind _ _ _ (fun _ => E)); [apply hoare_modify; intros w Hw; apply (HE w Hw)|].
      intros ?; cbn beta. apply hoare_ret. auto. }
    eapply hoare_bind; [apply (hoare_quiet I); [assumption | apply quiet_cues | assumption]|].
    intros ?; cbn beta. destruct (divisor =? 0).
    { apply hoare_stop. assumption. }
    eapply hoare_bind; [apply (hoare_quiet I); [assumption | apply quiet_drawBar | assumption]|].
    intros ?; cbn beta.
    destruct (100 <=? progressPercent divisor (ulong (t - start))).
    + eapply hoare_bind; [exact Hc|]. intros ?; cbn beta. apply hoare_ret. auto.
    + exact IH.
Qed.

Lemma hoare_hold cfg (I E J H : world -> Prop) fuel k clock minutes divisor complete :
  stable I ->
  (forall w, I w -> E (set_endGame true w)) ->
  (forall w, I w -> H w) ->
  hoare I complete (fun _ => J) H ->
  hoare I (hold cfg fuel k clock minutes divisor complete)
        (fun r w => match r with
                    | Released => I w /\ held k w = false
                    | Expired => E w
                    | Completed => J w
                    end) H.
Proof.
  intros HI HE HH Hc. unfold hold.
  eapply hoare_bind; [apply hoare_read|].
  intros t. apply hoare_holdLoop; assumption.
Qed.

Lemma stable_unchanged w0 : stable (unchanged w0).
Proof. intros w w' H1 H2. eapply unchanged_trans; eassumption. Qed.



(** One round of the hold loop up to the test of the progress. *)
Lemma holdLoop_round cfg f k clock minutes divisor complete start w p rest :
  held k w = true ->
  script w = p :: rest ->
  timeExpiredGuarded minutes
    (ulong (ulong (now w + dt p) - clock_start clock w)) = false ->
  divisor <> 0 ->
  exists w2,
    unchanged w w2 /\ now w2 = ulong (now w + dt p) /\ script w2 = rest
    /\ defusing w2 = heldD p /\ cancelando w2 = heldC p
    /\ holdLoop cfg (S f) k clock minutes divisor complete start w =
       (if 100 <=? progressPercent divisor (ulong (now w2 - start))
        then complete ;; ret Completed
        else holdLoop cfg f k clock minutes divisor complete start) w2.
Proof.
  intros Hh Hs He Hd.
  set (wa := set_clock (ulong (now w + dt p)) rest (heldD p) (heldC p) w).
  destruct (display_only_cues cfg k (ulong (now wa - start) mod 1000) wa)
    as (u1 & wb & E1 & S1).
  destruct (display_only_drawBar
              (progressPercent divisor (ulong (now wa - start))) wb)
    as (u2 & wc & E2 & S2).
  exists wc.
  assert (Hu : unchanged w wc).
  { apply (unchanged_trans w wa); [constructor; reflexivity|].
    apply (unchanged_trans wa wb); [apply S1 | apply S2]. }
  assert (Hn : now wc = ulong (now w + dt p))
    by (rewrite (sh_now _ _ S2), (sh_now _ _ S1); reflexivity).
  split; [exact Hu|]. split; [exact Hn|].
  split; [rewrite (sh_script _ _ S2), (sh_script _ _ S1); reflexivity|].
  split; [rewrite (sh_defusing _ _ S2), (sh_defusing _ _ S1); reflexivity|].
  split; [rewrite (sh_cancelando _ _ S2), (sh_cancelando _ _ S1); reflexivity|].
  cbn [holdLoop]. unfold bind at 1. unfold get at 1. rewrite Hh. cbn [negb].
  unfold bind at 1. unfold getKey at 1. rewrite Hs. fold wa.
  unfold bind at 1. unfold millis, get at 1.
  unfold bind at 1. unfold get at 1.
  assert (Hc : clock_start clock wa = clock_start clock w)
    by (destruct clock; reflexivity).
  rewrite Hc. change (now wa) with (ulong (now w + dt p)) at 1.
  rewrite He.
  unfold bind at 1. rewrite E1.
  destruct (Z.eqb_spec divisor 0) as [|_]; [contradiction|].
  unfold bind at 1. rewrite E2. rewrite Hn. reflexivity.
Qed.

Lemma holdLoop_completes cfg complete k clock minutes divisor start :
  divisor <> 0 ->
  forall pre fuel w last rest,
    (List.length pre < fuel)%nat ->
    script w = pre ++ last :: rest ->
    held k w = true ->
    in_progress k (clock_start clock w) minutes divisor start (now w) pre = true ->
    timeExpiredGuarded minutes
      (ulong (ulong (clock_after (now w) pre + dt last) - clock_start clock w)) = false ->
    100 <= progressPercent divisor
             (ulong (ulong (clock_after (now w) pre + dt last) - start)) ->
    exists w1,
      unchanged w w1
      /\ now w1 = ulong (clock_after (now w) pre + dt last)
      /\ script w1 = rest
      /\ holdLoop cfg fuel k clock minutes divisor complete start w =
         (complete ;; ret Completed) w1.
Proof.
  intros Hd. induction pre as [|p pre IH]; intros fuel w last rest Hf Hs Hh Hp He Hc.
  - destruct fuel as [|f]; [cbn in Hf; lia|]. cbn [clock_after] in *.
    destruct (holdLoop_round cfg f k clock minutes divisor complete start w last rest
                Hh Hs He Hd) as (w2 & Hu & Hn & Hsc & _ & _ & Hrun).
    exists w2. repeat split; try assumption; try apply Hu.
    rewrite Hrun, Hn.
    destruct (Z.leb_spec 100 (progressPercent divisor
                (ulong (ulong (now w + dt last) - start)))); [reflexivity | lia].
  - destruct fuel as [|f]; [cbn in Hf; lia|].
    cbn [in_progress] in Hp. cbn [clock_after] in He, Hc |- *.
    apply andb_prop in Hp as [Hp Hrest]. apply andb_prop in Hp as [Hp Hfl].
    apply andb_prop in Hp as [Hne Hlt].
    apply negb_true_iff in Hne. apply Z.ltb_lt in Hlt.
    destruct (holdLoop_round cfg f k clock minutes divisor complete start w p
                (pre ++ last :: rest) Hh Hs Hne Hd)
      as (w2 & Hu & Hn & Hsc & Hdf & Hcf & Hrun).
    assert (Hck : clock_start clock w2 = clock_start clock w)
      by (destruct clock; [reflexivity | apply Hu]).
    destruct (IH f w2 last rest) as (w1 & Hu1 & Hn1 & Hs1 & Hrun1).
    + cbn in Hf. lia.
    + exact Hsc.
    + unfold held. rewrite Hdf, Hcf. exact Hfl.
    + rewrite Hck, Hn. exact Hrest.
    + rewrite Hck, Hn. exact He.
    + rewrite Hn. exact Hc.
    + exists w1. split; [eapply unchanged_trans; eassumption|].
      split; [rewrite Hn1, Hn; reflexivity|].
      split; [exact Hs1|].
      rewrite Hrun, Hn.
      destruct (Z.leb_spec 100 (progressPercent divisor
                  (ulong (ulong (now w + dt p) - start)))); [lia | exact Hrun1].
Qed.

Lemma holdLoop_releases cfg complete k clock minutes divisor start :
  divisor <> 0 ->
  forall pre fuel w last rest,
    (S (List.length pre) < fuel)%nat ->
    script w = pre ++ last :: rest ->
    held k w = true ->
    in_progress k (clock_start clock w) minutes divisor start (now w) pre = true ->
    timeExpiredGuarded minutes
      (ulong (ulong (clock_after (now w) pre + dt last) - clock_start clock w)) = false ->
    progressPercent divisor
      (ulong (ulong (clock_after (now w) pre + dt last) - start)) < 100 ->
    held_flags k (heldD last) (heldC last) = false ->
    exists w1,
      unchanged w w1
      /\ now w1 = ulong (clock_after (now w) pre + dt last)
      /\ script w1 = rest
      /\ defusing w1 = heldD last /\ cancelando w1 = heldC last
      /\ holdLoop cfg fuel k clock minutes divisor complete start w = Ok Released w1.
Proof.
  intros Hd. induction pre as [|p pre IH];
    intros fuel w last rest Hf Hs Hh Hp He Hc Hrel.
  - destruct fuel as [|[|f]]; [cbn in Hf; lia | cbn in Hf; lia |].
    cbn [clock_after] in *.
    destruct (holdLoop_round cfg (S f) k clock minutes divisor complete start w last rest
                Hh Hs He Hd) as (w2 & Hu & Hn & Hsc & Hdf & Hcf & Hrun).
    exists w2. repeat split; try assumption; try apply Hu.
    rewrite Hrun, Hn.
    destruct (Z.leb_spec 100 (progressPercent divisor
                (ulong (ulong (now w + dt last) - start)))); [lia|].
    cbn [holdLoop]. unfold bind at 1, get at 1.
    unfold held. rewrite Hdf, Hcf, Hrel. reflexivity.
  - destruct fuel as [|f]; [cbn in Hf; lia|].
    cbn [in_progress] in Hp. cbn [clock_after] in He, Hc |- *.
    apply andb_prop in Hp as [Hp Hrest]. apply andb_prop in Hp as [Hp Hfl].
    apply andb_prop in Hp as [Hne Hlt].
    apply negb_true_iff in Hne. apply Z.ltb_lt in Hlt.
    destruct (holdLoop_round cfg f k clock minutes divisor complete start w p
                (pre ++ last :: rest) Hh Hs Hne Hd)
      as (w2 & Hu & Hn & Hsc & Hdf & Hcf & Hrun).
    assert (Hck : clock_start clock w2 = clock_start clock w)
      by (destruct clock; [reflexivity | apply Hu]).
    destruct (IH f w2 last rest) as (w1 & Hu1 & Hn1 & Hs1 & Hd1 & Hc1 & Hrun1).
    + cbn in Hf. lia.
    + exact Hsc.
    + unfold held. rewrite Hdf, Hcf. exact Hfl.
    + rewrite Hck, Hn. exact Hrest.
    + rewrite Hck, Hn. exact He.
    + rewrite Hn. exact Hc.
    + exact Hrel.
    + exists w1. split; [eapply unchanged_trans; eassumption|].
      split; [rewrite Hn1, Hn; reflexivity|].
      split; [exact Hs1|]. split; [exact Hd1|]. split; [exact Hc1|].
      rewrite Hrun, Hn.
      destruct (Z.leb_spec 100 (progressPercent divisor
                  (ulong (ulong (now w + dt p) - start)))); [lia | exact Hrun1].
Qed.

Lemma progressPercent_exact divisor e :
  0 < divisor -> 0 <= e < 65536 * divisor ->
  progressPercent divisor e = e / divisor.
Proof.
  intros Hd He. unfold progressPercent, uint16. apply Z.mod_small.
  split; [apply Z.div_pos; lia | apply Z.div_lt_upper_bound; lia].
Qed.

Lemma divisors_eq cfg :
  1 <= ACTIVATESECONDS cfg <= 99 ->
  divisor_int cfg = ACTIVATESECONDS cfg * 10
  /\ divisor_ul cfg = ACTIVATESECONDS cfg * 10.
Proof.
  intros HA. unfold divisor_int, divisor_ul.
  rewrite int16_small by lia.
  rewrite (ulong_small (ACTIVATESECONDS cfg)) by (unfold two32; lia).
  rewrite !ulong_small by (unfold two32; lia). split; reflexivity.
Qed.

(** ** Hold actions *)

(** Whenever a hold action ends by release, nothing but time, keypad and
    display has changed, and the input is no longer held. *)
Lemma hold_released_unchanged cfg fuel k clock minutes divisor complete w w' :
  hold cfg fuel k clock minutes divisor complete w = Ok Released w' ->
  unchanged w w' /\ held k w' = false.
Proof.
  intros Hrun.
  pose proof (hoare_hold cfg (unchanged w) (fun _ => True) (fun _ => True)
                (fun _ => True) fuel k clock minutes divisor complete
                (stable_unchanged w) (fun _ _ => I) (fun _ _ => I)) as Hh.
  assert (Hc : hoare (unchanged w) complete (fun _ _ => True) (fun _ => True))
    by (intros x _; destruct (complete x); exact I).
  specialize (Hh Hc w (unchanged_refl w)). rewrite Hrun in Hh. exact Hh.
Qed.

(** C5.  With a hold duration of 1 to 99 seconds both divisors used by
    the loops are [ACTIVATESECONDS * 10], the progress is the elapsed hold
    time divided by it, and it is 100 after exactly [ACTIVATESECONDS]
    seconds.  A hold that stays active, unexpired and below 100 percent
    over the polls [pre] and reaches the hold duration at the poll [last]
    runs the completion statements once, at that poll, and returns
    [Completed] without polling the rest of the script: until then
    nothing but time, keypad and display changed. *)
Theorem hold_completes_once cfg k clock minutes complete fuel w pre last rest :
  1 <= ACTIVATESECONDS cfg <= 99 ->
  (List.length pre < fuel)%nat ->
  script w = pre ++ last :: rest ->
  held k w = true ->
  in_progress k (clock_start clock w) minutes (ACTIVATESECONDS cfg * 10)
              (now w) (now w) pre = true ->
  timeExpiredGuarded minutes
    (ulong (ulong (clock_after (now w) pre + dt last) - clock_start clock w)) = false ->
  ACTIVATESECONDS cfg * 1000
    <= ulong (ulong (clock_after (now w) pre + dt last) - now w)
    < 65536 * (ACTIVATESECONDS cfg * 10) ->
  divisor_int cfg = ACTIVATESECONDS cfg * 10
  /\ divisor_ul cfg = ACTIVATESECONDS cfg * 10
  /\ (forall e, 0 <= e < 65536 * (ACTIVATESECONDS cfg * 10) ->
                progressPercent (ACTIVATESECONDS cfg * 10) e
                = e / (ACTIVATESECONDS cfg * 10))
  /\ progressPercent (ACTIVATESECONDS cfg * 10) (ACTIVATESECONDS cfg * 1000) = 100
  /\ exists w1,
       unchanged w w1
       /\ now w1 = ulong (clock_after (now w) pre + dt last)
       /\ script w1 = rest
       /\ hold cfg fuel k clock minutes (ACTIVATESECONDS cfg * 10) complete w =
          (complete ;; ret Completed) w1.
Proof.
  intros HA Hf Hs Hh Hp He Hc.
  split; [apply divisors_eq, HA|]. split; [apply divisors_eq, HA|].
  split; [intros e Hr; apply progressPercent_exact; lia|].
  split.
  { rewrite progressPercent_exact by lia.
    replace (ACTIVATESECONDS cfg * 1000) with (100 * (ACTIVATESECONDS cfg * 10)) by lia.
    apply Z.div_mul. lia. }
  unfold hold, bind at 1, millis, get at 1.
  apply holdLoop_completes; try assumption; try lia.
  rewrite progressPercent_exact by lia.
  apply Z.div_le_lower_bound; lia.
Qed.

(** ** Automation for the mode loops *)

Create HintDb quiet.

Lemma quiet_dom_display cfg t t0 : quiet (dom_display cfg t t0).
Proof. unfold dom_display. quiet_tac. Qed.

Lemma quiet_dom_show cfg t t0 b : quiet (dom_show cfg t t0 b).
Proof. unfold dom_show. quiet_tac; try apply quiet_printTime; apply quiet_printTimeDom. Qed.

Lemma quiet_prearm_display label m e : quiet (prearm_display label m e).
Proof. unfold prearm_display. quiet_tac. apply quiet_printTime. Qed.

Lemma quiet_armed_display cfg m e d : quiet (armed_display cfg m e d).
Proof. unfold armed_display. quiet_tac. apply quiet_printTime. Qed.

#[local] Hint Resolve quiet_drawBar quiet_printTime quiet_printTimeDom
  quiet_waitForKey quiet_getNumber quiet_cues quiet_startGameCount
  quiet_setCodeTime quiet_code_entry quiet_dom_display quiet_dom_show
  quiet_prearm_display quiet_armed_display quiet_getKey : quiet.

Ltac solve_quiet :=
  repeat first [quiet_step | apply quiet_code_entry | solve [auto with quiet]].

(** One step through a mode loop under a stable invariant [I]. *)
Ltac hoare_step I :=
  lazymatch goal with
  | |- hoare _ (bind (get _) _) _ _ =>
      eapply hoare_bind; [apply hoare_read | intros ?; cbn beta]
  | |- hoare _ (bind millis _) _ _ =>
      eapply hoare_bind; [apply hoare_read | intros ?; cbn beta]
  | |- hoare _ (bind _ _) _ _ =>
      eapply hoare_bind;
      [apply (hoare_quiet I); [assumption | solve [solve_quiet] | assumption]
      | intros ?; cbn beta]
  | |- hoare _ (let _ := _ in _) _ _ => cbv zeta
  | |- hoare _ (stop _) _ _ => apply hoare_stop; assumption
  end.

(** ** Disarming in the two armed modes *)

Lemma stable_clock_kept w0 : stable (clock_kept w0).
Proof.
  intros w w' [H1 H2] Hu. split.
  - rewrite (un_iTime _ _ Hu). exact H1.
  - rewrite (un_start _ _ Hu). exact H2.
Qed.

Lemma clock_kept_holds cfg w0 fuel k clock minutes divisor complete :
  quiet complete ->
  hoare (clock_kept w0) (hold cfg fuel k clock minutes divisor complete)
        (fun _ => clock_kept w0) (clock_kept w0).
Proof.
  intros Hc.
  eapply hoare_conseq;
    [apply (hoare_hold cfg (clock_kept w0) (clock_kept w0) (clock_kept w0)
                       (clock_kept w0));
     [apply stable_clock_kept | intros w H; exact H | auto
     | apply hoare_quiet; [apply stable_clock_kept | exact Hc | auto]]
    | auto | | auto].
  intros [] w H; cbn in H; tauto.
Qed.

Lemma destroySabotage_loop_exits cfg w0 fuel : forall t0 d,
  hoare (clock_kept w0) (destroySabotage_loop cfg fuel t0 d)
        (fun n w => clock_kept w0 w
                    /\ (n = Goto PSabotage \/ n = Goto PExplodeSplash
                        \/ n = Goto PFailSplash))
        (clock_kept w0).
Proof.
  pose proof (stable_clock_kept w0) as HS.
  assert (HH : forall w, clock_kept w0 w -> clock_kept w0 w) by auto.
  induction fuel as [|f IH]; intros t0 d; cbn [destroySabotage_loop].
  - apply hoare_stop; auto.
  - hoare_step (clock_kept w0). destruct a.
    { apply hoare_ret; auto. }
    do 3 hoare_step (clock_kept w0).
    destruct (timeExpired _ _).
    { apply hoare_ret; auto. }
    do 2 hoare_step (clock_kept w0).
    destruct a3.
    { apply hoare_ret; auto. }
    hoare_step (clock_kept w0).
    destruct (a3 && negb (passwordEnable cfg)); [|apply IH].
    do 5 hoare_step (clock_kept w0).
    eapply hoare_bind; [apply clock_kept_holds; solve_quiet|].
    intros r; cbn beta. destruct r; try (apply hoare_ret; auto);
      do 3 hoare_step (clock_kept w0); apply IH.
Qed.

Lemma destroy_loop_exits cfg fuel : forall t0 d,
  hoare (fun _ => True) (destroy_loop cfg fuel t0 d)
        (fun n _ => n = Goto PDisarmedSplash \/ n = Goto PExplodeSplash)
        (fun _ => True).
Proof.
  assert (HS : stable (fun _ => True)) by (intros ? ? ? ?; exact I).
  assert (HH : forall w : world, True -> True) by auto.
  induction fuel as [|f IH]; intros t0 d; cbn [destroy_loop].
  - apply hoare_stop; auto.
  - hoare_step (fun _ : world => True). destruct a.
    { apply hoare_ret; auto. }
    do 3 hoare_step (fun _ : world => True).
    destruct (timeExpired _ _).
    { apply hoare_ret; auto. }
    do 2 hoare_step (fun _ : world => True).
    destruct a3.
    { apply hoare_ret; auto. }
    hoare_step (fun _ : world => True).
    destruct (a3 && negb (passwordEnable cfg)); [|apply IH].
    do 5 hoare_step (fun _ : world => True).
    eapply hoare_bind.
    { apply (hoare_hold cfg (fun _ => True) (fun _ => True) (fun _ => True)
                        (fun _ => True)); auto. }
    intros r; cbn beta. destruct r; try (apply hoare_ret; auto);
      (eapply hoare_pre; [intros w _; exact I|]);
      do 3 hoare_step (fun _ : world => True); apply IH.
Qed.

Lemma sabotage_loop_exits cfg w0 fuel :
  hoare (clock_kept w0) (sabotage_loop cfg fuel)
        (fun n w => clock_kept w0 w
                    /\ (n = Goto PDestroySabotage \/ n = Goto PFailSplash))
        (clock_kept w0).
Proof.
  pose proof (stable_clock_kept w0) as HS.
  assert (HH : forall w, clock_kept w0 w -> clock_kept w0 w) by auto.
  induction fuel as [|f IH]; cbn [sabotage_loop].
  - apply hoare_stop; auto.
  - hoare_step (clock_kept w0). destruct a.
    { apply hoare_ret; auto. }
    do 4 hoare_step (clock_kept w0).
    destruct (timeExpired _ _).
    { apply hoare_ret; auto. }
    do 2 hoare_step (clock_kept w0).
    destruct a4.
    { apply hoare_ret; auto. }
    hoare_step (clock_kept w0).
    destruct (a4 && negb (passwordEnable cfg)); [|apply IH].
    do 5 hoare_step (clock_kept w0).
    eapply hoare_bind; [apply clock_kept_holds; solve_quiet|].
    intros r; cbn beta. destruct r; try (apply hoare_ret; auto);
      do 2 hoare_step (clock_kept w0); apply IH.
Qed.

(** Entering [sabotage()] with [start] cleared keeps the game clock. *)
Lemma sabotage_keeps_clock cfg fuel w :
  start w = false ->
  hoare (fun x => x = w) (sabotage cfg fuel)
        (fun n x => clock_kept w x
                    /\ (n = Goto PDestroySabotage \/ n = Goto PFailSplash))
        (clock_kept w).
Proof.
  intros Hst x ->. unfold sabotage.
  unfold bind at 1, modify at 1.
  pose proof (stable_clock_kept w) as HS.
  assert (HH : forall x, clock_kept w x -> clock_kept w x) by auto.
  assert (Hh : hoare (fun x => clock_kept w x /\ start x = false)
                 (cls ;; digitalWrite REDLED false ;; digitalWrite GREENLED false ;;
                  st <- get start ;;
                  when st (t <- millis ;; modify (set_iTime t) ;;
                           modify (set_start false)) ;;
                  sabotage_loop cfg fuel)
                 (fun n x => clock_kept w x
                             /\ (n = Goto PDestroySabotage \/ n = Goto PFailSplash))
                 (clock_kept w)).
  { assert (HS2 : stable (fun x => clock_kept w x /\ start x = false)).
    { intros y z [H1 H2] Hu. split; [eapply HS; eassumption|].
      rewrite (un_start _ _ Hu). exact H2. }
    assert (HH2 : forall x, clock_kept w x /\ start x = false -> clock_kept w x)
      by tauto.
    do 3 hoare_step (fun x => clock_kept w x /\ start x = false).
    eapply hoare_bind; [apply hoare_read_eq|].
    intros st; cbn beta.
    apply (hoare_pre _ (fun x => clock_kept w x /\ st = false));
      [intros y [[H1 H2] H3]; split; [exact H1 | congruence]|].
    intros y [Hy ->]. cbn [when]. unfold bind at 1, ret at 1.
    apply sabotage_loop_exits. exact Hy. }
  apply Hh. split; [split; reflexivity | exact Hst].
Qed.

Lemma sabotage_clears_start cfg fuel w n w' :
  sabotage cfg fuel w = Ok n w' -> start w' = false.
Proof.
  unfold sabotage. unfold bind at 1, modify at 1.
  set (w1 := set_endGame false w).
  assert (Hq : quiet (cls ;; digitalWrite REDLED false ;; digitalWrite GREENLED false))
    by solve_quiet.
  intros Hrun.
  assert (Hh : hoare (fun _ => True)
                 (cls ;; digitalWrite REDLED false ;; digitalWrite GREENLED false ;;
                  st <- get start ;;
                  when st (t <- millis ;; modify (set_iTime t) ;;
                           modify (set_start false)) ;;
                  sabotage_loop cfg fuel)
                 (fun _ x => start x = false) (fun _ => True)).
  { assert (HS : stable (fun _ : world => True)) by (intros ? ? ? ?; exact I).
    assert (HH : forall x : world, True -> True) by auto.
    do 3 hoare_step (fun _ : world => True).
    eapply hoare_bind; [apply hoare_read_eq|].
    intros st; cbn beta.
    apply (hoare_bind _ _ _ (fun _ x => start x = false)).
    - intros x [_ ->]. destruct (start x) eqn:E; cbn; [reflexivity | exact E].
    - intros _ x Hx.
      pose proof (sabotage_loop_exits cfg x fuel x (conj eq_refl eq_refl)) as Hl.
      destruct (sabotage_loop cfg fuel x) as [n' x'|h x']; [|exact I].
      destruct Hl as [[_ Hs] _]. congruence. }
  specialize (Hh w1 I). rewrite Hrun in Hh. exact Hh.
Qed.

Lemma bind_ok {A B} (m : M A) (f : A -> M B) w a w' :
  m w = Ok a w' -> bind m f w = f a w'.
Proof. intros E. unfold bind. rewrite E. reflexivity. Qed.

Lemma display_only_printTime m e : display_only (printTime m e).
Proof. unfold printTime. repeat display_step. Qed.

Lemma display_only_armed_display cfg m e d : display_only (armed_display cfg m e d).
Proof.
  unfold armed_display. repeat display_step. apply display_only_printTime.
Qed.

Lemma code_entry_disabled cfg f k intro col :
  passwordEnable cfg = false -> code_entry cfg f k intro col = ret false.
Proof.
  intros Hp. unfold code_entry. destruct k; [|reflexivity].
  rewrite Hp, andb_false_r. reflexivity.
Qed.

Lemma getKey_cons w p rest :
  script w = p :: rest ->
  getKey w = Ok (key p) (set_clock (ulong (now w + dt p)) rest (heldD p) (heldC p) w).
Proof. intros Hs. unfold getKey. rewrite Hs. reflexivity. Qed.

(** The steps of an armed loop from its top to the start of a disarm
    hold, with the code disabled and the clock running. *)
Ltac armed_round cfg w t0 d p1 p2 tl Hs Heg Hp Hne Hd wd Hwd :=
  let wa := fresh "wa" in
  let wb := fresh "wb" in
  let d' := fresh "d'" in
  let E1 := fresh "E1" in
  let S1 := fresh "S1" in
  unfold bind at 1, get at 1; rewrite Heg;
  rewrite (bind_ok _ _ _ _ _ (getKey_cons w p1 (p2 :: tl) Hs));
  set (wa := set_clock (ulong (now w + dt p1)) (p2 :: tl) (heldD p1) (heldC p1) w);
  unfold bind at 1, millis, get at 1;
  change (now wa) with (ulong (now w + dt p1));
  destruct (display_only_armed_display cfg (bomb_minutes cfg)
              (ulong (ulong (now w + dt p1) - t0)) d wa) as (d' & wb & E1 & S1);
  rewrite (bind_ok _ _ _ _ _ E1);
  rewrite Hne;
  rewrite (bind_ok _ _ _ _ _ (getKey_cons wb p2 tl (eq_trans (sh_script _ _ S1) eq_refl)));
  set (wd := set_clock (ulong (now wb + dt p2)) tl (heldD p2) (heldC p2) wb);
  rewrite (code_entry_disabled cfg _ _ _ _ Hp);
  unfold bind at 1, ret at 1; unfold bind at 1, get at 1;
  change (defusing wd) with (heldD p2); rewrite Hd, Hp; cbn [andb negb];
  assert (Hwd : unchanged w wd /\ now wd = ulong (ulong (now w + dt p1) + dt p2))
    by (split;
        [apply (unchanged_trans w wa); [constructor; reflexivity|];
         apply (unchanged_trans wa wb); [apply S1 | constructor; reflexivity]
        | unfold wd; cbn; rewrite (sh_now _ _ S1); reflexivity]).

Lemma destroySabotage_disarm_by_hold cfg f t0 d w p1 p2 pre last rest :
  1 <= ACTIVATESECONDS cfg <= 99 ->
  passwordEnable cfg = false ->
  endGame w = false ->
  script w = p1 :: p2 :: pre ++ last :: rest ->
  (List.length pre < f)%nat ->
  timeExpired (bomb_minutes cfg) (ulong (ulong (now w + dt p1) - t0)) = false ->
  heldD p2 = true ->
  in_progress Disarm t0 (bomb_minutes cfg) (ACTIVATESECONDS cfg * 10)
              (ulong (ulong (now w + dt p1) + dt p2))
              (ulong (ulong (now w + dt p1) + dt p2)) pre = true ->
  timeExpiredGuarded (bomb_minutes cfg)
    (ulong (ulong (clock_after (ulong (ulong (now w + dt p1) + dt p2)) pre
                   + dt last) - t0)) = false ->
  ACTIVATESECONDS cfg * 1000
    <= ulong (ulong (clock_after (ulong (ulong (now w + dt p1) + dt p2)) pre
                     + dt last) - ulong (ulong (now w + dt p1) + dt p2))
    < 65536 * (ACTIVATESECONDS cfg * 10) ->
  exists w',
    destroySabotage_loop cfg (S f) t0 d w = Ok (Goto PSabotage) w'
    /\ unchanged w w' /\ script w' = rest.
Proof.
  intros HA Hp Heg Hs Hf Hne Hd Hip He Hc.
  cbn [destroySabotage_loop].
  armed_round cfg w t0 d p1 p2 (pre ++ last :: rest) Hs Heg Hp Hne Hd wd Hwd.
  destruct Hwd as [Hu Hn].
  do 5 (erewrite bind_ok by reflexivity); cbv beta.
  match goal with |- context [bind (hold _ _ _ _ _ _ _) _ ?x] => set (we := x) end.
  assert (Hue : unchanged wd we) by (constructor; reflexivity).
  destruct (divisors_eq cfg HA) as [_ Hdiv]. rewrite Hdiv.
  destruct (holdLoop_completes cfg (cls ;; lcd_print "Bomb Disarmed" ;; delay 1000)
              Disarm (Since t0) (bomb_minutes cfg) (ACTIVATESECONDS cfg * 10)
              (now we) ltac:(lia) pre f we last rest Hf eq_refl Hd)
    as (w1 & Hu1 & Hn1 & Hs1 & Hrun).
  { change (now we) with (now wd). rewrite Hn. exact Hip. }
  { change (now we) with (now wd). rewrite Hn. exact He. }
  { change (now we) with (now wd). rewrite Hn.
    rewrite progressPercent_exact by lia. apply Z.div_le_lower_bound; lia. }
  unfold hold. unfold bind at 1. unfold bind at 1, millis, get at 1.
  rewrite Hrun.
  eexists. split; [reflexivity|].
  split; [|exact Hs1].
  apply (unchanged_trans w wd); [exact Hu|].
  apply (unchanged_trans wd we); [exact Hue|].
  apply (unchanged_trans we w1); [exact Hu1|].
  constructor; reflexivity.
Qed.

Lemma destroy_disarm_by_hold cfg f t0 d w p1 p2 pre last rest :
  1 <= ACTIVATESECONDS cfg <= 99 ->
  passwordEnable cfg = false ->
  endGame w = false ->
  script w = p1 :: p2 :: pre ++ last :: rest ->
  (List.length pre < f)%nat ->
  timeExpired (bomb_minutes cfg) (ulong (ulong (now w + dt p1) - t0)) = false ->
  heldD p2 = true ->
  in_progress Disarm t0 (bomb_minutes cfg) (ACTIVATESECONDS cfg * 10)
              (ulong (ulong (now w + dt p1) + dt p2))
              (ulong (ulong (now w + dt p1) + dt p2)) pre = true ->
  timeExpiredGuarded (bomb_minutes cfg)
    (ulong (ulong (clock_after (ulong (ulong (now w + dt p1) + dt p2)) pre
                   + dt last) - t0)) = false ->
  ACTIVATESECONDS cfg * 1000
    <= ulong (ulong (clock_after (ulong (ulong (now w + dt p1) + dt p2)) pre
                     + dt last) - ulong (ulong (now w + dt p1) + dt p2))
    < 65536 * (ACTIVATESECONDS cfg * 10) ->
  exists w',
    destroy_loop cfg (S f) t0 d w = Ok (Goto PDisarmedSplash) w'
    /\ unchanged w w' /\ script w' = rest.
Proof.
  intros HA Hp Heg Hs Hf Hne Hd Hip He Hc.
  cbn [destroy_loop].
  armed_round cfg w t0 d p1 p2 (pre ++ last :: rest) Hs Heg Hp Hne Hd wd Hwd.
  destruct Hwd as [Hu Hn].
  do 5 (erewrite bind_ok by reflexivity); cbv beta.
  match goal with |- context [bind (hold _ _ _ _ _ _ _) _ ?x] => set (we := x) end.
  assert (Hue : unchanged wd we) by (constructor; reflexivity).
  destruct (divisors_eq cfg HA) as [_ Hdiv]. rewrite Hdiv.
  destruct (holdLoop_completes cfg (ret tt)
              Disarm (Since t0) (bomb_minutes cfg) (ACTIVATESECONDS cfg * 10)
              (now we) ltac:(lia) pre f we last rest Hf eq_refl Hd)
    as (w1 & Hu1 & Hn1 & Hs1 & Hrun).
  { change (now we) with (now wd). rewrite Hn. exact Hip. }
  { change (now we) with (now wd). rewrite Hn. exact He. }
  { change (now we) with (now wd). rewrite Hn.
    rewrite progressPercent_exact by lia. apply Z.div_le_lower_bound; lia. }
  unfold hold. unfold bind at 1. unfold bind at 1, millis, get at 1.
  rewrite Hrun.
  eexists. split; [reflexivity|].
  split; [|exact Hs1].
  apply (unchanged_trans w wd); [exact Hu|].
  apply (unchanged_trans wd we); [exact Hue|]. exact Hu1.
Qed.

(** ** Zone control totals *)

Lemma view_ctl tr : view (ctl tr) = view tr.
Proof.
  induction tr as [|[t e] tr IH]; [reflexivity|].
  unfold ctl in *. cbn [filter snd].
  destruct (is_ctl e) eqn:E; cbn [view fold_right]; fold (view tr).
  - fold (view (filter (fun x => is_ctl (snd x)) tr)). rewrite IH. reflexivity.
  - rewrite IH. destruct e; try discriminate E; reflexivity.
Qed.

Lemma unchanged_view w w' : unchanged w w' -> view (out w') = view (out w).
Proof.
  intros Hu. rewrite <- (view_ctl (out w')), <- (view_ctl (out w)).
  rewrite (un_ctl _ _ Hu). reflexivity.
Qed.

Lemma stable_zone_inv : stable zone_inv.
Proof.
  intros w w' (Ht & Hh & Hs) Hu.
  unfold zone_inv, totals_agree, control_time in *.
  rewrite (unchanged_view _ _ Hu), (un_greenTime _ _ Hu), (un_redTime _ _ Hu),
    (un_team _ _ Hu), (un_iZoneTime _ _ Hu).
  auto.
Qed.

Lemma stable_totals_agree : stable totals_agree.
Proof.
  intros w w' Ht Hu. unfold totals_agree, control_time in *.
  rewrite (unchanged_view _ _ Hu), (un_greenTime _ _ Hu), (un_redTime _ _ Hu).
  exact Ht.
Qed.

Lemma zone_inv_totals w : zone_inv w -> totals_agree w.
Proof. intros [H _]. exact H. Qed.

Lemma ulong_add_l a b : ulong (ulong a + b) = ulong (a + b).
Proof. unfold ulong, two32. rewrite Zplus_mod_idemp_l. reflexivity. Qed.

Lemma close_at_sum k t v :
  interval_sum k (closed (close_at t v))
  = (if (holder v =? k) && negb (holder v =? 0) then ulong (t - since v) else 0)
    + interval_sum k (closed v).
Proof.
  unfold close_at. destruct (Z.eqb_spec (holder v) 0) as [E|E]; cbn.
  - rewrite andb_false_r. reflexivity.
  - rewrite andb_true_r. reflexivity.
Qed.

Lemma holder_close_at t v : holder (close_at t v) = 0.
Proof.
  unfold close_at. destruct (Z.eqb_spec (holder v) 0) as [E|E]; [exact E | reflexivity].
Qed.

Lemma view_cons e tr : view (e :: tr) = view_step e (view tr).
Proof. reflexivity. Qed.

Ltac zone_simpl :=
  unfold zone_inv, totals_agree, control_time;
  cbn [out greenTime redTime team iZoneTime now set_team set_iZoneTime
       set_greenTime set_redTime set_now set_clock set_endGame add_out];
  rewrite ?view_cons; unfold view_step; cbn [snd fst Z.eqb].

Lemma neutralize_complete_inv :
  hoare zone_inv neutralize_complete (fun _ => zone_inv) totals_agree.
Proof.
  intros w (Ht & Hh & Hs). destruct Ht as [Hg Hr].
  cbv [neutralize_complete accumulate bind delay modify get millis].
  cbn [now team iZoneTime set_now set_clock].
  unfold control_time in Hg, Hr.
  destruct (Z.eqb_spec (team w) 1) as [E1|E1];
    destruct (Z.eqb_spec (team w) 2) as [E2|E2]; try lia;
    cbn [when ret]; zone_simpl; rewrite !close_at_sum, holder_close_at, Hh;
    (split; [|split; [reflexivity | intros C; contradiction C; reflexivity]]).
  - rewrite E1. cbn [Z.eqb andb negb Pos.eqb].
    rewrite Hs by lia. rewrite Hg, Hr, ulong_add_l.
    split; [f_equal; lia | reflexivity].
  - rewrite E2. cbn [Z.eqb andb negb Pos.eqb].
    rewrite Hs by lia. rewrite Hg, Hr, ulong_add_l.
    split; [reflexivity | f_equal; lia].
  - destruct (Z.eqb_spec (team w) 1); [contradiction|].
    destruct (Z.eqb_spec (team w) 2); [contradiction|].
    cbn [andb]. split; assumption.
Qed.

Lemma capture_complete_inv k led :
  k <> 0 ->
  hoare (fun w => zone_inv w /\ team w = 0) (capture_complete k led)
        (fun _ => zone_inv) totals_agree.
Proof.
  intros Hk w ((Ht & Hh & Hs) & H0). destruct Ht as [Hg Hr].
  cbv [capture_complete bind delay modify get millis digitalWrite emit].
  unfold control_time in Hg, Hr.
  zone_simpl.
  destruct (Z.eqb_spec k 0) as [|_]; [contradiction|].
  cbn [holder since closed].
  rewrite !close_at_sum. rewrite Hh, H0. cbn [Z.eqb andb].
  repeat split; auto.
Qed.

Lemma gameOver_entry_inv :
  hoare zone_inv (emit (Enter PGameOver) ;; accumulate)
        (fun _ => zone_over) totals_agree.
Proof.
  intros w (Ht & Hh & Hs). destruct Ht as [Hg Hr].
  cbv [accumulate bind modify get millis emit].
  cbn [now team iZoneTime add_out].
  unfold control_time in Hg, Hr.
  destruct (Z.eqb_spec (team w) 1) as [E1|E1];
    destruct (Z.eqb_spec (team w) 2) as [E2|E2]; try lia;
    cbn [when ret]; unfold zone_over; zone_simpl;
    rewrite !close_at_sum, holder_close_at, Hh;
    (split; [|reflexivity]).
  - rewrite E1. cbn [Z.eqb andb negb Pos.eqb].
    rewrite Hs by lia. rewrite Hg, Hr, ulong_add_l.
    split; [f_equal; lia | reflexivity].
  - rewrite E2. cbn [Z.eqb andb negb Pos.eqb].
    rewrite Hs by lia. rewrite Hg, Hr, ulong_add_l.
    split; [reflexivity | f_equal; lia].
  - destruct (Z.eqb_spec (team w) 1); [contradiction|].
    destruct (Z.eqb_spec (team w) 2); [contradiction|].
    cbn [andb]. split; assumption.
Qed.

Lemma dom_while_inv cfg (I : world -> Prop) fuel cond k banner complete after t0 :
  stable I ->
  (forall w, I w -> zone_inv w) ->
  (forall w, zone_inv w -> cond w = true -> I w) ->
  hoare I complete (fun _ => zone_inv) totals_agree ->
  quiet after ->
  hoare zone_inv (dom_while cfg fuel cond k banner complete after t0)
        (fun _ => zone_inv) totals_agree.
Proof.
  intros HS HIz HzI Hc Ha.
  assert (HH : forall w, I w -> totals_agree w)
    by (intros w Hw; apply zone_inv_totals, HIz, Hw).
  pose proof stable_zone_inv as HSz.
  assert (HHz : forall w, zone_inv w -> totals_agree w)
    by (apply zone_inv_totals).
  induction fuel as [|f IH]; cbn [dom_while].
  - apply hoare_stop. exact HHz.
  - eapply hoare_bind; [apply hoare_read_eq|].
    intros c; cbn beta. destruct c; cbn [negb].
    2:{ apply hoare_ret. intros w [Hw _]. exact Hw. }
    apply (hoare_pre _ I); [intros w [Hw Hc']; apply HzI; auto|].
    do 3 hoare_step I.
    eapply hoare_bind.
    { apply (hoare_hold cfg I zone_inv zone_inv totals_agree); assumption. }
    intros r; cbn beta. destruct r.
    + apply (hoare_pre _ zone_inv); [intros w [Hw _]; apply HIz, Hw|].
      hoare_step zone_inv. exact IH.
    + apply hoare_ret. auto.
    + hoare_step zone_inv. exact IH.
Qed.

Lemma dom_neutralize_inv cfg fuel t0 :
  hoare zone_inv (dom_neutralize cfg fuel t0) (fun _ => zone_inv) totals_agree.
Proof.
  unfold dom_neutralize.
  apply (dom_while_inv cfg zone_inv); auto using stable_zone_inv.
  - apply neutralize_complete_inv.
  - solve_quiet.
Qed.

Lemma stable_zone_free : stable (fun w => zone_inv w /\ team w = 0).
Proof.
  intros w w' [H1 H2] Hu. split; [eapply stable_zone_inv; eassumption|].
  rewrite (un_team _ _ Hu). exact H2.
Qed.

Lemma dom_capture_red_inv cfg fuel t0 :
  hoare zone_inv (dom_capture_red cfg fuel t0) (fun _ => zone_inv) totals_agree.
Proof.
  unfold dom_capture_red.
  apply (dom_while_inv cfg (fun w => zone_inv w /\ team w = 0)).
  - apply stable_zone_free.
  - tauto.
  - intros w Hw Hc. split; [exact Hw|].
    apply andb_prop in Hc as [_ Hc]. apply Z.eqb_eq, Hc.
  - apply capture_complete_inv. lia.
  - solve_quiet.
Qed.

Lemma dom_capture_green_inv cfg fuel t0 :
  hoare zone_inv (dom_capture_green cfg fuel t0) (fun _ => zone_inv) totals_agree.
Proof.
  unfold dom_capture_green.
  apply (dom_while_inv cfg (fun w => zone_inv w /\ team w = 0)).
  - apply stable_zone_free.
  - tauto.
  - intros w Hw Hc. split; [exact Hw|].
    apply andb_prop in Hc as [_ Hc]. apply Z.eqb_eq, Hc.
  - apply capture_complete_inv. lia.
  - solve_quiet.
Qed.

Lemma domination_loop_inv cfg fuel : forall t0 show last,
  hoare zone_inv (domination_loop cfg fuel t0 show last)
        (fun n w => zone_inv w /\ (n = Goto PGameOver \/ n = Return))
        totals_agree.
Proof.
  pose proof stable_zone_inv as HS.
  assert (HH : forall w, zone_inv w -> totals_agree w) by (apply zone_inv_totals).
  induction fuel as [|f IH]; intros t0 show last; cbn [domination_loop].
  - apply hoare_stop. exact HH.
  - hoare_step zone_inv. destruct a.
    { apply hoare_ret; auto. }
    do 3 hoare_step zone_inv. cbv zeta.
    do 2 hoare_step zone_inv.
    destruct (timeExpired _ _).
    { apply hoare_ret; auto. }
    eapply hoare_bind; [apply dom_neutralize_inv|].
    intros r1; cbn beta. destruct r1; [apply hoare_ret; auto|].
    eapply hoare_bind; [apply dom_capture_red_inv|].
    intros r2; cbn beta. destruct r2; [apply hoare_ret; auto|].
    eapply hoare_bind; [apply dom_capture_green_inv|].
    intros r3; cbn beta. destruct r3; [apply hoare_ret; auto|].
    apply IH.
Qed.

Lemma domination_entry_inv cfg fuel w :
  match domination cfg fuel (add_out (Enter PDomination) w) with
  | Ok n w' => zone_inv w' /\ (n = Goto PGameOver \/ n = Return)
  | Halt _ w' => totals_agree w'
  end.
Proof.
  unfold domination.
  cbv [bind millis get modify].
  apply domination_loop_inv.
  zone_simpl. cbn [holder since closed]. rewrite !close_at_sum.
  cbn. repeat split; try reflexivity; intros C; contradiction C; reflexivity.
Qed.

Lemma stable_zone_over : stable zone_over.
Proof.
  intros w w' [Ht Hh] Hu. split; [eapply stable_totals_agree; eassumption|].
  rewrite (unchanged_view _ _ Hu). exact Hh.
Qed.

Lemma quiet_show_winner : quiet show_winner.
Proof. unfold show_winner. solve_quiet. Qed.

Lemma quiet_gameOver_screens fuel : quiet (gameOver_screens fuel).
Proof.
  induction fuel; cbn [gameOver_screens]; solve_quiet;
    try apply quiet_show_winner; assumption.
Qed.

Lemma gameOver_prompt_inv fuel :
  hoare zone_over (gameOver_prompt fuel)
        (fun n w => zone_over w /\ (n = Goto PDomination \/ n = Goto PMenu))
        totals_agree.
Proof.
  pose proof stable_zone_over as HS.
  assert (HH : forall w, zone_over w -> totals_agree w) by (intros w [H _]; exact H).
  induction fuel as [|f IH]; cbn [gameOver_prompt].
  - apply hoare_stop. exact HH.
  - hoare_step zone_over.
    destruct (Ascii.eqb a "a"); [|destruct (Ascii.eqb a "b")].
    + do 2 hoare_step zone_over. apply hoare_ret; auto.
    + hoare_step zone_over. apply hoare_ret; auto.
    + exact IH.
Qed.

Lemma gameOver_entry_run fuel w :
  zone_inv w ->
  match gameOver fuel (add_out (Enter PGameOver) w) with
  | Ok n w' => zone_over w' /\ (n = Goto PDomination \/ n = Goto PMenu)
  | Halt _ w' => totals_agree w'
  end.
Proof.
  intros Hw.
  pose proof stable_zone_over as HS.
  assert (HH : forall w, zone_over w -> totals_agree w) by (intros x [H _]; exact H).
  assert (Hrest : hoare zone_inv (emit (Enter PGameOver) ;; gameOver fuel)
                    (fun n w' => zone_over w' /\ (n = Goto PDomination \/ n = Goto PMenu))
                    totals_agree).
  { unfold gameOver.
    intros x Hx. pose proof (gameOver_entry_inv x Hx) as He.
    unfold bind at 1. unfold emit at 1, modify at 1.
    unfold bind at 1 in He. unfold emit at 1, modify at 1 in He.
    unfold bind at 1.
    destruct (accumulate (add_out (Enter PGameOver) x)) as [u x1|h x1]; [|exact He].
    revert x1 He. change (hoare zone_over
      (digitalWrite GREENLED false ;; digitalWrite REDLED false ;;
       gameOver_screens fuel ;;
       digitalWrite GREENLED false ;; digitalWrite REDLED false ;;
       cls ;; delay 100 ;; lcd_print "Play Again?" ;; lcd_setCursor 0 1 ;;
       lcd_print "A : Yes B : No" ;; gameOver_prompt fuel)
      (fun n w' => zone_over w' /\ (n = Goto PDomination \/ n = Goto PMenu))
      totals_agree).
    do 2 hoare_step zone_over.
    eapply hoare_bind;
      [apply (hoare_quiet zone_over);
       [assumption | apply quiet_gameOver_screens | assumption]|].
    intros ?; cbn beta.
    do 7 hoare_step zone_over.
    apply gameOver_prompt_inv. }
  specialize (Hrest w Hw). unfold bind at 1 in Hrest.
  unfold emit at 1, modify at 1 in Hrest. exact Hrest.
Qed.

(** Back in the main menu the totals agree with the trace, unless a team
    still held the zone: then its last interval is missing from them. *)
Lemma menu_entry_zone w :
  zone_inv w \/ zone_over w ->
  totals_agree (add_out (Enter PMenu) w) \/ lost_interval (add_out (Enter PMenu) w).
Proof.
  assert (Hfree : forall x, totals_agree x -> holder (view (out x)) = 0 ->
                            totals_agree (add_out (Enter PMenu) x)).
  { intros x [Hg Hr] Hh. unfold control_time in Hg, Hr.
    zone_simpl. unfold close_at. rewrite Hh. cbn [Z.eqb]. split; assumption. }
  intros [(Ht & Hh & Hs) | [Ht Hh]]; [|left; apply Hfree; assumption].
  destruct (Z.eq_dec (team w) 0) as [E|E].
  - left. apply Hfree; [exact Ht | rewrite Hh; exact E].
  - right. exists (now w), (out w). destruct Ht as [Hg Hr].
    split; [reflexivity|]. split; [exact E|].
    cbn [out greenTime redTime team iZoneTime add_out].
    split; [|split; assumption].
    rewrite view_cons. unfold view_step. cbn [snd fst].
    unfold close_at. rewrite Hh.
    destruct (Z.eqb_spec (team w) 0) as [|_]; [contradiction|].
    cbn [closed]. rewrite Hs by exact E. reflexivity.
Qed.

(** At the end of every run that starts in [domination()] or, with the
    zone invariant, in [gameOver()], the totals agree with the trace or
    miss the interval that the return to the menu closed. *)
Lemma exec_zone cfg fuel : forall p w,
  match p with
  | PDomination => totals_agree w
  | PGameOver => zone_inv w
  | PMenu => zone_inv w \/ zone_over w
  | _ => False
  end ->
  totals_agree (final (exec cfg fuel p w))
  \/ lost_interval (final (exec cfg fuel p w)).
Proof.
  set (P := fun x => totals_agree x \/ lost_interval x).
  induction fuel as [|f IH]; intros p w Hp.
  - cbn. left. destruct p; try contradiction; try assumption.
    + apply zone_inv_totals, Hp.
    + destruct Hp as [Hp | [Hp _]]; [apply zone_inv_totals, Hp | exact Hp].
  - change (forall p w,
               match p with
               | PDomination => totals_agree w
               | PGameOver => zone_inv w
               | PMenu => zone_inv w \/ zone_over w
               | _ => False
               end -> P (final (exec cfg f p w))) in IH.
    change (P (final (exec cfg (S f) p w))).
    cbn [exec]. unfold bind at 1. unfold emit at 1, modify at 1.
    destruct p; try contradiction.
    + pose proof (domination_entry_inv cfg f w) as Hd.
      unfold bind at 1. cbn [body].
      destruct (domination cfg f (add_out (Enter PDomination) w)) as [n w'|h w'];
        [|left; exact Hd].
      destruct Hd as [Hz [-> | ->]].
      * apply IH. exact Hz.
      * apply IH. left. exact Hz.
    + pose proof (gameOver_entry_run f w Hp) as Hg.
      unfold bind at 1. cbn [body].
      destruct (gameOver f (add_out (Enter PGameOver) w)) as [n w'|h w'];
        [|left; exact Hg].
      destruct Hg as [Hz [-> | ->]]; apply IH; [exact (proj1 Hz) | right; exact Hz].
    + cbn [final ret]. apply menu_entry_zone. exact Hp.
Qed.

Lemma exec_domination_zone cfg fuel w :
  totals_agree (final (exec cfg (S fuel) PDomination w))
  \/ lost_interval (final (exec cfg (S fuel) PDomination w)).
Proof.
  set (P := fun x => totals_agree x \/ lost_interval x).
  change (P (final (exec cfg (S fuel) PDomination w))).
  cbn [exec]. unfold bind at 1. unfold emit at 1, modify at 1.
  pose proof (domination_entry_inv cfg fuel w) as Hd.
  unfold bind at 1. cbn [body].
  destruct (domination cfg fuel (add_out (Enter PDomination) w)) as [n w'|h w'];
    [|left; exact Hd].
  destruct Hd as [Hz [-> | ->]].
  - apply (exec_zone cfg fuel PGameOver). exact Hz.
  - apply (exec_zone cfg fuel PMenu). left. exact Hz.
Qed.

(** C4 (the sketch fails it).  A total changes only when an interval is
    closed, by a completed neutralize or by [gameOver()], and by exactly
    the length of that interval, so while a session runs and when it ends
    through [gameOver()] each team's total is the sum, in [unsigned long],
    of (release - acquire) over the intervals the trace shows for that
    team.  But a session also ends when the clock expires inside a hold
    loop, which returns to the menu without [gameOver()]: at the end of
    every run of a Domination session, replays included, the totals are
    the interval sums, or the run has just returned to the menu and they
    are the sums without the interval of the team that still held the
    zone.  The second case happens: green holds the zone from 5010 ms on,
    the minute runs out at 59020 ms inside the neutralize hold, and
    green's total is 0 where its interval is 54010 ms long.  With no key
    held at the end of the minute [gameOver()] runs and the totals
    agree. *)
Theorem session_end_in_hold_loses_interval :
  (forall cfg fuel w,
      let w' := final (exec cfg (S fuel) PDomination w) in
      totals_agree w' \/ lost_interval w')
  /\ (forall fuel w,
         zone_inv w ->
         match gameOver fuel (add_out (Enter PGameOver) w) with
         | Ok _ w' => totals_agree w' /\ holder (view (out w')) = 0
         | Halt _ w' => totals_agree w'
         end)
  /\ (let w' := final (exec cfg_dom 100 PDomination
                         (world0 script_expiry_in_hold)) in
      lost_interval w'
      /\ closed (view (out w')) = [mkInterval 1 5010 59020]
      /\ control_time 1 (out w') = 54010
      /\ greenTime w' = 0
      /\ ~ totals_agree w')
  /\ (let w' := final (exec cfg_dom 100 PDomination
                         (world0 script_expiry_idle)) in
      closed (view (out w')) = [mkInterval 1 5010 59010]
      /\ control_time 1 (out w') = 54000
      /\ greenTime w' = 54000
      /\ totals_agree w').
Proof.
  split; [intros cfg fuel w; exact (exec_domination_zone cfg fuel w)|].
  split.
  { intros fuel w Hz. pose proof (gameOver_entry_run fuel w Hz) as Hg.
    destruct (gameOver fuel (add_out (Enter PGameOver) w)) as [n w'|h w'];
      [exact (proj1 Hg) | exact Hg]. }
  assert (Hrun : exists w',
             final (exec cfg_dom 100 PDomination (world0 script_expiry_in_hold)) = w'
             /\ out w' = (59020, Enter PMenu) :: tl (out w')
             /\ team w' = 1 /\ iZoneTime w' = 5010
             /\ closed (view (out w')) = [mkInterval 1 5010 59020]
             /\ closed (view (tl (out w'))) = []
             /\ greenTime w' = 0 /\ redTime w' = 0).
  { eexists. split; [vm_compute; reflexivity|].
    vm_compute. repeat split; reflexivity. }
  destruct Hrun as (w' & -> & Ho & Htm & Hiz & Hcl & Hcl' & Hg & Hr).
  split.
  - assert (Hct : control_time 1 (out w') = 54010)
      by (unfold control_time; rewrite Hcl; reflexivity).
    split.
    { exists 59020, (tl (out w')). split; [exact Ho|].
      split; [rewrite Htm; discriminate|].
      split; [rewrite Htm, Hiz, Hcl, Hcl'; reflexivity|].
      unfold control_time. rewrite Hcl', Hg, Hr. split; reflexivity. }
    split; [exact Hcl|]. split; [exact Hct|]. split; [exact Hg|].
    intros [Hbad _]. rewrite Hg, Hct in Hbad. discriminate Hbad.
  - cbv zeta.
    assert (Hidle : exists w2,
               final (exec cfg_dom 100 PDomination (world0 script_expiry_idle)) = w2
               /\ closed (view (out w2)) = [mkInterval 1 5010 59010]
               /\ greenTime w2 = 54000 /\ redTime w2 = 0).
    { eexists. split; [vm_compute; reflexivity|].
      vm_compute. repeat split; reflexivity. }
    destruct Hidle as (w2 & -> & Hc2 & Hg2 & Hr2).
    assert (Hct2 : control_time 1 (out w2) = 54000)
      by (unfold control_time; rewrite Hc2; reflexivity).
    split; [exact Hc2|]. split; [exact Hct2|]. split; [exact Hg2|].
    split; [rewrite Hg2, Hct2; reflexivity|].
    rewrite Hr2. unfold control_time. rewrite Hc2. reflexivity.
Qed.

(** ** The winner declared by [gameOver()] *)

Lemma declares_dec z : declares (LcdPrint (dec z)) = None.
Proof. unfold dec. destruct (N.to_uint (Z.to_N z)); reflexivity. Qed.

Lemma declares_none_ret {A} (a : A) : declares_none (ret a).
Proof. intros w. reflexivity. Qed.

Lemma declares_none_stop {A} h : declares_none (@stop A h).
Proof. intros w. reflexivity. Qed.

Lemma declares_none_get {A} (f : world -> A) : declares_none (get f).
Proof. intros w. reflexivity. Qed.

Lemma declares_none_bind {A B} (m : M A) (f : A -> M B) :
  declares_none m -> (forall a, declares_none (f a)) -> declares_none (bind m f).
Proof.
  intros Hm Hf w. unfold bind. specialize (Hm w).
  destruct (m w) as [a w'|h w']; cbn [final] in *; [|exact Hm].
  rewrite Hf. exact Hm.
Qed.

Lemma declares_none_emit e : declares e = None -> declares_none (emit e).
Proof. intros He w. cbn. rewrite He. reflexivity. Qed.

Lemma declares_none_delay ms : declares_none (delay ms).
Proof. intros w. reflexivity. Qed.

Lemma declares_none_getKey : declares_none getKey.
Proof. intros w. unfold getKey. destruct (script w); reflexivity. Qed.

Lemma declares_none_when b m : declares_none m -> declares_none (when b m).
Proof. intros Hm. destruct b; [exact Hm | apply declares_none_ret]. Qed.

(** One step of a proof that a command declares no winner. *)
Ltac declares_none_step :=
  lazymatch goal with
  | |- declares_none (bind _ _) => apply declares_none_bind; [|intro]
  | |- declares_none (ret _) => apply declares_none_ret
  | |- declares_none (stop _) => apply declares_none_stop
  | |- declares_none (get _) => apply declares_none_get
  | |- declares_none millis => apply declares_none_get
  | |- declares_none (when _ _) => apply declares_none_when
  | |- declares_none (lcd_print (dec _)) => apply declares_none_emit, declares_dec
  | |- declares_none (emit _) => apply declares_none_emit; reflexivity
  | |- declares_none cls => apply declares_none_emit; reflexivity
  | |- declares_none (lcd_print _) => apply declares_none_emit; reflexivity
  | |- declares_none (lcd_setCursor _ _) => apply declares_none_emit; reflexivity
  | |- declares_none (digitalWrite _ _) => apply declares_none_emit; reflexivity
  | |- declares_none (tone _ _) => apply declares_none_emit; reflexivity
  | |- declares_none (delay _) => apply declares_none_delay
  | |- declares_none getKey => apply declares_none_getKey
  | |- declares_none (if ?b then _ else _) => destruct b
  | |- declares_none (match ?x with _ => _ end) => destruct x
  | |- declares_none (let _ := _ in _) => cbv zeta
  end.

Lemma declares_none_printTimeDom e b : declares_none (printTimeDom e b).
Proof. unfold printTimeDom. repeat declares_none_step. Qed.

Lemma declares_none_waitForKey fuel : declares_none (waitForKey fuel).
Proof. induction fuel; cbn [waitForKey]; repeat declares_none_step. assumption. Qed.

Lemma declares_none_accumulate : declares_none accumulate.
Proof.
  intros w. cbv [accumulate bind get millis when modify ret].
  destruct (team w =? 1), (team w =? 2); reflexivity.
Qed.

Lemma stable_result_inv g r d0 :
  forall (A : Type) (m : M A),
    quiet m -> declares_none m ->
    hoare (result_inv g r d0) m (fun _ => result_inv g r d0) (result_inv g r d0).
Proof.
  intros A m Hq Hd w (Hg & Hr & n & Hn).
  specialize (Hq w). specialize (Hd w).
  assert (HJ : result_inv g r d0 (final (m w))).
  { split; [rewrite (un_greenTime _ _ Hq); exact Hg|].
    split; [rewrite (un_redTime _ _ Hq); exact Hr|].
    exists n. rewrite Hd. exact Hn. }
  destruct (m w); exact HJ.
Qed.

(** [show_winner] as a function of the world. *)
Lemma show_winner_run w :
  show_winner w =
  Ok tt (match winner (greenTime w) (redTime w) with
         | Green => add_out (DigitalWrite GREENLED true)
                            (add_out (LcdPrint " GREEN TEAM WINS") w)
         | Red => add_out (DigitalWrite REDLED true)
                          (add_out (LcdPrint "  RED TEAM WINS") w)
         end).
Proof.
  unfold show_winner, bind, get. destruct (winner (greenTime w) (redTime w)); reflexivity.
Qed.

Lemma show_winner_declares w w' :
  show_winner w = Ok tt w' ->
  greenTime w' = greenTime w /\ redTime w' = redTime w
  /\ declared (out w') = winner (greenTime w) (redTime w) :: declared (out w).
Proof.
  rewrite show_winner_run. intros E. injection E as <-.
  destruct (winner (greenTime w) (redTime w)); repeat split; reflexivity.
Qed.

Lemma repeat_snoc {A} (x : A) n l : repeat x n ++ x :: l = x :: repeat x n ++ l.
Proof. induction n; cbn; [reflexivity | rewrite IHn; reflexivity]. Qed.

Lemma show_winner_first g r d0 :
  hoare (result_inv g r d0) show_winner
        (fun _ => result_inv g r (winner g r :: d0))
        (result_inv g r (winner g r :: d0)).
Proof.
  intros w (Hg & Hr & n & Hn).
  destruct (show_winner w) as [[] w'|h w'] eqn:E;
    [|rewrite show_winner_run in E; discriminate E].
  destruct (show_winner_declares w w' E) as (Hg' & Hr' & Hd).
  split; [congruence|]. split; [congruence|].
  exists n. rewrite Hd, Hg, Hr, Hn, repeat_snoc. reflexivity.
Qed.

Lemma show_winner_again g r d0 :
  hoare (result_inv g r d0) show_winner
        (fun _ => result_inv g r d0) (result_inv g r d0).
Proof.
  intros w Hw. pose proof (show_winner_first g r d0 w Hw) as H.
  destruct (show_winner w) as [[] w'|h w']; destruct H as (Hg & Hr & n & Hn);
    (split; [exact Hg|]; split; [exact Hr|]; exists (S n);
     rewrite Hn, repeat_snoc; reflexivity).
Qed.

(** One step through [gameOver()] under [result_inv]. *)
Ltac result_step g r d0 :=
  lazymatch goal with
  | |- hoare _ (bind (get _) _) _ _ =>
      eapply hoare_bind; [apply hoare_read | intros ?; cbn beta]
  | |- hoare _ (bind show_winner _) _ _ =>
      eapply hoare_bind; [apply show_winner_again | intros ?; cbn beta]
  | |- hoare _ (bind _ _) _ _ =>
      eapply hoare_bind;
      [apply (stable_result_inv g r d0);
       [solve [solve_quiet]
       | solve [repeat first [declares_none_step
                             | apply declares_none_printTimeDom
                             | apply declares_none_waitForKey]]]
      | intros ?; cbn beta]
  | |- hoare _ (ret _) _ _ => apply hoare_ret; intros ? ?; assumption
  | |- hoare _ (stop _) _ _ => apply hoare_stop; intros ? ?; assumption
  | |- hoare _ (if ?b then _ else _) _ _ => destruct b
  end.

Lemma gameOver_screens_result g r d0 fuel :
  hoare (result_inv g r d0) (gameOver_screens fuel)
        (fun _ => result_inv g r d0) (result_inv g r d0).
Proof.
  induction fuel as [|f IH]; cbn [gameOver_screens];
    repeat result_step g r d0. exact IH.
Qed.

Lemma gameOver_prompt_result g r d0 fuel :
  hoare (result_inv g r d0) (gameOver_prompt fuel)
        (fun _ => result_inv g r d0) (result_inv g r d0).
Proof.
  induction fuel as [|f IH]; cbn [gameOver_prompt];
    repeat result_step g r d0. exact IH.
Qed.
Lemma hoare_final {A} (P Q : world -> Prop) (m : M A) w :
  hoare P m (fun _ => Q) Q -> P w -> Q (final (m w)).
Proof. intros H Hw. specialize (H w Hw). destruct (m w); exact H. Qed.

Lemma accumulate_run w :
  accumulate w =
  Ok tt (let w1 := if team w =? 1
                   then set_greenTime
                          (ulong (greenTime w + ulong (now w - iZoneTime w))) w
                   else w in
         if team w =? 2
         then set_redTime (ulong (redTime w1 + ulong (now w - iZoneTime w))) w1
         else w1).
Proof.
  cbv [accumulate bind get millis when modify ret].
  destruct (team w =? 1), (team w =? 2); reflexivity.
Qed.

Lemma accumulate_frame w :
  let w1 := final (accumulate w) in
  out w1 = out w /\ defusing w1 = defusing w /\ script w1 = script w
  /\ greenTime w1 = (if team w =? 1
                     then ulong (greenTime w + ulong (now w - iZoneTime w))
                     else greenTime w)
  /\ redTime w1 = (if team w =? 2
                   then ulong (redTime w + ulong (now w - iZoneTime w))
                   else redTime w).
Proof.
  rewrite accumulate_run. cbn [final].
  destruct (team w =? 1), (team w =? 2); cbn; repeat split; reflexivity.
Qed.

(** [gameOver()] after the totals are final. *)
Lemma gameOver_rest_result g r d0 fuel :
  hoare (result_inv g r d0)
        (digitalWrite GREENLED false ;; digitalWrite REDLED false ;;
         gameOver_screens fuel ;;
         digitalWrite GREENLED false ;; digitalWrite REDLED false ;;
         cls ;; delay 100 ;; lcd_print "Play Again?" ;; lcd_setCursor 0 1 ;;
         lcd_print "A : Yes B : No" ;; gameOver_prompt fuel)
        (fun _ => result_inv g r d0) (result_inv g r d0).
Proof.
  do 2 result_step g r d0.
  eapply hoare_bind; [apply gameOver_screens_result | intros ?; cbn beta].
  do 7 result_step g r d0.
  apply gameOver_prompt_result.
Qed.

Lemma result_inv_add_out g r d0 e w :
  declares e = None -> result_inv g r d0 w -> result_inv g r d0 (add_out e w).
Proof.
  intros He (Hg & Hr & n & Hn). split; [exact Hg|]. split; [exact Hr|].
  exists n. cbn. rewrite He. exact Hn.
Qed.

(** The first result screen: with the defuse key up on entry and at the
    first poll the winner is declared before anything else can end the
    loop. *)
Lemma gameOver_screens_first g r d0 f :
  hoare (fun x => result_inv g r d0 x /\ defusing x = false
                  /\ exists p rest, script x = p :: rest /\ heldD p = false)
        (gameOver_screens (S f))
        (fun _ => result_inv g r (winner g r :: d0))
        (result_inv g r (winner g r :: d0)).
Proof.
  intros x (HJ & Hd & p & rest & Hs & Hp).
  cbn [gameOver_screens]. unfold bind at 1, get at 1. rewrite Hd.
  unfold bind at 1. rewrite (getKey_cons x p rest Hs).
  unfold bind at 1, get at 1. cbn [defusing set_clock]. rewrite Hp.
  unfold bind at 1. unfold cls at 1, emit at 1, modify at 1.
  unfold bind at 1. unfold lcd_setCursor at 1, emit at 1, modify at 1.
  unfold bind at 1. unfold lcd_print at 1, emit at 1, modify at 1.
  unfold bind at 1. unfold lcd_setCursor at 1, emit at 1, modify at 1.
  match goal with
  | |- match bind show_winner ?k ?y with _ => _ end =>
      assert (HJ' : result_inv g r d0 y)
        by (repeat apply result_inv_add_out; try reflexivity; exact HJ);
      revert HJ'; generalize y; intros y' HJ';
      apply (hoare_bind (result_inv g r d0) show_winner k
               (fun _ => result_inv g r (winner g r :: d0))
               (fun _ => result_inv g r (winner g r :: d0))
               (result_inv g r (winner g r :: d0)));
        [apply show_winner_first | | exact HJ']
  end.
  intros _.
  repeat result_step g r (winner g r :: d0).
  apply gameOver_screens_result.
Qed.

Lemma hoare_declared {A} d (m : M A) :
  declares_none m ->
  hoare (fun x => declared (out x) = d) m
        (fun _ x => declared (out x) = d) (fun x => declared (out x) = d).
Proof.
  intros Hm w Hw. specialize (Hm w).
  destruct (m w); cbn [final] in Hm; congruence.
Qed.

(** With the defuse key held on entry, or at the first poll, the result
    screens are left before the winner line. *)
Lemma gameOver_screens_skipped d fuel :
  hoare (fun x => declared (out x) = d
                  /\ (defusing x = true
                      \/ exists p rest, script x = p :: rest /\ heldD p = true))
        (gameOver_screens fuel)
        (fun _ x => declared (out x) = d) (fun x => declared (out x) = d).
Proof.
  intros x (Hx & Hskip). destruct fuel as [|f]; [exact Hx|].
  cbn [gameOver_screens]. unfold bind at 1, get at 1.
  destruct (defusing x) eqn:Hd; [exact Hx|].
  destruct Hskip as [C | (p & rest & Hs & Hp)]; [discriminate C|].
  unfold bind at 1. rewrite (getKey_cons x p rest Hs).
  unfold bind at 1, get at 1. cbn [defusing set_clock]. rewrite Hp.
  exact Hx.
Qed.

Lemma declares_none_gameOver_prompt fuel : declares_none (gameOver_prompt fuel).
Proof.
  induction fuel as [|f IH]; cbn [gameOver_prompt]; repeat declares_none_step;
    [apply declares_none_waitForKey | exact IH].
Qed.

Lemma gameOver_rest_skipped d fuel :
  hoare (fun x => declared (out x) = d
                  /\ (defusing x = true
                      \/ exists p rest, script x = p :: rest /\ heldD p = true))
        (digitalWrite GREENLED false ;; digitalWrite REDLED false ;;
         gameOver_screens fuel ;;
         digitalWrite GREENLED false ;; digitalWrite REDLED false ;;
         cls ;; delay 100 ;; lcd_print "Play Again?" ;; lcd_setCursor 0 1 ;;
         lcd_print "A : Yes B : No" ;; gameOver_prompt fuel)
        (fun _ x => declared (out x) = d) (fun x => declared (out x) = d).
Proof.
  intros x Hx.
  unfold bind at 1. unfold digitalWrite at 1, emit at 1, modify at 1.
  unfold bind at 1. unfold digitalWrite at 1, emit at 1, modify at 1.
  assert (Htail : forall u : unit,
             hoare (fun x => declared (out x) = d)
               (digitalWrite GREENLED false ;; digitalWrite REDLED false ;;
                cls ;; delay 100 ;; lcd_print "Play Again?" ;; lcd_setCursor 0 1 ;;
                lcd_print "A : Yes B : No" ;; gameOver_prompt fuel)
               (fun _ x => declared (out x) = d) (fun x => declared (out x) = d)).
  { intros _. apply hoare_declared. repeat declares_none_step.
    apply declares_none_gameOver_prompt. }
  apply (hoare_bind _ _ _ _ _ _ (gameOver_screens_skipped d fuel) Htail).
  exact Hx.
Qed.

Lemma gameOver_rest_first g r d0 f :
  hoare (fun x => result_inv g r d0 x /\ defusing x = false
                  /\ exists p rest, script x = p :: rest /\ heldD p = false)
        (digitalWrite GREENLED false ;; digitalWrite REDLED false ;;
         gameOver_screens (S f) ;;
         digitalWrite GREENLED false ;; digitalWrite REDLED false ;;
         cls ;; delay 100 ;; lcd_print "Play Again?" ;; lcd_setCursor 0 1 ;;
         lcd_print "A : Yes B : No" ;; gameOver_prompt (S f))
        (fun _ => result_inv g r (winner g r :: d0))
        (result_inv g r (winner g r :: d0)).
Proof.
  intros x (HJ & Hx).
  unfold bind at 1. unfold digitalWrite at 1, emit at 1, modify at 1.
  unfold bind at 1. unfold digitalWrite at 1, emit at 1, modify at 1.
  assert (Htail : forall u : unit,
             hoare (result_inv g r (winner g r :: d0))
               (digitalWrite GREENLED false ;; digitalWrite REDLED false ;;
                cls ;; delay 100 ;; lcd_print "Play Again?" ;; lcd_setCursor 0 1 ;;
                lcd_print "A : Yes B : No" ;; gameOver_prompt (S f))
               (fun _ => result_inv g r (winner g r :: d0))
               (result_inv g r (winner g r :: d0))).
  { intros _. do 7 result_step g r (winner g r :: d0).
    apply gameOver_prompt_result. }
  apply (hoare_bind _ _ _ _ _ _ (gameOver_screens_first g r d0 f) Htail).
  split; [repeat apply result_inv_add_out; try reflexivity; exact HJ | exact Hx].
Qed.

(** C7 (corrected).  When [gameOver()] is entered the holder's last
    interval is added to its total.  For the totals [g], [r] it then has,
    the winner is green exactly when [g > r] and red otherwise, equal
    totals included, and this is the only side [gameOver()] ever
    declares, on each pass of its result screens.  It declares it at
    least once if the defuse key is up on entry and at the first poll;
    if the defuse key is held on entry, or at the first poll, the result
    screens are left before the winner line and no winner is declared. *)
Theorem gameOver_declares_winner fuel w :
  let w1 := final (accumulate w) in
  let win := winner (greenTime w1) (redTime w1) in
  let w' := final (gameOver fuel w) in
  greenTime w1 = (if team w =? 1
                  then ulong (greenTime w + ulong (now w - iZoneTime w))
                  else greenTime w)
  /\ redTime w1 = (if team w =? 2
                   then ulong (redTime w + ulong (now w - iZoneTime w))
                   else redTime w)
  /\ (win = Green <-> redTime w1 < greenTime w1)
  /\ (win = Red <-> greenTime w1 <= redTime w1)
  /\ greenTime w' = greenTime w1 /\ redTime w' = redTime w1
  /\ (exists n, declared (out w') = repeat win n ++ declared (out w))
  /\ (forall p rest,
         fuel <> O -> defusing w = false ->
         script w = p :: rest -> heldD p = false ->
         exists n, declared (out w') = repeat win (S n) ++ declared (out w))
  /\ (defusing w = true
      \/ (exists p rest, script w = p :: rest /\ heldD p = true) ->
      declared (out w') = declared (out w)).
Proof.
  cbv zeta.
  destruct (accumulate_frame w) as (Ho & Hd & Hs & Hg & Hr).
  set (w1 := final (accumulate w)) in *.
  assert (Hrun : gameOver fuel w =
                 (digitalWrite GREENLED false ;; digitalWrite REDLED false ;;
                  gameOver_screens fuel ;;
                  digitalWrite GREENLED false ;; digitalWrite REDLED false ;;
                  cls ;; delay 100 ;; lcd_print "Play Again?" ;;
                  lcd_setCursor 0 1 ;;
                  lcd_print "A : Yes B : No" ;; gameOver_prompt fuel) w1).
  { unfold gameOver. unfold bind at 1. unfold w1.
    rewrite accumulate_run. reflexivity. }
  rewrite Hrun.
  assert (HJ : result_inv (greenTime w1) (redTime w1) (declared (out w)) w1).
  { split; [reflexivity|]. split; [reflexivity|]. exists O. rewrite Ho. reflexivity. }
  split; [exact Hg|]. split; [exact Hr|].
  split.
  { unfold winner. destruct (Z.ltb_spec (redTime w1) (greenTime w1));
      split; try congruence; lia. }
  split.
  { unfold winner. destruct (Z.ltb_spec (redTime w1) (greenTime w1));
      split; try congruence; lia. }
  pose proof (hoare_final _ _ _ w1 (gameOver_rest_result _ _ _ fuel) HJ)
    as (Hg' & Hr' & n & Hn).
  split; [exact Hg'|]. split; [exact Hr'|].
  split; [exists n; exact Hn|].
  split.
  - intros p rest Hf Hdf Hsc Hp. destruct fuel as [|f]; [contradiction|].
    assert (Hpre : result_inv (greenTime w1) (redTime w1) (declared (out w)) w1
                   /\ defusing w1 = false
                   /\ exists p rest, script w1 = p :: rest /\ heldD p = false).
    { split; [exact HJ|]. split; [rewrite Hd; exact Hdf|].
      exists p, rest. split; [rewrite Hs; exact Hsc | exact Hp]. }
    pose proof (hoare_final _ _ _ w1 (gameOver_rest_first _ _ _ f) Hpre)
      as (_ & _ & k & Hk).
    exists k. rewrite Hk, repeat_snoc. reflexivity.
  - intros Hskip.
    assert (Hpre : declared (out w1) = declared (out w)
                   /\ (defusing w1 = true
                       \/ exists p rest, script w1 = p :: rest /\ heldD p = true)).
    { split; [rewrite Ho; reflexivity|]. rewrite Hd, Hs. exact Hskip. }
    exact (hoare_final _ _ _ w1 (gameOver_rest_skipped _ fuel) Hpre).
Qed.

(** C7 (as stated, refuted).  A session in which [gameOver()] declares
    no winner: green has held the zone for 54 s and red never, and the
    defuse key is held at the poll that sees the minute run out. *)
Lemma gameOver_skips_winner_when_defuse_held :
  exists w',
    exec cfg_dom 100 PDomination (world0 script_expiry_defuse_held) = Ok tt w'
    /\ ctl (out w') = [(59120, Enter PMenu); (59010, Enter PGameOver);
                       (5010, TeamWrite 1); (0, TeamWrite 0);
                       (0, Enter PDomination)]
    /\ greenTime w' = 54000 /\ redTime w' = 0
    /\ declared (out w') = [].
Proof.
  eexists. split; [vm_compute; reflexivity|].
  vm_compute. repeat split; reflexivity.
Qed.

(** ** Clock expiry in Domination *)

(** C1 (the sketch fails it).  Green holds the zone from 5010 ms on; the
    minute runs out at 59020 ms while the defuse key is held to
    neutralize.  The hold loop sets [endGame] and returns from
    [domination()]: [gameOver()] is never entered, green's total stays 0
    although it held the zone for 54 s, and the run is back in the menu
    with [endGame] still set. *)
Theorem domination_expiry_in_hold_skips_gameOver :
  exists w',
    exec cfg_dom 100 PDomination (world0 script_expiry_in_hold) = Ok tt w'
    /\ ctl (out w') = [(59020, Enter PMenu); (5010, TeamWrite 1);
                       (0, TeamWrite 0); (0, Enter PDomination)]
    /\ team w' = 1 /\ iZoneTime w' = 5010
    /\ greenTime w' = 0 /\ redTime w' = 0
    /\ endGame w' = true /\ script w' = [].
Proof.
  eexists. split; [vm_compute; reflexivity|].
  vm_compute. repeat split; reflexivity.
Qed.

(** The same game with no key held at the end of the minute: the main
    loop sees the last second, [gameOver()] runs and green's total is
    finalized. *)
Example domination_expiry_idle_reaches_gameOver :
  exists w',
    exec cfg_dom 100 PDomination (world0 script_expiry_idle) = Ok tt w'
    /\ ctl (out w') = [(59130, Enter PMenu); (59010, Enter PGameOver);
                       (5010, TeamWrite 1); (0, TeamWrite 0);
                       (0, Enter PDomination)]
    /\ greenTime w' = 54000 /\ redTime w' = 0.
Proof.
  eexists. split; [vm_compute; reflexivity|].
  vm_compute. repeat split; reflexivity.
Qed.

(** The session after that one: [endGame] is still set, so the next
    [domination()] goes to [gameOver()] before its first poll, with both
    totals at 0. *)
Example domination_next_session_over_at_once :
  let w1 := final (exec cfg_dom 100 PDomination (world0 script_expiry_in_hold)) in
  let w2 := final (domination cfg_dom 100 w1) in
  domination cfg_dom 100 w1 = Ok (Goto PGameOver) w2
  /\ now w2 = now w1 /\ greenTime w2 = 0 /\ redTime w2 = 0.
Proof. vm_compute. repeat split; reflexivity. Qed.

(** ** The underflow of the remaining minutes *)

(** Past the deadline the test of the main loops is false and the test of
    the hold loops true. *)
Lemma expiry_tests_past_deadline minutes e :
  0 <= minutes <= 32767 -> (minutes + 1) * 60000 <= e < two32 ->
  timeExpired minutes e = false /\ timeExpiredGuarded minutes e = true.
Proof.
  intros Hm He.
  assert (Hq : minutes + 1 <= e / 60000 < 71583).
  { split; [apply Z.div_le_lower_bound; lia|].
    apply Z.div_lt_upper_bound; unfold two32 in He; lia. }
  assert (Hr : remainingMinutes minutes e = two32 + minutes - e / 60000).
  { unfold remainingMinutes, ulong.
    replace (minutes - e / 60000) with ((two32 + minutes - e / 60000) + (-1) * two32) by lia.
    rewrite Z.mod_add by (unfold two32; lia).
    apply Z.mod_small. unfold two32. lia. }
  unfold timeExpiredGuarded, timeExpired. rewrite Hr.
  destruct (Z.eqb_spec (two32 + minutes - e / 60000) 0) as [E|_];
    [unfold two32 in E; lia|].
  cbn [andb orb]. split; [reflexivity|].
  apply Z.ltb_lt. unfold two32. lia.
Qed.

(** C2 (the sketch fails it).  At 60000 ms of a one-minute game
    [minutes - E / 60000] is 4294967295: the guarded test of the hold
    loops reports expiry, the test of the main loops does not.  In a game
    where a wrong code is typed across the deadline, the pre-arming loop
    of [search()] goes on polling ten seconds later without having
    entered [failSplash()], and shows 71582788 hours of remaining time. *)
Theorem main_loop_expiry_unguarded :
  remainingMinutes 0 60000 = 4294967295
  /\ timeExpired 0 60000 = false
  /\ timeExpiredGuarded 0 60000 = true
  /\ exists w',
       exec cfg_code 100 PSearch (world0 script_code_over_deadline)
       = Halt OutOfInput w'
       /\ now w' = 72710
       /\ ctl (out w') = [(0, Enter PSearch)]
       /\ In (71710, LcdPrint "71582788") (out w').
Proof.
  repeat split; try reflexivity.
  eexists. split; [vm_compute; reflexivity|].
  split; [reflexivity|]. split; [reflexivity|].
  vm_compute. tauto.
Qed.

(** ** Code entry *)

(** C10.  However a code entry ends, and whatever the times of its polls:
    [setCodeTime], [getNumber] and the whole code-entry branch of a mode
    loop (with an introduction that only prints) leave [endGame], the zone
    state and the game clock as they were and enter no other function, so
    no time-out, explosion or game-over transition is taken before the
    branch returns to the loop. *)
Theorem code_entry_suspends_clock cfg fuel k intro col w :
  quiet intro ->
  unchanged w (final (setCodeTime cfg fuel w))
  /\ unchanged w (final (getNumber fuel w))
  /\ unchanged w (final (code_entry cfg fuel k intro col w)).
Proof.
  intros Hi. split; [apply quiet_setCodeTime|].
  split; [apply quiet_getNumber|].
  apply quiet_code_entry, Hi.
Qed.

(** The disarm code entry of [destroy()], on the game whose code is typed
    across the deadline. *)
Lemma code_entry_suspends_clock_witness :
  unchanged (world0 script_code_over_deadline)
    (final (code_entry cfg_code 100 (Some "d"%char)
              (cls ;; lcd_setCursor 1 0 ;; lcd_print "DISARMING BOMB") 3
              (world0 script_code_over_deadline))).
Proof.
  apply (code_entry_suspends_clock cfg_code 100 (Some "d"%char)
           (cls ;; lcd_setCursor 1 0 ;; lcd_print "DISARMING BOMB") 3
           (world0 script_code_over_deadline)).
  apply quiet_bind; [apply quiet_emit; reflexivity | intros _].
  apply quiet_bind; [apply quiet_emit; reflexivity | intros _].
  apply quiet_emit; reflexivity.
Defined.

(** ** Sample runs *)

(** A green capture held for two polls of 2.5 s completes at the second. *)
Lemma hold_completes_once_witness :
  exists w1,
    script w1 = []
    /\ hold cfg_dom 10 CaptureGreen (Since 0) 0 50 (capture_complete 1 REDLED)
            (world_capturing [idle_poll 2500 false true; idle_poll 2500 false true])
       = (capture_complete 1 REDLED ;; ret Completed) w1.
Proof.
  destruct (hold_completes_once cfg_dom CaptureGreen (Since 0) 0
              (capture_complete 1 REDLED) 10
              (world_capturing [idle_poll 2500 false true; idle_poll 2500 false true])
              [idle_poll 2500 false true] (idle_poll 2500 false true) [])
    as (_ & _ & _ & _ & w1 & _ & _ & Hs & Hr).
  - cbn; lia.
  - cbn; lia.
  - reflexivity.
  - reflexivity.
  - vm_compute; reflexivity.
  - vm_compute; reflexivity.
  - vm_compute. split; congruence.
  - exists w1. split; [exact Hs | exact Hr].
Defined.

Lemma gameOver_declares_winner_witness :
  exists n,
    declared (out (final (gameOver 10
                            (world_game_over
                               [idle_poll 10 false false;
                                idle_poll 10 true false; key_poll 10 "b"]))))
    = repeat Green (S n) ++ [].
Proof.
  destruct (gameOver_declares_winner 10
              (world_game_over [idle_poll 10 false false;
                                idle_poll 10 true false; key_poll 10 "b"]))
    as (_ & _ & _ & _ & _ & _ & _ & H & _).
  exact (H (idle_poll 10 false false)
           [idle_poll 10 true false; key_poll 10 "b"]
           ltac:(discriminate) eq_refl eq_refl eq_refl).
Defined.


(** Sabotage over two arm and disarm cycles: the game clock taken at the
    start is still the one in use. *)
Example sabotage_two_cycles :
  let w' := final (exec cfg_sabotage 100 PSabotage (world0 script_two_cycles)) in
  ctl (out w') = [(28080, Enter PSabotage); (20060, Enter PDestroySabotage);
                  (14040, Enter PSabotage); (6020, Enter PDestroySabotage);
                  (0, Enter PSabotage)]
  /\ iTime w' = 0 /\ start w' = false.
Proof. vm_compute. repeat split; reflexivity. Qed.

(** Search and Destroy on the same keys: the first disarm ends the game. *)
Example search_first_disarm_ends :
  let w' := final (exec cfg_search 100 PSearch (world0 script_two_cycles)) in
  ctl (out w') = [(18040, Enter PPlayAgain); (13040, Enter PDisarmedSplash);
                  (6020, Enter PDestroy); (0, Enter PSearch)].
Proof. vm_compute. reflexivity. Qed.

(** A two-minute countdown as [printTime] prints it 500 ms before the
    end. *)
Example printTime_last_second :
  map snd (out (final (printTime (int16 (2 - 1)) 119500 (world0 []))))
  = [LcdPrint "999"; LcdPrint ":"; LcdPrint "0"; LcdPrint "0"; LcdPrint ":";
     LcdPrint "0"; LcdPrint "0"].
Proof. vm_compute. reflexivity. Qed.

(** * Further properties of the sketch *)

(** ** Degenerate configurations *)



(** ** The time limit of a code entry *)

(** X2.  For a hold duration of 1 to 32 seconds (where
    [ACTIVATESECONDS * 1000] fits an [int]) the time-out test
    [ACTIVATESECONDS * 1000 + startTime - millis() <= 100] of
    [setCodeTime] holds exactly in the last 100 ms before the deadline:
    earlier the entry goes on, and later the unsigned difference has
    wrapped, so an entry that is first checked after the deadline is not
    timed out. *)
Theorem code_timeout_window cfg (startTime el : Z) :
  1 <= ACTIVATESECONDS cfg <= 32 ->
  0 <= startTime < two32 -> 0 <= el < two32 ->
  (codeTimeLeft cfg startTime (ulong (startTime + el)) <=? 100) = true
  <-> ACTIVATESECONDS cfg * 1000 - 100 <= el <= ACTIVATESECONDS cfg * 1000.
Proof.
  intros HA Hs He.
  assert (Hc : codeTimeLeft cfg startTime (ulong (startTime + el))
               = ulong (ACTIVATESECONDS cfg * 1000 - el)).
  { unfold codeTimeLeft. rewrite int16_small by lia.
    unfold ulong, two32.
    rewrite Zminus_mod_idemp_r. f_equal. lia. }
  rewrite Hc, Z.leb_le.
  destruct (Z_le_gt_dec el (ACTIVATESECONDS cfg * 1000)) as [Hle|Hgt].
  - rewrite ulong_small by (unfold two32; lia). lia.
  - assert (Hw : ulong (ACTIVATESECONDS cfg * 1000 - el)
                 = two32 + ACTIVATESECONDS cfg * 1000 - el).
    { unfold ulong.
      replace (ACTIVATESECONDS cfg * 1000 - el)
        with ((two32 + ACTIVATESECONDS cfg * 1000 - el) + (-1) * two32) by lia.
      rewrite Z.mod_add by (unfold two32; lia).
      apply Z.mod_small. unfold two32 in *. lia. }
    rewrite Hw. unfold two32 in *. lia.
Qed.

Lemma code_timeout_window_witness :
  (codeTimeLeft cfg_code 1000 (ulong (1000 + 8000)) <=? 100) = false.
Proof.
  destruct (code_timeout_window cfg_code 1000 8000) as [H _];
    [cbn; lia | unfold two32; lia | unfold two32; lia |].
  destruct (codeTimeLeft cfg_code 1000 (ulong (1000 + 8000)) <=? 100);
    [specialize (H eq_refl); cbn in H; lia | reflexivity].
Defined.

(** ** The progress bar and the menu arrows *)

Lemma with_out_nil w : with_out [] w = w.
Proof. destruct w; reflexivity. Qed.

Lemma emit_with_out e l w :
  emit e (with_out l w) = Ok tt (with_out ((now w, e) :: l) w).
Proof. reflexivity. Qed.

Lemma times_emit_with_out e n : forall l w,
  times n (emit e) (with_out l w)
  = Ok tt (with_out (repeat (now w, e) n ++ l) w).
Proof.
  induction n as [|n IH]; intros l w; cbn [times repeat].
  - reflexivity.
  - unfold bind. rewrite emit_with_out, IH.
    replace (repeat (now w, e) n ++ (now w, e) :: l)
      with (((now w, e) :: repeat (now w, e) n) ++ l); [reflexivity|].
    rewrite (repeat_cons n (now w, e)), <- app_assoc. reflexivity.
Qed.

Lemma cells_app l1 l2 : cells (l1 ++ l2) = (cells l1 + cells l2)%nat.
Proof. unfold cells. rewrite filter_app, length_app. reflexivity. Qed.

Lemma cells_repeat_cell t e n :
  is_cell (t, e) = true -> cells (repeat (t, e) n) = n.
Proof.
  intros He. unfold cells. induction n as [|n IH]; cbn [repeat filter].
  - reflexivity.
  - rewrite He. cbn [List.length]. rewrite IH. reflexivity.
Qed.

(** X4.  [drawBar] returns for every argument.  It moves to column 0 of
    row 1 and then writes at most 16 character cells, so it never runs
    past the 16-column row; the glyphs it writes are the five bar glyphs
    and the rest are spaces.  The argument is taken as a byte: values
    101 to 255 are drawn as 100, values from 256 on wrap around. *)
Theorem drawBar_within_row (percent : Z) (w : world) :
  exists l,
    drawBar percent w = Ok tt (with_out (l ++ [(now w, SetCursor 0 1)]) w)
    /\ (cells l <= 16)%nat
    /\ bar_glyphs l
    /\ (forall t s, In (t, LcdPrint s) l -> s = " "%string)
    /\ drawBar (percent + 256) w = drawBar percent w
    /\ (100 <= byte8 percent -> drawBar percent w = drawBar 100 w).
Proof.
  set (p := if 100 <? byte8 percent then 100 else byte8 percent).
  assert (Hp : 0 <= p <= 100).
  { unfold p. pose proof (Z.mod_pos_bound percent 256 ltac:(lia)) as Hb.
    unfold byte8. destruct (Z.ltb_spec 100 (percent mod 256)); lia. }
  set (fullBars := p / (100 / 16)).
  assert (Hf : 0 <= fullBars <= 16).
  { unfold fullBars. change (100 / 16) with 6.
    split; [apply Z.div_pos; lia|].
    assert (p / 6 < 17) by (apply Z.div_lt_upper_bound; lia). lia. }
  pose proof (Z.mod_pos_bound fullBars 5 ltac:(lia)) as Hr.
  pose proof (Z.div_mod fullBars 5 ltac:(lia)) as Hdm.
  set (full := repeat (now w, LcdWrite 4) (Z.to_nat (fullBars / 5))).
  set (part := if 0 <? fullBars mod 5
               then [(now w, LcdWrite (fullBars mod 5 - 1))] else []).
  set (blank := repeat (now w, LcdPrint " ") (Z.to_nat (16 - fullBars))).
  exists (blank ++ part ++ full).
  assert (Hrun : drawBar percent w
                 = Ok tt (with_out ((blank ++ part ++ full) ++ [(now w, SetCursor 0 1)]) w)).
  { unfold drawBar. fold p. cbv zeta. fold fullBars.
    unfold bind at 1. unfold lcd_setCursor at 1.
    rewrite <- (with_out_nil w) at 1. rewrite emit_with_out.
    unfold bind at 1. rewrite times_emit_with_out. fold full.
    unfold bind at 1.
    assert (Hwhen : when (0 <? fullBars mod 5) (emit (LcdWrite (fullBars mod 5 - 1)))
                         (with_out (full ++ [(now w, SetCursor 0 1)]) w)
                    = Ok tt (with_out (part ++ full ++ [(now w, SetCursor 0 1)]) w)).
    { unfold part. destruct (0 <? fullBars mod 5); cbn [when app];
        [apply emit_with_out | reflexivity]. }
    rewrite Hwhen. unfold lcd_print. rewrite times_emit_with_out. fold blank.
    rewrite <- !app_assoc. reflexivity. }
  split; [exact Hrun|].
  split.
  { rewrite !cells_app. unfold blank, full.
    rewrite !cells_repeat_cell by reflexivity.
    assert (Hpart : (cells part <= 1)%nat)
      by (unfold part; destruct (0 <? fullBars mod 5); cbn; lia).
    assert (Hpz : 0 < fullBars mod 5 \/ cells part = 0%nat)
      by (unfold part; destruct (Z.ltb_spec 0 (fullBars mod 5)); [left; lia | right; reflexivity]).
    lia. }
  split.
  { intros t g Hin. apply in_app_or in Hin as [Hin|Hin].
    - apply repeat_spec in Hin. discriminate Hin.
    - apply in_app_or in Hin as [Hin|Hin].
      + unfold part in Hin. destruct (Z.ltb_spec 0 (fullBars mod 5)); [|contradiction].
        destruct Hin as [Hin|[]]. inversion Hin; subst. lia.
      + apply repeat_spec in Hin. inversion Hin; subst. lia. }
  split.
  { intros t s Hin. apply in_app_or in Hin as [Hin|Hin].
    - apply repeat_spec in Hin. inversion Hin; reflexivity.
    - apply in_app_or in Hin as [Hin|Hin].
      + unfold part in Hin. destruct (0 <? fullBars mod 5); [|contradiction].
        destruct Hin as [Hin|[]]. discriminate Hin.
      + apply repeat_spec in Hin. discriminate Hin. }
  split.
  { unfold drawBar, byte8.
    replace (percent + 256) with (percent + 1 * 256) by lia.
    rewrite Z.mod_add by lia. reflexivity. }
  intros H100. unfold drawBar. change (byte8 100) with 100.
  change (100 <? 100) with false. cbv iota.
  destruct (Z.ltb_spec 100 (byte8 percent)) as [|Hle]; [reflexivity|].
  replace (byte8 percent) with 100 by lia. reflexivity.
Qed.

(** X5.  For a menu of more than one line and an index inside it,
    [checkArrows] draws the up arrow exactly when there is a line above
    and the down arrow exactly when there is a line below; for an index
    past the last line it draws nothing. *)
Theorem checkArrows_shows_neighbours (i maxx : Z) (w : world) :
  0 < maxx <= 255 -> 0 <= i <= 255 ->
  exists l,
    checkArrows i maxx w = Ok tt (with_out l w)
    /\ (i <= maxx ->
        (In (now w, LcdWrite 5) l <-> 0 < i)
        /\ (In (now w, LcdWrite 6) l <-> i < maxx))
    /\ (maxx < i -> l = []).
Proof.
  intros Hm Hi. unfold checkArrows.
  unfold byte8. rewrite !Z.mod_small by lia. cbv zeta.
  destruct (Z.eqb_spec i 0) as [E0|E0].
  - exists [(now w, LcdWrite 6); (now w, SetCursor 15 1)].
    split; [reflexivity|]. split; [|lia].
    intros _. split; split; intros H; try lia.
    + cbn in H. destruct H as [H|[H|[]]]; inversion H.
    + cbn. left. reflexivity.
  - destruct (Z.eqb_spec i maxx) as [Em|Em].
    + exists [(now w, LcdWrite 5); (now w, SetCursor 15 0)].
      split; [reflexivity|]. split; [|lia].
      intros _. split; split; intros H; try lia.
      * cbn. left. reflexivity.
      * cbn in H. destruct H as [H|[H|[]]]; inversion H.
    + destruct (Z.ltb_spec 0 i) as [Hp|Hp]; [|lia].
      destruct (Z.ltb_spec i maxx) as [Hlt|Hge]; cbn [andb].
      * exists [(now w, LcdWrite 6); (now w, SetCursor 15 1);
                (now w, LcdWrite 5); (now w, SetCursor 15 0)].
        split; [reflexivity|]. split; [|lia].
        intros _. split; split; intros H; try lia.
        -- cbn. right. right. left. reflexivity.
        -- cbn. left. reflexivity.
      * exists []. split; [rewrite with_out_nil; reflexivity|].
        split; [lia | reflexivity].
Qed.

Lemma checkArrows_shows_neighbours_witness :
  exists l, checkArrows 1 3 (world0 []) = Ok tt (with_out l (world0 []))
            /\ In (0, LcdWrite 5) l /\ In (0, LcdWrite 6) l.
Proof.
  destruct (checkArrows_shows_neighbours 1 3 (world0 []) ltac:(lia) ltac:(lia))
    as (l & Hr & Hin & _).
  exists l. split; [exact Hr|].
  destruct (Hin ltac:(lia)) as [Hu Hd].
  split; [apply Hu; lia | apply Hd; lia].
Defined.

(** ** Keypad input *)

Lemma waitForKey_polled : forall pre fuel w last rest c,
  script w = pre ++ last :: rest ->
  forallb no_key pre = true ->
  key last = Some c ->
  (List.length pre < fuel)%nat ->
  waitForKey fuel w = Ok c (polled pre last rest w).
Proof.
  induction pre as [|p pre IH]; intros fuel w last rest c Hs Hpre Hk Hf;
    (destruct fuel as [|f]; [cbn in Hf; lia|]); cbn [waitForKey].
  - rewrite (bind_ok _ _ _ _ _ (getKey_cons w last rest Hs)), Hk. reflexivity.
  - cbn [forallb] in Hpre. apply andb_prop in Hpre as [Hp Hpre].
    unfold no_key in Hp. destruct (key p) eqn:Kp; [discriminate|].
    rewrite (bind_ok _ _ _ _ _ (getKey_cons w p (pre ++ last :: rest) Hs)), Kp.
    rewrite (IH f _ last rest c); [reflexivity | reflexivity | exact Hpre
                                  | exact Hk | cbn in Hf; lia].
Qed.

Lemma getNumber_waitForKey : forall fuel w,
  getNumber fuel w
  = (c <- waitForKey fuel ;; ret (if is_digit c then c else "x"%char)) w.
Proof.
  induction fuel as [|f IH]; intros w; [reflexivity|].
  cbn [getNumber waitForKey]. unfold bind.
  destruct (getKey w) as [[c|] w1|h w1]; [|apply IH|reflexivity].
  unfold ret. destruct (is_digit c); reflexivity.
Qed.

Lemma waitForKey_no_key : forall fuel w,
  forallb no_key (script w) = true ->
  exists h w', waitForKey fuel w = Halt h w' /\ unchanged w w'.
Proof.
  induction fuel as [|f IH]; intros w Hs.
  - exists OutOfFuel, w. split; [reflexivity | apply unchanged_refl].
  - cbn [waitForKey]. destruct (script w) as [|p rest] eqn:Es.
    + exists OutOfInput, w. unfold bind, getKey. rewrite Es.
      split; [reflexivity | apply unchanged_refl].
    + cbn [forallb] in Hs. apply andb_prop in Hs as [Hp Hs].
      unfold no_key in Hp. destruct (key p) eqn:Kp; [discriminate|].
      rewrite (bind_ok _ _ _ _ _ (getKey_cons w p rest Es)), Kp.
      destruct (IH (set_clock (ulong (now w + dt p)) rest (heldD p) (heldC p) w) Hs)
        as (h & w' & Hr & Hu).
      exists h, w'. split; [exact Hr|].
      eapply unchanged_trans; [|exact Hu]. constructor; reflexivity.
Qed.

Lemma is_digit_value c :
  is_digit c = true ->
  0 <= digit_value c <= 9
  /\ dec (digit_value c) = String c EmptyString
  /\ Ascii.eqb c "x" = false.
Proof.
  destruct c as [b0 b1 b2 b3 b4 b5 b6 b7].
  destruct b0, b1, b2, b3, b4, b5, b6, b7; intros H; vm_compute in H;
    try discriminate H; clear H;
    (split; [vm_compute; split; discriminate | split; vm_compute; reflexivity]).
Qed.

(** X6.  The three blocking key readers return at the first poll that
    reports a key, whatever the hold flags do meanwhile: the idle polls
    before it only move the clock.  [waitForKey] returns the key,
    [getNumber] the key if it is a digit and ['x'] otherwise,
    [getRealNumber] the digit's value or 11.  For a digit the value is
    between 0 and 9 and prints as the key pressed. *)
Theorem key_readers_next_key (fuel : nat) (w : world)
        (pre : list tick) (last : tick) (rest : list tick) (c : ascii) :
  script w = pre ++ last :: rest ->
  forallb no_key pre = true ->
  key last = Some c ->
  (List.length pre < fuel)%nat ->
  waitForKey fuel w = Ok c (polled pre last rest w)
  /\ getNumber fuel w
     = Ok (if is_digit c then c else "x"%char) (polled pre last rest w)
  /\ getRealNumber fuel w
     = Ok (if is_digit c then digit_value c else 11) (polled pre last rest w)
  /\ (is_digit c = true ->
      0 <= digit_value c <= 9 /\ dec (digit_value c) = String c EmptyString).
Proof.
  intros Hs Hpre Hk Hf.
  pose proof (waitForKey_polled pre fuel w last rest c Hs Hpre Hk Hf) as Hw.
  split; [exact Hw|]. split.
  { rewrite getNumber_waitForKey. rewrite (bind_ok _ _ _ _ _ Hw). reflexivity. }
  split.
  { unfold getRealNumber. rewrite (bind_ok _ _ _ _ _ Hw).
    unfold digit_value. destruct (is_digit c); reflexivity. }
  intros Hd. destruct (is_digit_value c Hd) as (Hr & He & _). split; assumption.
Qed.

Lemma key_readers_next_key_witness :
  getNumber 3 (world0 [idle_poll 10 true false; key_poll 20 "7"; key_poll 5 "a"])
  = Ok "7"%char
       (polled [idle_poll 10 true false] (key_poll 20 "7") [key_poll 5 "a"]
               (world0 [idle_poll 10 true false; key_poll 20 "7"; key_poll 5 "a"]))
  /\ digit_value "7" = 7.
Proof.
  split; [|reflexivity].
  exact (proj1 (proj2 (key_readers_next_key 3
           (world0 [idle_poll 10 true false; key_poll 20 "7"; key_poll 5 "a"])
           [idle_poll 10 true false] (key_poll 20 "7") [key_poll 5 "a"] "7"%char
           eq_refl eq_refl eq_refl ltac:(cbn; lia)))).
Defined.

(** X7.  Without a key press none of the key readers returns: on a script
    of idle polls they halt for every amount of fuel, and until then they
    leave the game state as it was. *)
Theorem key_readers_block (fuel : nat) (w : world) :
  forallb no_key (script w) = true ->
  exists h w',
    waitForKey fuel w = Halt h w'
    /\ getNumber fuel w = Halt h w'
    /\ getRealNumber fuel w = Halt h w'
    /\ unchanged w w'.
Proof.
  intros Hs. destruct (waitForKey_no_key fuel w Hs) as (h & w' & Hr & Hu).
  exists h, w'. split; [exact Hr|]. split.
  { rewrite getNumber_waitForKey. unfold bind. rewrite Hr. reflexivity. }
  split; [|exact Hu].
  unfold getRealNumber, bind. rewrite Hr. reflexivity.
Qed.

Lemma key_readers_block_witness :
  exists h w',
    waitForKey 5 (world0 [idle_poll 10 true false; idle_poll 10 false false])
    = Halt h w'.
Proof.
  destruct (key_readers_block 5
              (world0 [idle_poll 10 true false; idle_poll 10 false false])
              eq_refl) as (h & w' & Hr & _).
  exists h, w'. exact Hr.
Defined.

(** ** Code and password entry *)

Lemma bind_inv {A B} (m : M A) (f : A -> M B) w b w' :
  bind m f w = Ok b w' -> exists a w1, m w = Ok a w1 /\ f a w1 = Ok b w'.
Proof. unfold bind. destruct (m w) as [a w1|h w1]; [eauto | discriminate]. Qed.

Lemma digit_keys_next : forall s c ds,
  digit_keys s = c :: ds ->
  exists pre last rest k,
    s = pre ++ last :: rest /\ forallb no_key pre = true /\ key last = Some k
    /\ (if is_digit k then k = c /\ digit_keys rest = ds
        else digit_keys rest = c :: ds).
Proof.
  induction s as [|p s IH]; intros c ds H; [discriminate|].
  cbn [digit_keys] in H. destruct (key p) as [k|] eqn:Kp.
  - exists [], p, s, k. split; [reflexivity|]. split; [reflexivity|].
    split; [exact Kp|].
    destruct (is_digit k); [inversion H; auto | exact H].
  - destruct (IH c ds H) as (pre & last & rest & k & Hs & Hp & Hk & Hd).
    exists (p :: pre), last, rest, k. split; [rewrite Hs; reflexivity|].
    split; [|split; assumption].
    cbn [forallb]. unfold no_key at 1. rewrite Kp. exact Hp.
Qed.

Lemma getNumber_polled pre fuel w last rest c :
  script w = pre ++ last :: rest ->
  forallb no_key pre = true ->
  key last = Some c ->
  (List.length pre < fuel)%nat ->
  getNumber fuel w = Ok (if is_digit c then c else "x"%char) (polled pre last rest w).
Proof.
  intros Hs Hp Hk Hf. rewrite getNumber_waitForKey.
  rewrite (bind_ok _ _ _ _ _ (waitForKey_polled pre fuel w last rest c Hs Hp Hk Hf)).
  reflexivity.
Qed.

Lemma setCode_digit_reads cfg : forall fuel i w c ds,
  digit_keys (script w) = c :: ds ->
  (List.length (script w) < fuel)%nat ->
  exists w',
    setCode_digit cfg fuel i w = Ok tt w'
    /\ codeInput w' = store i c (codeInput w)
    /\ digit_keys (script w') = ds
    /\ (List.length (script w') < List.length (script w))%nat.
Proof.
  induction fuel as [|f IH]; intros i w c ds Hd Hf; [lia|].
  destruct (digit_keys_next _ _ _ Hd) as (pre & last & rest & k & Hs & Hp & Hk & Hn).
  assert (Hlen : List.length (script w) = (List.length pre + S (List.length rest))%nat)
    by (rewrite Hs, length_app; reflexivity).
  cbn [setCode_digit].
  rewrite (bind_ok _ _ _ _ _ (getNumber_polled pre f w last rest k Hs Hp Hk ltac:(lia))).
  destruct (is_digit k) eqn:Ed.
  - destruct Hn as [-> Hrest].
    destruct (is_digit_value c Ed) as (_ & _ & Hx). rewrite Hx. cbn [negb].
    destruct (Nat.eqb i 0), (soundEnable cfg);
      (eexists; split; [reflexivity|]; cbn;
       split; [reflexivity | split; [exact Hrest | lia]]).
  - change (Ascii.eqb "x" "x") with true. cbn [negb].
    destruct (IH i (polled pre last rest w) c ds Hn ltac:(cbn; lia))
      as (w' & Hr & Hc & Hk' & Hl).
    exists w'. split; [exact Hr|]. split; [exact Hc|]. split; [exact Hk'|].
    cbn in Hl. lia.
Qed.

Lemma setCode_from_reads cfg fuel : forall n i w ds tl,
  digit_keys (script w) = ds ++ tl -> List.length ds = n ->
  (List.length (script w) < fuel)%nat ->
  (i + n <= List.length (codeInput w))%nat ->
  exists w',
    for_each (seq i n) (fun i => setCode_digit cfg fuel i) w = Ok tt w'
    /\ List.length (codeInput w') = List.length (codeInput w)
    /\ (forall j, (j < i)%nat -> nth j (codeInput w') NUL = nth j (codeInput w) NUL)
    /\ (forall j, (j < n)%nat -> nth (i + j) (codeInput w') NUL = nth j ds NUL)
    /\ digit_keys (script w') = tl
    /\ (List.length (script w') <= List.length (script w))%nat.
Proof.
  induction n as [|n IH]; intros i w ds tl Hd Hn Hf Hi.
  - destruct ds; [|discriminate]. exists w. cbn.
    repeat split; auto; intros; lia.
  - destruct ds as [|c ds]; [discriminate|]. cbn [app] in Hd.
    destruct (setCode_digit_reads cfg fuel i w c (ds ++ tl) Hd Hf)
      as (w1 & Hr1 & Hc1 & Hk1 & Hl1).
    destruct (IH (S i) w1 ds tl Hk1 ltac:(cbn in Hn; lia) ltac:(lia)
                 ltac:(rewrite Hc1, store_length; lia))
      as (w' & Hr & Hlen & Hlow & Hnew & Hk & Hl).
    exists w'. cbn [seq for_each]. rewrite (bind_ok _ _ _ _ _ Hr1).
    split; [exact Hr|].
    split; [rewrite Hlen, Hc1; apply store_length|].
    split.
    { intros j Hj. rewrite Hlow by lia. rewrite Hc1.
      apply nth_store_other. lia. }
    split.
    { intros [|j] Hj.
      - rewrite Nat.add_0_r, Hlow by lia. rewrite Hc1.
        apply nth_store_same. lia.
      - rewrite Nat.add_succ_r. apply (Hnew j). lia. }
    split; [exact Hk | lia].
Qed.

Lemma quiet_setCode_digit cfg fuel : forall i, quiet (setCode_digit cfg fuel i).
Proof.
  induction fuel; intros i; cbn [setCode_digit]; quiet_tac;
    try apply quiet_getNumber; auto.
Qed.

Lemma quiet_setCode cfg fuel : quiet (setCode cfg fuel).
Proof. unfold setCode. quiet_tac. apply quiet_setCode_digit. Qed.

(** X8.  [setCode] fills the code buffer with the next eight digit keys
    of the keypad, in the order pressed.  Keys that are not digits are
    skipped, keys after the eighth digit are left for the caller, and the
    game state is not touched while the code is typed. *)
Theorem setCode_reads_eight_digits (cfg : config) (fuel : nat) (w : world) :
  (8 <= List.length (digit_keys (script w)))%nat ->
  (List.length (script w) < fuel)%nat ->
  List.length (codeInput w) = 8%nat ->
  exists w',
    setCode cfg fuel w = Ok tt w'
    /\ codeInput w' = firstn 8 (digit_keys (script w))
    /\ digit_keys (script w') = skipn 8 (digit_keys (script w))
    /\ unchanged w w'.
Proof.
  intros Hd Hf Hc. unfold setCode.
  set (w0 := add_out (SetCursor 0 1) w).
  assert (E0 : lcd_setCursor 0 1 w = Ok tt w0) by reflexivity.
  destruct (setCode_from_reads cfg fuel 8 0 w0
              (firstn 8 (digit_keys (script w))) (skipn 8 (digit_keys (script w))))
    as (w' & Hr & Hlen & _ & Hnew & Hk & _).
  { cbn [w0 script add_out]. symmetry. apply firstn_skipn. }
  { rewrite length_firstn. lia. }
  { exact Hf. }
  { cbn [w0 codeInput add_out]. lia. }
  exists w'. rewrite (bind_ok _ _ _ _ _ E0). split; [exact Hr|].
  split.
  { apply (nth_ext _ _ NUL NUL).
    - rewrite Hlen, length_firstn. cbn [w0 codeInput add_out]. lia.
    - intros j Hj. rewrite Hlen in Hj. cbn [w0 codeInput add_out] in Hj.
      apply (Hnew j). lia. }
  split; [exact Hk|].
  pose proof (quiet_setCode cfg fuel w) as Hq. unfold setCode in Hq.
  rewrite (bind_ok _ _ _ _ _ E0), Hr in Hq. exact Hq.
Qed.

Lemma setCode_reads_eight_digits_witness :
  exists w',
    setCode cfg_code 20
            (world0 (map (key_poll 100) (list_ascii_of_string "12a345#6789"))) = Ok tt w'
    /\ codeInput w' = list_ascii_of_string "12345678"
    /\ digit_keys (script w') = ["9"%char].
Proof.
  destruct (setCode_reads_eight_digits cfg_code 20
              (world0 (map (key_poll 100) (list_ascii_of_string "12a345#6789"))))
    as (w' & Hr & Hc & Hk & _);
    [vm_compute; lia | vm_compute; lia | reflexivity |].
  exists w'. split; [exact Hr|]. split; [exact Hc | exact Hk].
Defined.

Lemma setPass_digit_reads cfg : forall fuel i pass w c ds,
  digit_keys (script w) = c :: ds ->
  (List.length (script w) < fuel)%nat ->
  exists w',
    setPass_digit cfg fuel i pass w = Ok (store i c pass) w'
    /\ codeInput w' = codeInput w
    /\ digit_keys (script w') = ds
    /\ (List.length (script w') < List.length (script w))%nat.
Proof.
  induction fuel as [|f IH]; intros i pass w c ds Hd Hf; [lia|].
  destruct (digit_keys_next _ _ _ Hd) as (pre & last & rest & k & Hs & Hp & Hk & Hn).
  assert (Hlen : List.length (script w) = (List.length pre + S (List.length rest))%nat)
    by (rewrite Hs, length_app; reflexivity).
  cbn [setPass_digit].
  rewrite (bind_ok _ _ _ _ _ (getNumber_polled pre f w last rest k Hs Hp Hk ltac:(lia))).
  destruct (is_digit k) eqn:Ed.
  - destruct Hn as [-> Hrest].
    destruct (is_digit_value c Ed) as (_ & _ & Hx). rewrite Hx. cbn [negb].
    destruct (Nat.eqb i 0), (soundEnable cfg);
      (eexists; split; [reflexivity|]; cbn;
       split; [reflexivity | split; [exact Hrest | lia]]).
  - change (Ascii.eqb "x" "x") with true. cbn [negb].
    destruct (IH i pass (polled pre last rest w) c ds Hn ltac:(cbn; lia))
      as (w' & Hr & Hc & Hk' & Hl).
    exists w'. split; [exact Hr|]. split; [exact Hc|]. split; [exact Hk'|].
    cbn in Hl. lia.
Qed.

Lemma setPass_from_reads cfg fuel : forall n i pass w ds tl,
  digit_keys (script w) = ds ++ tl -> List.length ds = n ->
  (List.length (script w) < fuel)%nat ->
  (i + n <= List.length pass)%nat ->
  exists p w',
    setPass_from cfg fuel (seq i n) pass w = Ok p w'
    /\ List.length p = List.length pass
    /\ (forall j, (j < i)%nat -> nth j p NUL = nth j pass NUL)
    /\ (forall j, (j < n)%nat -> nth (i + j) p NUL = nth j ds NUL)
    /\ codeInput w' = codeInput w
    /\ digit_keys (script w') = tl
    /\ (List.length (script w') <= List.length (script w))%nat.
Proof.
  induction n as [|n IH]; intros i pass w ds tl Hd Hn Hf Hi.
  - destruct ds; [|discriminate]. exists pass, w. cbn.
    repeat split; auto; intros; lia.
  - destruct ds as [|c ds]; [discriminate|]. cbn [app] in Hd.
    destruct (setPass_digit_reads cfg fuel i pass w c (ds ++ tl) Hd Hf)
      as (w1 & Hr1 & Hc1 & Hk1 & Hl1).
    destruct (IH (S i) (store i c pass) w1 ds tl Hk1 ltac:(cbn in Hn; lia) ltac:(lia)
                 ltac:(rewrite store_length; lia))
      as (p & w' & Hr & Hlen & Hlow & Hnew & Hc & Hk & Hl).
    exists p, w'. cbn [seq setPass_from]. rewrite (bind_ok _ _ _ _ _ Hr1).
    split; [exact Hr|].
    split; [rewrite Hlen; apply store_length|].
    split.
    { intros j Hj. rewrite Hlow by lia. apply nth_store_other. lia. }
    split.
    { intros [|j] Hj.
      - rewrite Nat.add_0_r, Hlow by lia. apply nth_store_same. lia.
      - rewrite Nat.add_succ_r. apply (Hnew j). lia. }
    split; [rewrite Hc; exact Hc1|].
    split; [exact Hk | lia].
Qed.

Lemma waitForKey_code : forall fuel w c w',
  waitForKey fuel w = Ok c w' -> codeInput w' = codeInput w.
Proof.
  induction fuel as [|f IH]; intros w c w' H; [discriminate|].
  cbn [waitForKey] in H. apply bind_inv in H as (k & w1 & H1 & H).
  unfold getKey in H1. destruct (script w); [discriminate|].
  inversion H1; subst; clear H1.
  destruct (key t).
  - inversion H; subst. reflexivity.
  - apply IH in H. rewrite H. reflexivity.
Qed.

Lemma getNumber_symbol fuel w c w' :
  getNumber fuel w = Ok c w' ->
  (is_digit c = true \/ c = "x"%char) /\ codeInput w' = codeInput w.
Proof.
  rewrite getNumber_waitForKey. intros H.
  apply bind_inv in H as (k & w1 & H1 & H). inversion H; subst; clear H.
  split; [|exact (waitForKey_code _ _ _ _ H1)].
  destruct (is_digit k) eqn:E; [left; exact E | right; reflexivity].
Qed.

Lemma x_not_digit c : is_digit c = true -> Ascii.eqb c "x" = false.
Proof. intros H. apply (is_digit_value c H). Qed.

Lemma setPass_digit_symbol cfg : forall fuel i pass w p w',
  setPass_digit cfg fuel i pass w = Ok p w' ->
  exists c, is_digit c = true /\ p = store i c pass.
Proof.
  induction fuel as [|f IH]; intros i pass w p w' H; [discriminate|].
  cbn [setPass_digit] in H. apply bind_inv in H as (c & w1 & H1 & H).
  destruct (getNumber_symbol _ _ _ _ H1) as [[Hd| ->] _].
  - rewrite (x_not_digit c Hd) in H. cbn [negb] in H.
    exists c. split; [exact Hd|].
    destruct (Nat.eqb i 0), (soundEnable cfg); inversion H; reflexivity.
  - change (Ascii.eqb "x" "x") with true in H. cbn [negb] in H.
    exact (IH _ _ _ _ _ H).
Qed.

Lemma setPass_from_symbols cfg fuel : forall n i pass w p w',
  setPass_from cfg fuel (seq i n) pass w = Ok p w' ->
  List.length p = List.length pass
  /\ (forall j, (j < i)%nat -> nth j p NUL = nth j pass NUL)
  /\ (forall j, (i <= j < i + n)%nat -> (j < List.length pass)%nat ->
                is_digit (nth j p NUL) = true).
Proof.
  induction n as [|n IH]; intros i pass w p w' H; cbn [seq setPass_from] in H.
  - inversion H; subst. repeat split; auto. intros; lia.
  - apply bind_inv in H as (p1 & w1 & H1 & H).
    destruct (setPass_digit_symbol _ _ _ _ _ _ _ H1) as (c & Hc & ->).
    destruct (IH _ _ _ _ _ H) as (Hlen & Hlow & Hdig).
    rewrite store_length in Hlen, Hdig.
    split; [exact Hlen|]. split.
    + intros j Hj. rewrite Hlow by lia. apply nth_store_other. lia.
    + intros j Hj Hj'. destruct (Nat.eq_dec j i) as [->|Hne].
      * rewrite Hlow by lia. rewrite nth_store_same by lia. exact Hc.
      * apply Hdig; lia.
Qed.

Lemma setNewPass_safe cfg : forall fuel pass w p w',
  List.length pass = 8%nat ->
  setNewPass cfg fuel pass w = Ok p w' ->
  comparePassword (codeInput w') p = true
  /\ List.length p = 8%nat
  /\ (forall j, (j < 8)%nat -> is_digit (nth j p NUL) = true).
Proof.
  induction fuel as [|f IH]; intros pass w p w' Hlen H; [discriminate|].
  cbn [setNewPass] in H.
  do 3 (apply bind_inv in H as (? & ? & _ & H)).
  apply bind_inv in H as (pass' & w1 & Hp & H).
  unfold setPass in Hp. apply bind_inv in Hp as (? & ? & _ & Hp).
  destruct (setPass_from_symbols _ _ _ _ _ _ _ _ Hp) as (Hl' & _ & Hdig).
  rewrite Hlen in Hl', Hdig.
  do 3 (apply bind_inv in H as (? & ? & _ & H)).
  apply bind_inv in H as (? & w2 & _ & H).
  apply bind_inv in H as (code & w3 & Hg & H).
  inversion Hg; subst; clear Hg.
  destruct (comparePassword (codeInput w3) pass') eqn:Ec.
  - inversion H; subst; clear H. cbn.
    split; [exact Ec|]. split; [exact Hl'|].
    intros j Hj. apply Hdig; lia.
  - do 5 (apply bind_inv in H as (? & ? & _ & H)).
    exact (IH _ _ _ _ Hl' H).
Qed.

Lemma comparePassword_refl code : comparePassword code code = true.
Proof. apply compare_from_true_iff. intros; reflexivity. Qed.

(** X9.  [setNewPass] returns only a password that was typed twice: the
    password it returns equals the retyped code, is eight symbols long
    and consists of digits.  When the next sixteen digit keys are the
    same eight digits twice, it returns them at the first attempt. *)
Theorem setNewPass_confirmed (cfg : config) (fuel : nat) (pass : list ascii)
        (w : world) :
  List.length pass = 8%nat ->
  (forall p w',
      setNewPass cfg fuel pass w = Ok p w' ->
      comparePassword (codeInput w') p = true
      /\ List.length p = 8%nat
      /\ (forall j, (j < 8)%nat -> is_digit (nth j p NUL) = true))
  /\ (forall ds tl,
         List.length ds = 8%nat ->
         digit_keys (script w) = ds ++ ds ++ tl ->
         List.length (codeInput w) = 8%nat ->
         (S (List.length (script w)) < fuel)%nat ->
         exists w',
           setNewPass cfg fuel pass w = Ok ds w'
           /\ codeInput w' = ds
           /\ digit_keys (script w') = tl).
Proof.
  intros Hlen. split; [intros p w'; apply setNewPass_safe; exact Hlen|].
  intros ds tl Hds Hk Hc Hf.
  destruct fuel as [|f]; [lia|]. cbn [setNewPass].
  set (w0 := add_out (SetCursor 0 1)
               (add_out (LcdPrint "Enter New Pass")
                  (add_out (SetCursor 0 0) (add_out Cls w)))).
  destruct (setPass_from_reads cfg f 8 0 pass w0 ds (ds ++ tl))
    as (p & w1 & Hr1 & Hl1 & _ & Hn1 & Hc1 & Hk1 & Hs1);
    [exact Hk | exact Hds | cbn; lia | lia |].
  assert (Ep : p = ds).
  { apply (nth_ext _ _ NUL NUL); [lia|].
    intros j Hj. apply (Hn1 j). lia. }
  subst p.
  set (w2 := add_out (SetCursor 0 1)
               (add_out (LcdPrint "Retype Pass")
                  (add_out (SetCursor 0 0) (add_out Cls w1)))).
  destruct (setCode_from_reads cfg f 8 0 w2 ds tl)
    as (w3 & Hr3 & Hl3 & _ & Hn3 & Hk3 & _);
    [exact Hk1 | exact Hds | cbn in Hs1 |- *; lia
    | cbn [w2 codeInput add_out]; rewrite Hc1; cbn; lia |].
  assert (Ec : codeInput w3 = ds).
  { apply (nth_ext _ _ NUL NUL).
    - rewrite Hl3. cbn [w2 codeInput add_out]. rewrite Hc1. cbn. lia.
    - intros j Hj. apply (Hn3 j).
      rewrite Hl3 in Hj. cbn [w2 codeInput add_out] in Hj. rewrite Hc1 in Hj.
      cbn in Hj. lia. }
  eexists.
  split.
  { unfold bind at 1, cls at 1, emit at 1, modify at 1.
    unfold bind at 1, lcd_setCursor at 1, emit at 1, modify at 1.
    unfold bind at 1, lcd_print at 1, emit at 1, modify at 1.
    unfold bind at 1, setPass at 1.
    unfold bind at 1, lcd_setCursor at 1, emit at 1, modify at 1.
    fold w0. rewrite Hr1.
    unfold bind at 1, cls at 1, emit at 1, modify at 1.
    unfold bind at 1, lcd_setCursor at 1, emit at 1, modify at 1.
    unfold bind at 1, lcd_print at 1, emit at 1, modify at 1.
    unfold bind at 1, setCode at 1.
    unfold bind at 1, lcd_setCursor at 1, emit at 1, modify at 1.
    fold w2. rewrite Hr3.
    unfold bind at 1, get at 1. rewrite Ec, comparePassword_refl.
    reflexivity. }
  split; [cbn; exact Ec | cbn; exact Hk3].
Qed.

Lemma setNewPass_confirmed_witness :
  exists w',
    setNewPass cfg_code 40 (repeat NUL 8)
      (world0 (map (key_poll 100) (list_ascii_of_string "1234567812345678a")))
    = Ok (list_ascii_of_string "12345678") w'
    /\ codeInput w' = list_ascii_of_string "12345678".
Proof.
  destruct (setNewPass_confirmed cfg_code 40 (repeat NUL 8)
              (world0 (map (key_poll 100) (list_ascii_of_string "1234567812345678a")))
              eq_refl) as [_ Hrun].
  destruct (Hrun (list_ascii_of_string "12345678") [] eq_refl eq_refl eq_refl
                 ltac:(vm_compute; lia)) as (w' & Hr & Hc & _).
  exists w'. split; [exact Hr | exact Hc].
Defined.

Lemma waitForKey_no_key_code : forall fuel w,
  forallb no_key (script w) = true ->
  exists h w', waitForKey fuel w = Halt h w'
               /\ codeInput w' = codeInput w /\ unchanged w w'.
Proof.
  induction fuel as [|f IH]; intros w Hs.
  - exists OutOfFuel, w.
    split; [reflexivity|]. split; [reflexivity | apply unchanged_refl].
  - cbn [waitForKey]. destruct (script w) as [|p rest] eqn:Es.
    + exists OutOfInput, w. unfold bind, getKey. rewrite Es.
      split; [reflexivity|]. split; [reflexivity | apply unchanged_refl].
    + cbn [forallb] in Hs. apply andb_prop in Hs as [Hp Hs].
      unfold no_key in Hp. destruct (key p) eqn:Kp; [discriminate|].
      rewrite (bind_ok _ _ _ _ _ (getKey_cons w p rest Es)), Kp.
      destruct (IH (set_clock (ulong (now w + dt p)) rest (heldD p) (heldC p) w) Hs)
        as (h & w' & Hr & Hc & Hu).
      exists h, w'. split; [exact Hr|]. split; [rewrite Hc; reflexivity|].
      eapply unchanged_trans; [|exact Hu]. constructor; reflexivity.
Qed.

Lemma getNumber_no_key fuel w :
  forallb no_key (script w) = true ->
  exists h w', getNumber fuel w = Halt h w'
               /\ codeInput w' = codeInput w /\ unchanged w w'.
Proof.
  intros Hs. destruct (waitForKey_no_key_code fuel w Hs) as (h & w' & Hr & Hc & Hu).
  exists h, w'. split; [|split; assumption].
  rewrite getNumber_waitForKey. unfold bind. rewrite Hr. reflexivity.
Qed.

(** ** Timed code entry *)

Lemma display_only_printTimeDom e b : display_only (printTimeDom e b).
Proof. unfold printTimeDom. repeat display_step. Qed.

Lemma setCodeTime_digit_symbol cfg : forall fuel st i w w',
  setCodeTime_digit cfg fuel st i w = Ok tt w' ->
  exists c, (is_digit c = true \/ c = "x"%char)
            /\ codeInput w' = store i c (codeInput w).
Proof.
  induction fuel as [|f IH]; intros st i w w' H; [discriminate|].
  cbn [setCodeTime_digit] in H.
  apply bind_inv in H as (t & w0 & H0 & H). inversion H0; subst; clear H0.
  destruct (codeTimeLeft cfg st (now w0) <=? 100).
  - inversion H; subst. exists "x"%char. split; [right|]; reflexivity.
  - apply bind_inv in H as ([] & w1 & H1 & H). inversion H1; subst w1; clear H1.
    apply bind_inv in H as ([] & w2 & H2 & H).
    destruct (display_only_printTimeDom (codeTimeLeft cfg st (now w0)) false
                (add_out (SetCursor 11 0) w0)) as ([] & w2' & E2 & S2).
    rewrite E2 in H2. inversion H2; subst w2'; clear H2.
    apply bind_inv in H as (c & w3 & H3 & H).
    destruct (getNumber_symbol _ _ _ _ H3) as [Hc Hcode].
    assert (Hbuf : codeInput w3 = codeInput w0)
      by (rewrite Hcode, (sh_codeInput _ _ S2); reflexivity).
    destruct Hc as [Hd| ->].
    + rewrite (x_not_digit c Hd) in H. cbn [negb] in H.
      exists c. split; [left; exact Hd|]. rewrite <- Hbuf.
      destruct (Nat.eqb i 0), (soundEnable cfg); inversion H; reflexivity.
    + change (Ascii.eqb "x" "x") with true in H. cbn [negb] in H.
      destruct (IH _ _ _ _ H) as (c & Hc & Hs).
      exists c. split; [exact Hc|]. rewrite Hs, Hbuf. reflexivity.
Qed.

Lemma setCodeTime_from_symbols cfg fuel st : forall n i w w',
  for_each (seq i n) (fun i => setCodeTime_digit cfg fuel st i) w = Ok tt w' ->
  List.length (codeInput w') = List.length (codeInput w)
  /\ (forall j, (j < i)%nat -> nth j (codeInput w') NUL = nth j (codeInput w) NUL)
  /\ (forall j, (i <= j < i + n)%nat -> (j < List.length (codeInput w))%nat ->
        is_digit (nth j (codeInput w') NUL) = true
        \/ nth j (codeInput w') NUL = "x"%char).
Proof.
  induction n as [|n IH]; intros i w w' H; cbn [seq for_each] in H.
  - inversion H; subst. repeat split; auto. intros; lia.
  - apply bind_inv in H as ([] & w1 & H1 & H).
    destruct (setCodeTime_digit_symbol _ _ _ _ _ _ H1) as (c & Hc & Hs).
    destruct (IH _ _ _ H) as (Hlen & Hlow & Hsym).
    rewrite Hs, store_length in Hlen, Hsym.
    split; [exact Hlen|]. split.
    + intros j Hj. rewrite Hlow by lia. rewrite Hs. apply nth_store_other. lia.
    + intros j Hj Hj'. destruct (Nat.eq_dec j i) as [->|Hne].
      * rewrite Hlow by lia. rewrite Hs, nth_store_same by lia.
        destruct Hc as [Hd| ->]; [left; exact Hd | right; reflexivity].
      * apply Hsym; lia.
Qed.

Lemma setCodeTime_from_timeout cfg f st : forall n i w,
  (codeTimeLeft cfg st (now w) <=? 100) = true ->
  exists w',
    for_each (seq i n) (fun i => setCodeTime_digit cfg (S f) st i) w = Ok tt w'
    /\ now w' = now w /\ script w' = script w /\ out w' = out w
    /\ List.length (codeInput w') = List.length (codeInput w)
    /\ (forall j, (j < i)%nat -> nth j (codeInput w') NUL = nth j (codeInput w) NUL)
    /\ (forall j, (i <= j < i + n)%nat -> (j < List.length (codeInput w))%nat ->
          nth j (codeInput w') NUL = "x"%char).
Proof.
  induction n as [|n IH]; intros i w Ht; cbn [seq for_each].
  - exists w. repeat split; auto. intros; lia.
  - destruct (IH (S i) (set_codeInput (store i "x"%char (codeInput w)) w) Ht)
      as (w' & Hr & Hn & Hs & Ho & Hlen & Hlow & Hx).
    exists w'.
    assert (E : setCodeTime_digit cfg (S f) st i w
                = Ok tt (set_codeInput (store i "x"%char (codeInput w)) w)).
    { cbn [setCodeTime_digit]. unfold bind, millis, get. rewrite Ht. reflexivity. }
    rewrite (bind_ok _ _ _ _ _ E).
    cbn [codeInput set_codeInput] in Hlen, Hlow, Hx. rewrite store_length in Hlen, Hx.
    split; [exact Hr|]. split; [exact Hn|]. split; [exact Hs|]. split; [exact Ho|].
    split; [exact Hlen|]. split.
    + intros j Hj. rewrite Hlow by lia. apply nth_store_other. lia.
    + intros j Hj Hj'. destruct (Nat.eq_dec j i) as [->|Hne].
      * rewrite Hlow by lia. apply nth_store_same. lia.
      * apply Hx; lia.
Qed.

(** X10.  Whatever is typed and however long it takes, when [setCodeTime]
    returns the code buffer still has eight symbols and each of them is a
    digit or the time-out mark ['x']. *)
Theorem setCodeTime_symbols (cfg : config) (fuel : nat) (w w' : world) :
  List.length (codeInput w) = 8%nat ->
  setCodeTime cfg fuel w = Ok tt w' ->
  List.length (codeInput w') = 8%nat
  /\ (forall j, (j < 8)%nat ->
        is_digit (nth j (codeInput w') NUL) = true
        \/ nth j (codeInput w') NUL = "x"%char).
Proof.
  intros Hlen H. unfold setCodeTime in H.
  apply bind_inv in H as (st & w0 & H0 & H). inversion H0; subst; clear H0.
  destruct (setCodeTime_from_symbols _ _ _ _ _ _ _ H) as (Hl & _ & Hsym).
  split; [lia|]. intros j Hj. apply Hsym; lia.
Qed.

Lemma setCodeTime_symbols_witness :
  let w := world0 (map (key_poll 400) (list_ascii_of_string "12a345678")) in
  List.length (codeInput (final (setCodeTime cfg_code 20 w))) = 8%nat
  /\ codeInput (final (setCodeTime cfg_code 20 w)) = list_ascii_of_string "12345678".
Proof.
  intros w. split; [|vm_compute; reflexivity].
  apply (setCodeTime_symbols cfg_code 20 w (final (setCodeTime cfg_code 20 w)));
    [reflexivity | vm_compute; reflexivity].
Defined.

(** X11.  When the entry deadline is noticed at position [i] (the time
    left is at most 100 ms), that position and all positions after it
    are marked ['x'] at once, without another keypad poll and without
    output; a buffer with such a mark matches no password that has a
    digit there, so the entry fails. *)
Theorem setCodeTime_timeout_marks (cfg : config) (f : nat) (startTime : Z)
        (i n : nat) (w : world) (pass : list ascii) :
  (codeTimeLeft cfg startTime (now w) <=? 100) = true ->
  (1 <= n)%nat -> (i + n <= 8)%nat ->
  List.length (codeInput w) = 8%nat ->
  is_digit (nth i pass NUL) = true ->
  exists w',
    for_each (seq i n) (fun i => setCodeTime_digit cfg (S f) startTime i) w
    = Ok tt w'
    /\ now w' = now w /\ script w' = script w /\ out w' = out w
    /\ (forall j, (j < i)%nat -> nth j (codeInput w') NUL = nth j (codeInput w) NUL)
    /\ (forall j, (i <= j < i + n)%nat -> nth j (codeInput w') NUL = "x"%char)
    /\ comparePassword (codeInput w') pass = false.
Proof.
  intros Ht Hn Hi Hlen Hd.
  destruct (setCodeTime_from_timeout cfg f startTime n i w Ht)
    as (w' & Hr & Hnow & Hs & Ho & Hl & Hlow & Hx).
  exists w'. split; [exact Hr|]. split; [exact Hnow|]. split; [exact Hs|].
  split; [exact Ho|]. split; [exact Hlow|].
  split; [intros j Hj; apply Hx; lia|].
  destruct (comparePassword (codeInput w') pass) eqn:Ec; [|reflexivity].
  unfold comparePassword in Ec.
  pose proof (proj1 (compare_from_true_iff 8 0 _ _) Ec i ltac:(lia)) as Ei.
  rewrite Hx in Ei by lia.
  rewrite <- Ei in Hd. discriminate Hd.
Qed.

Lemma setCodeTime_timeout_marks_witness :
  exists w',
    for_each (seq 2 6) (fun i => setCodeTime_digit cfg_code 1 0 i)
             (mkWorld 4950 [] false false false false 0 0 0 0 0
                      (list_ascii_of_string "12345678") [])
    = Ok tt w'
    /\ comparePassword (codeInput w') (password cfg_code) = false.
Proof.
  destruct (setCodeTime_timeout_marks cfg_code 0 0 2 6
              (mkWorld 4950 [] false false false false 0 0 0 0 0
                       (list_ascii_of_string "12345678") [])
              (password cfg_code))
    as (w' & Hr & _ & _ & _ & _ & _ & Hc);
    [reflexivity | lia | lia | reflexivity | reflexivity |].
  exists w'. split; [exact Hr | exact Hc].
Defined.

Lemma codeTimeLeft_at_start cfg t :
  1 <= ACTIVATESECONDS cfg <= 99 ->
  (codeTimeLeft cfg t t <=? 100) = false.
Proof.
  intros Ha. unfold codeTimeLeft.
  replace (int16 (ACTIVATESECONDS cfg * 1000) + t - t)
    with (int16 (ACTIVATESECONDS cfg * 1000)) by lia.
  assert (Hall : forallb (fun a => negb (ulong (int16 (a * 1000)) <=? 100))
                         (map Z.of_nat (seq 1 99)) = true) by (vm_compute; reflexivity).
  rewrite forallb_forall in Hall.
  specialize (Hall (ACTIVATESECONDS cfg)).
  apply negb_true_iff, Hall.
  apply in_map_iff. exists (Z.to_nat (ACTIVATESECONDS cfg)).
  split; [lia|]. apply in_seq. lia.
Qed.

(** X12.  The entry deadline is tested only between key presses: as long
    as no key is pressed [setCodeTime] stays in [getNumber], however far
    the clock runs past [ACTIVATESECONDS], and the code buffer and the
    game state stay as they were. *)
Theorem setCodeTime_waits_for_key (cfg : config) (fuel : nat) (w : world) :
  1 <= ACTIVATESECONDS cfg <= 99 ->
  forallb no_key (script w) = true ->
  exists h w',
    setCodeTime cfg fuel w = Halt h w'
    /\ codeInput w' = codeInput w
    /\ unchanged w w'.
Proof.
  intros Ha Hs. unfold setCodeTime.
  unfold bind at 1, millis, get. cbn [seq for_each].
  destruct fuel as [|f].
  - exists OutOfFuel, w. split; [reflexivity|]. split; [reflexivity|].
    apply unchanged_refl.
  - cbn [setCodeTime_digit]. unfold bind at 1 2, millis, get.
    rewrite (codeTimeLeft_at_start cfg (now w) Ha).
    unfold bind at 1, lcd_setCursor, emit, modify.
    destruct (display_only_printTimeDom (codeTimeLeft cfg (now w) (now w)) false
                (add_out (SetCursor 11 0) w)) as ([] & w1 & E1 & S1).
    unfold bind at 1. rewrite E1.
    destruct (getNumber_no_key f w1) as (h & w' & Hr & Hc & Hu).
    { rewrite (sh_script _ _ S1). exact Hs. }
    exists h, w'. unfold bind. rewrite Hr.
    split; [reflexivity|]. split.
    + rewrite Hc, (sh_codeInput _ _ S1). reflexivity.
    + eapply unchanged_trans; [|exact Hu].
      eapply unchanged_trans; [|exact (sh_unchanged _ _ S1)].
      constructor; reflexivity.
Qed.

Lemma setCodeTime_waits_for_key_witness :
  exists h w',
    setCodeTime cfg_code 50 (world0 (repeat (idle_poll 1000 false false) 30))
    = Halt h w'.
Proof.
  destruct (setCodeTime_waits_for_key cfg_code 50
              (world0 (repeat (idle_poll 1000 false false) 30))
              ltac:(cbn; lia) eq_refl) as (h & w' & Hr & _).
  exists h, w'. exact Hr.
Defined.

(** ** A hold duration of zero *)

Lemma holdLoop_zero_divisor cfg f k clock minutes complete start w p rest :
  held k w = true ->
  script w = p :: rest ->
  timeExpiredGuarded minutes
    (ulong (ulong (now w + dt p) - clock_start clock w)) = false ->
  exists w',
    holdLoop cfg (S f) k clock minutes 0 complete start w = Halt DivByZero w'
    /\ unchanged w w' /\ script w' = rest.
Proof.
  intros Hh Hs He.
  set (wa := set_clock (ulong (now w + dt p)) rest (heldD p) (heldC p) w).
  destruct (display_only_cues cfg k (ulong (now wa - start) mod 1000) wa)
    as (u1 & wb & E1 & S1).
  exists wb. split.
  - cbn [holdLoop]. unfold bind at 1. unfold get at 1. rewrite Hh. cbn [negb].
    unfold bind at 1. unfold getKey at 1. rewrite Hs. fold wa.
    unfold bind at 1. unfold millis, get at 1.
    unfold bind at 1. unfold get at 1.
    assert (Hc : clock_start clock wa = clock_start clock w)
      by (destruct clock; reflexivity).
    rewrite Hc. change (now wa) with (ulong (now w + dt p)) at 1.
    rewrite He.
    unfold bind at 1. rewrite E1. reflexivity.
  - split; [|rewrite (sh_script _ _ S1); reflexivity].
    apply (unchanged_trans w wa); [constructor; reflexivity | apply S1].
Qed.

(** X13.  With [ACTIVATESECONDS] 0 both progress divisors are 0, and
    every hold action (arming, disarming, capturing, neutralizing) whose
    key is held at its first poll before the clock has expired reaches
    the division [elapsed / 0], whose result C++ leaves undefined, before
    any progress bar is drawn: the run halts there with [DivByZero]. *)
Theorem hold_zero_seconds_divides_by_zero (cfg : config) (f : nat)
        (k : hold_kind) (clock : clock_src) (minutes : Z) (complete : M unit)
        (w : world) (p : tick) (rest : list tick) :
  ACTIVATESECONDS cfg = 0 ->
  held k w = true ->
  script w = p :: rest ->
  timeExpiredGuarded minutes
    (ulong (ulong (now w + dt p) - clock_start clock w)) = false ->
  divisor_ul cfg = 0 /\ divisor_int cfg = 0
  /\ (exists w', hold cfg (S f) k clock minutes (divisor_ul cfg) complete w
                 = Halt DivByZero w' /\ unchanged w w')
  /\ (exists w', hold cfg (S f) k clock minutes (divisor_int cfg) complete w
                 = Halt DivByZero w' /\ unchanged w w').
Proof.
  intros Ha Hh Hs He.
  assert (Hu : divisor_ul cfg = 0) by (unfold divisor_ul; rewrite Ha; reflexivity).
  assert (Hi : divisor_int cfg = 0) by (unfold divisor_int; rewrite Ha; reflexivity).
  split; [exact Hu|]. split; [exact Hi|].
  rewrite Hu, Hi.
  destruct (holdLoop_zero_divisor cfg f k clock minutes complete (now w) w p rest
              Hh Hs He) as (w' & Hr & Hun & _).
  split; exists w'; (split; [unfold hold, bind, millis, get; exact Hr | exact Hun]).
Qed.

Lemma hold_zero_seconds_divides_by_zero_witness :
  exists w',
    hold (mkConfig 10 2 0 true false false true false [] 5000) 5 Arm (Since 0) 9
         0 (ret tt)
         (mkWorld 1000 [idle_poll 10 true false] true false false false
                  0 0 0 0 0 (repeat NUL 8) [])
    = Halt DivByZero w'.
Proof.
  destruct (hold_zero_seconds_divides_by_zero
              (mkConfig 10 2 0 true false false true false [] 5000) 4 Arm (Since 0) 9
              (ret tt)
              (mkWorld 1000 [idle_poll 10 true false] true false false false
                       0 0 0 0 0 (repeat NUL 8) [])
              (idle_poll 10 true false) [] eq_refl eq_refl eq_refl eq_refl)
    as (_ & _ & (w' & Hr & _) & _).
  exists w'. exact Hr.
Defined.

(** ** End-of-game splashes *)

Lemma at_time_now w : at_time (now w) [] w = w.
Proof. destruct w; reflexivity. Qed.

Lemma emit_at_time e t l w :
  emit e (at_time t l w) = Ok tt (at_time t ((t, e) :: l) w).
Proof. reflexivity. Qed.

Lemma delay_at_time d t l w :
  delay d (at_time t l w) = Ok tt (at_time (ulong (t + d)) l w).
Proof. reflexivity. Qed.

Lemma pin_level_app_none p l1 l2 :
  (forall t q v, ~ In (t, DigitalWrite q v) l1) ->
  pin_level p (l1 ++ l2) = pin_level p l2.
Proof.
  induction l1 as [|[t e] l1 IH]; intros Hno; [reflexivity|].
  cbn [app pin_level].
  assert (Hrec : pin_level p (l1 ++ l2) = pin_level p l2)
    by (apply IH; intros t' q v Hin; apply (Hno t' q v); right; exact Hin).
  destruct e; try exact Hrec.
  exfalso. apply (Hno t p0 high). left. reflexivity.
Qed.

Lemma explosion_steps : forall (l : list Z) t tr w,
  exists tr',
    for_each l (fun freq => emit (ToneOn freq) ;; delay 20) (at_time (ulong t) tr w)
    = Ok tt (at_time (ulong (t + 20 * Z.of_nat (List.length l))) (tr' ++ tr) w)
    /\ (forall t' q v, ~ In (t', DigitalWrite q v) tr').
Proof.
  induction l as [|x l IH]; intros t tr w.
  - exists []. split; [|intros t' q v []].
    cbn [for_each List.length app]. rewrite Z.mul_0_r, Z.add_0_r. reflexivity.
  - destruct (IH (t + 20) ((ulong t, ToneOn x) :: tr) w) as (tr' & Hr & Hno).
    exists (tr' ++ [(ulong t, ToneOn x)]). split.
    + cbn [for_each]. unfold bind at 1 2.
      rewrite emit_at_time, delay_at_time, ulong_add_l, Hr.
      rewrite <- app_assoc. cbn [app List.length].
      do 2 f_equal. f_equal. lia.
    + intros t' q v Hin. apply in_app_or in Hin as [Hin|[Hin|[]]].
      * exact (Hno t' q v Hin).
      * discriminate Hin.
Qed.

Lemma explosionSound_at cfg t tr w :
  exists tr',
    explosionSound cfg (at_time (ulong t) tr w)
    = Ok tt (at_time (ulong (t + (if soundEnable cfg then 4000 else 0)))
                     (tr' ++ tr) w)
    /\ (forall t' q v, ~ In (t', DigitalWrite q v) tr')
    /\ (soundEnable cfg = false -> tr' = []).
Proof.
  unfold explosionSound. destruct (soundEnable cfg); cbn [when].
  - destruct (explosion_steps (countdown 200) t tr w) as (tr' & Hr & Hno).
    exists ((ulong (t + 4000), NoTone) :: tr'). split; [|split].
    + rewrite (bind_ok _ _ _ _ _ Hr). reflexivity.
    + intros t' q v [Hin|Hin]; [discriminate Hin | exact (Hno t' q v Hin)].
    + discriminate.
  - exists []. split; [|split; [intros t' q v [] | reflexivity]].
    rewrite Z.add_0_r. reflexivity.
Qed.

(** X14.  [explodeSplash] and [failSplash] always return and never poll
    the keypad.  They clear [endGame], take 5.1 s plus 4 s of explosion
    sound if sound is enabled plus [RELAY_TIME] if the relay is enabled,
    leave both LEDs off and the relay, if it was pulsed, off again, start
    no tone when sound is disabled, and hand over to the replay prompt. *)
Theorem lostSplash_outcome (cfg : config) (line : string) (w : world) :
  exists l,
    lostSplash cfg line w
    = Ok (Goto PPlayAgain)
         (at_time (ulong (now w + lostSplash_ms cfg)) l (set_endGame false w))
    /\ pin_level REDLED l = Some false
    /\ pin_level GREENLED l = Some false
    /\ pin_level RELAYPIN l = (if relayEnable cfg then Some false else None)
    /\ (soundEnable cfg = false -> silent l = true)
    /\ explodeSplash cfg = lostSplash cfg "TERRORISTS WIN"
    /\ failSplash cfg = lostSplash cfg "  TIME OUT".
Proof.
  set (tr0 := [(ulong (now w + 100), LcdPrint "GAME OVER");
               (ulong (now w + 100), SetCursor 4 1);
               (ulong (now w + 100), LcdPrint line);
               (ulong (now w + 100), SetCursor 1 0);
               (now w, Cls);
               (now w, DigitalWrite GREENLED false);
               (now w, DigitalWrite REDLED false)]).
  destruct (explosionSound_at cfg (now w + 100) tr0 (set_endGame false w))
    as (tr1 & Hs & Hno & Hsil).
  set (t1 := now w + 100 + (if soundEnable cfg then 4000 else 0)) in *.
  set (tr2 := if relayEnable cfg
              then [(ulong (t1 + RELAY_TIME cfg), DigitalWrite RELAYPIN false);
                    (ulong t1, DigitalWrite RELAYPIN true)]
              else []).
  exists (tr2 ++ tr1 ++ tr0).
  split.
  { unfold lostSplash.
    rewrite <- (at_time_now w) at 1.
    unfold bind at 1, digitalWrite at 1. rewrite emit_at_time.
    unfold bind at 1, digitalWrite at 1. rewrite emit_at_time.
    unfold bind at 1, cls at 1. rewrite emit_at_time.
    unfold bind at 1. rewrite delay_at_time.
    unfold bind at 1, modify at 1.
    change (set_endGame false (at_time (ulong (now w + 100))
              [(now w, Cls); (now w, DigitalWrite GREENLED false);
               (now w, DigitalWrite REDLED false)] w))
      with (at_time (ulong (now w + 100))
              [(now w, Cls); (now w, DigitalWrite GREENLED false);
               (now w, DigitalWrite REDLED false)] (set_endGame false w)).
    unfold bind at 1, lcd_setCursor at 1. rewrite emit_at_time.
    unfold bind at 1, lcd_print at 1. rewrite emit_at_time.
    unfold bind at 1, lcd_setCursor at 1. rewrite emit_at_time.
    unfold bind at 1, lcd_print at 1. rewrite emit_at_time.
    fold tr0. unfold bind at 1. rewrite Hs. fold t1.
    unfold tr2, lostSplash_ms, activateRelay.
    destruct (relayEnable cfg); cbn [when app].
    - unfold bind at 1 2, digitalWrite at 1. rewrite emit_at_time.
      unfold bind at 1. rewrite delay_at_time, ulong_add_l.
      unfold digitalWrite. rewrite emit_at_time.
      unfold bind, ret. rewrite delay_at_time, ulong_add_l.
      do 2 f_equal. f_equal. unfold t1. lia.
    - unfold bind, ret. rewrite delay_at_time, ulong_add_l.
      do 2 f_equal. f_equal. unfold t1. lia. }
  split.
  { unfold tr2. destruct (relayEnable cfg); cbn [app pin_level pin_eqb];
      rewrite pin_level_app_none by exact Hno; reflexivity. }
  split.
  { unfold tr2. destruct (relayEnable cfg); cbn [app pin_level pin_eqb];
      rewrite pin_level_app_none by exact Hno; reflexivity. }
  split.
  { unfold tr2. destruct (relayEnable cfg); cbn [app pin_level pin_eqb];
      [reflexivity|].
    rewrite pin_level_app_none by exact Hno. reflexivity. }
  split; [|split; reflexivity].
  intros Hoff. rewrite (Hsil Hoff). unfold tr2.
  destruct (relayEnable cfg); reflexivity.
Qed.

(** X15.  [disarmedSplash] always returns without polling the keypad,
    clears [endGame] and hands over to the replay prompt.  It never
    touches the relay and never starts a tone; in the two bomb modes it
    shows the green LED for 5 s and leaves both LEDs off, otherwise it
    takes no time. *)
Theorem disarmedSplash_outcome (cfg : config) (w : world) :
  exists l,
    disarmedSplash cfg w
    = Ok (Goto PPlayAgain)
         (at_time (if sdStatus cfg || saStatus cfg then ulong (now w + 5000)
                   else now w) l (set_endGame false w))
    /\ pin_level REDLED l = Some false
    /\ pin_level GREENLED l = Some false
    /\ pin_level RELAYPIN l = None
    /\ silent l = true
    /\ (sdStatus cfg || saStatus cfg = true ->
        In (now w, DigitalWrite GREENLED true) l).
Proof.
  unfold disarmedSplash.
  destruct (sdStatus cfg || saStatus cfg); cbn [when].
  - exists [(ulong (now w + 5000), DigitalWrite GREENLED false);
            (now w, DigitalWrite GREENLED true);
            (now w, LcdPrint "GOOD GUYS WIN!"); (now w, SetCursor 3 1);
            (now w, LcdPrint "BOMB DISARMED"); (now w, SetCursor 2 0);
            (now w, Cls);
            (now w, DigitalWrite GREENLED false);
            (now w, DigitalWrite REDLED false)].
    repeat (split; [reflexivity|]).
    intros _. cbn. auto.
  - exists [(now w, DigitalWrite GREENLED false);
            (now w, DigitalWrite REDLED false)].
    repeat (split; [reflexivity|]).
    discriminate.
Qed.

(** ** The replay prompt *)

Lemma playAgain_loop_exits cfg w0 : forall fuel,
  hoare (unchanged w0) (playAgain_loop cfg fuel)
        (fun n w =>
           match n with
           | Goto PSearch => sdStatus cfg = true /\ unchanged w0 w
           | Goto PSabotage =>
               sdStatus cfg = false /\ saStatus cfg = true /\ start w = true
               /\ endGame w = endGame w0 /\ iTime w = iTime w0
               /\ ctl (out w) = ctl (out w0)
           | Goto PMenu => unchanged w0 w
           | _ => False
           end)
        (fun _ => True).
Proof.
  pose proof (stable_unchanged w0) as HS.
  assert (HH : forall w, unchanged w0 w -> True) by auto.
  induction fuel as [|f IH]; cbn [playAgain_loop].
  - apply hoare_stop; auto.
  - hoare_step (unchanged w0).
    destruct (Ascii.eqb a "a").
    + hoare_step (unchanged w0).
      destruct (sdStatus cfg) eqn:Esd.
      * hoare_step (unchanged w0). apply hoare_ret. auto.
      * destruct (saStatus cfg) eqn:Esa; [|apply IH].
        hoare_step (unchanged w0).
        eapply hoare_bind;
          [apply (hoare_modify _ _
                    (fun _ w => start w = true /\ endGame w = endGame w0
                                /\ iTime w = iTime w0
                                /\ ctl (out w) = ctl (out w0)));
           intros w Hu; cbn;
           repeat split; [apply (un_endGame _ _ Hu) | apply (un_iTime _ _ Hu)
                         | apply (un_ctl _ _ Hu)]
          |].
        intros ?; cbn beta. apply hoare_ret. intros w Hw. tauto.
    + destruct (Ascii.eqb a "b"); [|apply IH].
      hoare_step (unchanged w0). apply hoare_ret. auto.
Qed.

(** X16.  The replay prompt leaves only toward the mode of the session:
    [a] restarts Search and Destroy when [sdStatus] is set, and Sabotage,
    with [start] set so that it takes a new game clock, when only
    [saStatus] is set; [b] goes to the main menu.  It does not touch the
    game state otherwise, and with [b] as the first key pressed it
    returns at that key. *)
Theorem playAgainPrompt_exits (cfg : config) (fuel : nat) (w : world) :
  (forall n w',
      playAgainPrompt cfg fuel w = Ok n w' ->
      (n = Goto PSearch /\ sdStatus cfg = true /\ unchanged w w')
      \/ (n = Goto PSabotage /\ sdStatus cfg = false /\ saStatus cfg = true
          /\ start w' = true /\ endGame w' = endGame w /\ iTime w' = iTime w)
      \/ (n = Goto PMenu /\ unchanged w w'))
  /\ (forall pre last rest,
         script w = pre ++ last :: rest -> forallb no_key pre = true ->
         key last = Some "b"%char -> (List.length pre < fuel)%nat ->
         exists w', playAgainPrompt cfg (S fuel) w = Ok (Goto PMenu) w'
                    /\ script w' = rest).
Proof.
  split.
  - intros n w' Hrun.
    assert (Hh : hoare (unchanged w) (playAgainPrompt cfg fuel)
                   (fun n x =>
                      match n with
                      | Goto PSearch => sdStatus cfg = true /\ unchanged w x
                      | Goto PSabotage =>
                          sdStatus cfg = false /\ saStatus cfg = true
                          /\ start x = true
                          /\ endGame x = endGame w /\ iTime x = iTime w
                          /\ ctl (out x) = ctl (out w)
                      | Goto PMenu => unchanged w x
                      | _ => False
                      end)
                   (fun _ => True)).
    { pose proof (stable_unchanged w) as HS.
      assert (HH : forall x, unchanged w x -> True) by auto.
      unfold playAgainPrompt. do 6 hoare_step (unchanged w).
      apply playAgain_loop_exits. }
    specialize (Hh w (unchanged_refl w)). rewrite Hrun in Hh.
    destruct n as [p|]; [|contradiction].
    destruct p; try contradiction.
    + left. tauto.
    + right; left. tauto.
    + right; right. tauto.
  - intros pre last rest Hs Hp Hk Hf.
    unfold playAgainPrompt.
    set (w1 := with_out [(now w, LcdPrint "A : Yes B : No"); (now w, SetCursor 0 1);
                         (now w, LcdPrint "Play Again?"); (now w, Cls);
                         (now w, DigitalWrite GREENLED false);
                         (now w, DigitalWrite REDLED false)] w).
    assert (Hw : waitForKey fuel w1 = Ok "b"%char (polled pre last rest w1))
      by (apply waitForKey_polled; assumption).
    exists (if soundEnable cfg
            then add_out (Tone 2400 30) (polled pre last rest w1)
            else polled pre last rest w1).
    split; [|destruct (soundEnable cfg); reflexivity].
    change (playAgain_loop cfg (S fuel) w1
            = Ok (Goto PMenu)
                 (if soundEnable cfg
                  then add_out (Tone 2400 30) (polled pre last rest w1)
                  else polled pre last rest w1)).
    cbn [playAgain_loop]. rewrite (bind_ok _ _ _ _ _ Hw).
    change (Ascii.eqb "b" "a") with false.
    change (Ascii.eqb "b" "b") with true. cbv iota.
    destruct (soundEnable cfg); reflexivity.
Qed.

(** ** The game clock of Sabotage on entry *)


Lemma playAgainPrompt_exits_witness :
  exists w',
    playAgainPrompt cfg_sabotage 3
      (world0 [idle_poll 500 false false; key_poll 10 "b"; key_poll 10 "a"])
    = Ok (Goto PMenu) w'
    /\ script w' = [key_poll 10 "a"].
Proof.
  exact (proj2 (playAgainPrompt_exits cfg_sabotage 2
                  (world0 [idle_poll 500 false false; key_poll 10 "b";
                           key_poll 10 "a"]))
               [idle_poll 500 false false] (key_poll 10 "b") [key_poll 10 "a"]
               eq_refl eq_refl eq_refl ltac:(cbn; lia)).
Defined.

(** ** The start countdown *)

Lemma clock_after_app t l p :
  clock_after t (l ++ [p]) = ulong (clock_after t l + dt p).
Proof.
  revert t. induction l as [|q l IH]; intros t; cbn [app clock_after];
    [reflexivity | apply IH].
Qed.

Lemma silent_app l1 l2 : silent (l1 ++ l2) = silent l1 && silent l2.
Proof. unfold silent. apply forallb_app. Qed.

Lemma count_steps cfg : forall (l : list Z) t tr w,
  exists tr',
    for_each l (fun i =>
                  lcd_setCursor 5 1 ;;
                  when (soundEnable cfg) (tone 2000 100) ;;
                  lcd_print "IN " ;; lcd_print (dec i) ;;
                  delay 1000) (at_time (ulong t) tr w)
    = Ok tt (at_time (ulong (t + 1000 * Z.of_nat (List.length l))) (tr' ++ tr) w)
    /\ (forall k, (k < List.length l)%nat ->
                  In (ulong (t + 1000 * Z.of_nat k), LcdPrint (dec (nth k l 0))) tr')
    /\ (soundEnable cfg = false -> silent tr' = true).
Proof.
  induction l as [|x l IH]; intros t tr w.
  - exists []. split; [|split; [intros k Hk; cbn in Hk; lia | reflexivity]].
    cbn [for_each List.length app]. rewrite Z.mul_0_r, Z.add_0_r. reflexivity.
  - set (step := (if soundEnable cfg then [(ulong t, Tone 2000 100)] else [])
                 ++ [(ulong t, SetCursor 5 1)]).
    set (tr1 := (ulong t, LcdPrint (dec x)) :: (ulong t, LcdPrint "IN ") :: step).
    destruct (IH (t + 1000) (tr1 ++ tr) w) as (tr' & Hr & Hin & Hsil).
    exists (tr' ++ tr1). split; [|split].
    + cbn [for_each]. unfold bind at 1.
      assert (E : (lcd_setCursor 5 1 ;;
                   when (soundEnable cfg) (tone 2000 100) ;;
                   lcd_print "IN " ;; lcd_print (dec x) ;; delay 1000)
                    (at_time (ulong t) tr w)
                  = Ok tt (at_time (ulong (t + 1000)) (tr1 ++ tr) w)).
      { unfold tr1, step. rewrite <- ulong_add_l.
        destruct (soundEnable cfg); reflexivity. }
      rewrite E, Hr. rewrite <- app_assoc. cbn [List.length].
      do 2 f_equal. f_equal. lia.
    + intros [|k] Hk.
      * apply in_or_app. right. left. cbn [nth].
        rewrite Z.mul_0_r, Z.add_0_r. reflexivity.
      * apply in_or_app. left. cbn [nth].
        replace (t + 1000 * Z.of_nat (S k)) with (t + 1000 + 1000 * Z.of_nat k) by lia.
        apply Hin. cbn in Hk. lia.
    + intros Hoff. rewrite silent_app, (Hsil Hoff). unfold tr1, step.
      rewrite Hoff. reflexivity.
Qed.

(** X18.  [startGameCount] waits for the first key press, whatever the
    key, and returns exactly 5000 ms after the poll that reported it:
    the numbers 5, 4, 3, 2, 1 are printed one second apart, the first at
    the key press.  Later polls stay in the script, the game state is
    not touched and no tone is started when sound is disabled. *)
Theorem startGameCount_five_seconds (cfg : config) (fuel : nat) (w : world)
        (pre : list tick) (last : tick) (rest : list tick) (c : ascii) :
  script w = pre ++ last :: rest ->
  forallb no_key pre = true ->
  key last = Some c ->
  (List.length pre < fuel)%nat ->
  let t0 := clock_after (now w) (pre ++ [last]) in
  exists l,
    startGameCount cfg fuel w
    = Ok tt (at_time (ulong (t0 + 5000)) l (polled pre last rest w))
    /\ (forall i, 0 <= i < 5 ->
                  In (ulong (t0 + 1000 * i), LcdPrint (dec (5 - i))) l)
    /\ (soundEnable cfg = false -> silent l = true).
Proof.
  intros Hs Hp Hk Hf t0.
  set (tr0 := [(now w, LcdPrint "Push ANY Button"); (now w, SetCursor 0 1);
               (now w, LcdPrint "Ready to Begin"); (now w, SetCursor 1 0);
               (now w, Cls)]).
  set (tr1 := [(t0, LcdPrint "Starting Game"); (t0, SetCursor 1 0); (t0, Cls)]).
  assert (Ht0 : t0 = ulong (clock_after (now w) pre + dt last))
    by apply clock_after_app.
  assert (Hw : waitForKey fuel (with_out tr0 w)
               = Ok c (at_time t0 tr0 (polled pre last rest w)))
    by (apply (waitForKey_polled pre fuel (with_out tr0 w) last rest c);
        assumption).
  destruct (count_steps cfg [5; 4; 3; 2; 1] (clock_after (now w) pre + dt last)
              (tr1 ++ tr0) (polled pre last rest w)) as (tr' & Hr & Hin & Hsil).
  rewrite <- Ht0 in Hr.
  exists ((ulong (t0 + 5000), Cls) :: tr' ++ tr1 ++ tr0).
  split; [|split].
  - unfold startGameCount.
    change ((_ <- waitForKey fuel ;;
             cls ;; lcd_setCursor 1 0 ;; lcd_print "Starting Game" ;;
             for_each [5; 4; 3; 2; 1]
               (fun i =>
                  lcd_setCursor 5 1 ;;
                  when (soundEnable cfg) (tone 2000 100) ;;
                  lcd_print "IN " ;; lcd_print (dec i) ;;
                  delay 1000) ;;
             cls) (with_out tr0 w)
            = Ok tt (at_time (ulong (t0 + 5000))
                             ((ulong (t0 + 5000), Cls) :: tr' ++ tr1 ++ tr0)
                             (polled pre last rest w))).
    rewrite (bind_ok _ _ _ _ _ Hw).
    unfold bind at 1, cls at 1. rewrite emit_at_time.
    unfold bind at 1, lcd_setCursor at 1. rewrite emit_at_time.
    unfold bind at 1, lcd_print at 1. rewrite emit_at_time.
    change ([(t0, LcdPrint "Starting Game"); (t0, SetCursor 1 0); (t0, Cls)]
            ++ tr0) with (tr1 ++ tr0) in Hr.
    change ((t0, LcdPrint "Starting Game") :: (t0, SetCursor 1 0) :: (t0, Cls) :: tr0)
      with (tr1 ++ tr0).
    assert (HT : ulong (t0 + 5000)
                 = ulong (clock_after (now w) pre + dt last
                          + 1000 * Z.of_nat (List.length [5; 4; 3; 2; 1])))
      by (rewrite Ht0, ulong_add_l; f_equal).
    rewrite HT.
    rewrite (bind_ok _ _ _ _ _ Hr). reflexivity.
  - intros i Hi. right. apply in_or_app. left.
    assert (Hi' : i = Z.of_nat (Z.to_nat i)) by lia.
    specialize (Hin (Z.to_nat i) ltac:(cbn; lia)).
    rewrite <- Hi' in Hin.
    rewrite <- (ulong_add_l (clock_after (now w) pre + dt last) (1000 * i)), <- Ht0 in Hin.
    replace (nth (Z.to_nat i) [5; 4; 3; 2; 1] 0) with (5 - i) in Hin; [exact Hin|].
    assert (Hc : i = 0 \/ i = 1 \/ i = 2 \/ i = 3 \/ i = 4) by lia.
    destruct Hc as [->|[->|[->|[->| ->]]]]; reflexivity.
  - intros Hoff. cbn [silent forallb is_sound snd negb andb].
    change (silent (tr' ++ tr1 ++ tr0) = true).
    rewrite silent_app, (Hsil Hoff). reflexivity.
Qed.

Lemma startGameCount_five_seconds_witness :
  exists l,
    startGameCount cfg_search 3
      (world0 [idle_poll 700 false false; key_poll 10 "#"; key_poll 10 "1"])
    = Ok tt (at_time 5710 l
               (polled [idle_poll 700 false false] (key_poll 10 "#")
                       [key_poll 10 "1"]
                       (world0 [idle_poll 700 false false; key_poll 10 "#";
                                key_poll 10 "1"])))
    /\ In (2710, LcdPrint "3") l.
Proof.
  destruct (startGameCount_five_seconds cfg_search 3
              (world0 [idle_poll 700 false false; key_poll 10 "#"; key_poll 10 "1"])
              [idle_poll 700 false false] (key_poll 10 "#") [key_poll 10 "1"]
              "#"%char eq_refl eq_refl eq_refl ltac:(cbn; lia))
    as (l & Hr & Hin & _).
  exists l. split; [exact Hr|]. exact (Hin 2 ltac:(lia)).
Defined.

(** ** Quick configuration *)










(** ** The call graph of a session *)

Section Graph.

Variable cfg : config.

(** An invariant that the display, the clock and the keypad do not
    disturb, and that survives every write to the game state. *)
Variable K : world -> Prop.
Hypothesis K_stable : stable K.
Hypothesis K_endGame : forall b w, K w -> K (set_endGame b w).
Hypothesis K_start : forall b w, K w -> K (set_start b w).
Hypothesis K_iTime : forall t w, K w -> K (set_iTime t w).
Hypothesis K_team : forall k w, K w -> K (set_team k w).
Hypothesis K_iZoneTime : forall t w, K w -> K (set_iZoneTime t w).
Hypothesis K_redTime : forall t w, K w -> K (set_redTime t w).
Hypothesis K_greenTime : forall t w, K w -> K (set_greenTime t w).

Let K_halt : forall w, K w -> K w := fun _ H => H.

Ltac k_step :=
  first
    [ hoare_step K
    | apply (hoare_bind _ _ _ (fun _ => K));
      [apply hoare_modify; intros;
       first [apply K_endGame | apply K_start | apply K_iTime | apply K_team
             | apply K_iZoneTime | apply K_redTime | apply K_greenTime];
       assumption
      | intros ?; cbn beta] ].

Lemma K_quiet {A} (m : M A) : quiet m -> hoare K m (fun _ => K) K.
Proof. intros Hq. apply hoare_quiet; auto. Qed.

Lemma K_hold fuel k clock minutes divisor complete :
  hoare K complete (fun _ => K) K ->
  hoare K (hold cfg fuel k clock minutes divisor complete) (fun _ => K) K.
Proof.
  intros Hc.
  eapply hoare_conseq;
    [apply (hoare_hold cfg K K K K); [exact K_stable | intros w Hw; apply K_endGame, Hw
                                     | auto | exact Hc]
    | auto | | auto].
  intros [] w H; cbn in H; tauto.
Qed.

Lemma search_loop_K : forall fuel t0,
  hoare K (search_loop cfg fuel t0)
        (fun n w => K w /\ (n = Goto PFailSplash \/ n = Goto PDestroy)) K.
Proof.
  induction fuel as [|f IH]; intros t0; cbn [search_loop].
  - apply hoare_stop; auto.
  - hoare_step K. destruct a.
    { apply hoare_ret; auto. }
    do 3 hoare_step K.
    destruct (timeExpired _ _).
    { apply hoare_ret; auto. }
    do 2 hoare_step K.
    destruct a3.
    { apply hoare_ret; auto. }
    hoare_step K.
    destruct (a3 && negb (passwordEnable cfg)); [|apply IH].
    do 5 hoare_step K.
    eapply hoare_bind; [apply K_hold, K_quiet; solve_quiet|].
    intros r; cbn beta. destruct r; try (apply hoare_ret; auto);
      do 2 hoare_step K; apply IH.
Qed.

Lemma destroy_loop_K : forall fuel t0 d,
  hoare K (destroy_loop cfg fuel t0 d)
        (fun n w => K w /\ (n = Goto PDisarmedSplash \/ n = Goto PExplodeSplash)) K.
Proof.
  induction fuel as [|f IH]; intros t0 d; cbn [destroy_loop].
  - apply hoare_stop; auto.
  - hoare_step K. destruct a.
    { apply hoare_ret; auto. }
    do 3 hoare_step K.
    destruct (timeExpired _ _).
    { apply hoare_ret; auto. }
    do 2 hoare_step K.
    destruct a3.
    { apply hoare_ret; auto. }
    hoare_step K.
    destruct (a3 && negb (passwordEnable cfg)); [|apply IH].
    do 5 hoare_step K.
    eapply hoare_bind; [apply K_hold, K_quiet; solve_quiet|].
    intros r; cbn beta. destruct r; try (apply hoare_ret; auto);
      do 3 hoare_step K; apply IH.
Qed.

Lemma sabotage_loop_K : forall fuel,
  hoare K (sabotage_loop cfg fuel)
        (fun n w => K w /\ (n = Goto PDestroySabotage \/ n = Goto PFailSplash)) K.
Proof.
  induction fuel as [|f IH]; cbn [sabotage_loop].
  - apply hoare_stop; auto.
  - hoare_step K. destruct a.
    { apply hoare_ret; auto. }
    do 4 hoare_step K.
    destruct (timeExpired _ _).
    { apply hoare_ret; auto. }
    do 2 hoare_step K.
    destruct a4.
    { apply hoare_ret; auto. }
    hoare_step K.
    destruct (a4 && negb (passwordEnable cfg)); [|apply IH].
    do 5 hoare_step K.
    eapply hoare_bind; [apply K_hold, K_quiet; solve_quiet|].
    intros r; cbn beta. destruct r; try (apply hoare_ret; auto);
      do 2 hoare_step K; apply IH.
Qed.

Lemma destroySabotage_loop_K : forall fuel t0 d,
  hoare K (destroySabotage_loop cfg fuel t0 d)
        (fun n w => K w /\ (n = Goto PSabotage \/ n = Goto PExplodeSplash
                            \/ n = Goto PFailSplash)) K.
Proof.
  induction fuel as [|f IH]; intros t0 d; cbn [destroySabotage_loop].
  - apply hoare_stop; auto.
  - hoare_step K. destruct a.
    { apply hoare_ret; auto. }
    do 3 hoare_step K.
    destruct (timeExpired _ _).
    { apply hoare_ret; auto. }
    do 2 hoare_step K.
    destruct a3.
    { apply hoare_ret; auto. }
    hoare_step K.
    destruct (a3 && negb (passwordEnable cfg)); [|apply IH].
    do 5 hoare_step K.
    eapply hoare_bind; [apply K_hold, K_quiet; solve_quiet|].
    intros r; cbn beta. destruct r; try (apply hoare_ret; auto);
      do 3 hoare_step K; apply IH.
Qed.

Lemma accumulate_K : hoare K accumulate (fun _ => K) K.
Proof.
  unfold accumulate. do 3 k_step.
  destruct (a =? 1), (a =? 2); cbn [when];
    repeat k_step; try (apply hoare_ret; auto);
    apply hoare_modify; intros; auto.
Qed.

Lemma dom_while_K fuel cond k banner complete after t0 :
  hoare K complete (fun _ => K) K -> quiet after ->
  hoare K (dom_while cfg fuel cond k banner complete after t0) (fun _ => K) K.
Proof.
  intros Hc Ha. induction fuel as [|f IH]; cbn [dom_while].
  - apply hoare_stop; auto.
  - hoare_step K. destruct (negb a); [apply hoare_ret; auto|].
    do 3 hoare_step K.
    eapply hoare_bind; [apply K_hold, Hc|].
    intros r; cbn beta. destruct r; try (apply hoare_ret; auto);
      hoare_step K; exact IH.
Qed.

Lemma domination_loop_K : forall fuel t0 show last,
  hoare K (domination_loop cfg fuel t0 show last)
        (fun n w => K w /\ (n = Goto PGameOver \/ n = Return)) K.
Proof.
  assert (Hn : hoare K neutralize_complete (fun _ => K) K).
  { unfold neutralize_complete. hoare_step K.
    eapply hoare_bind; [apply accumulate_K|]. intros ?; cbn beta.
    k_step. apply hoare_modify. intros; auto. }
  assert (Hcap : forall k led, hoare K (capture_complete k led) (fun _ => K) K).
  { intros k led. unfold capture_complete. do 3 k_step. k_step.
    apply K_quiet. solve_quiet. }
  induction fuel as [|f IH]; intros t0 show last; cbn [domination_loop].
  - apply hoare_stop; auto.
  - hoare_step K. destruct a.
    { apply hoare_ret; auto. }
    do 3 hoare_step K. cbv zeta.
    do 2 hoare_step K.
    destruct (timeExpired _ _).
    { apply hoare_ret; auto. }
    eapply hoare_bind; [apply dom_while_K; [exact Hn | solve_quiet]|].
    intros r1; cbn beta. destruct r1; [apply hoare_ret; auto|].
    eapply hoare_bind; [apply dom_while_K; [apply Hcap | solve_quiet]|].
    intros r2; cbn beta. destruct r2; [apply hoare_ret; auto|].
    eapply hoare_bind; [apply dom_while_K; [apply Hcap | solve_quiet]|].
    intros r3; cbn beta. destruct r3; [apply hoare_ret; auto|].
    apply IH.
Qed.

Lemma gameOver_prompt_K : forall fuel,
  hoare K (gameOver_prompt fuel)
        (fun n w => K w /\ (n = Goto PDomination \/ n = Goto PMenu)) K.
Proof.
  induction fuel as [|f IH]; cbn [gameOver_prompt].
  - apply hoare_stop; auto.
  - hoare_step K.
    destruct (Ascii.eqb a "a"); [|destruct (Ascii.eqb a "b")].
    + do 2 hoare_step K. apply hoare_ret; auto.
    + hoare_step K. apply hoare_ret; auto.
    + exact IH.
Qed.

Lemma playAgain_loop_K : forall fuel,
  hoare K (playAgain_loop cfg fuel)
        (fun n w => K w /\ In (target n) (successors cfg PPlayAgain)) K.
Proof.
  induction fuel as [|f IH]; cbn [playAgain_loop].
  - apply hoare_stop; auto.
  - hoare_step K.
    destruct (Ascii.eqb a "a").
    + hoare_step K. cbn [successors].
      destruct (sdStatus cfg) eqn:Esd.
      * hoare_step K. apply hoare_ret. intros w Hw. split; [exact Hw|].
        cbn. auto.
      * destruct (saStatus cfg) eqn:Esa.
        -- hoare_step K. k_step. apply hoare_ret. intros w Hw.
           split; [exact Hw|]. cbn. auto.
        -- pose proof IH as IH'. cbn [successors] in IH'.
           rewrite Esd, Esa in IH'. exact IH'.
    + destruct (Ascii.eqb a "b"); [|apply IH].
      hoare_step K. apply hoare_ret. intros w Hw. split; [exact Hw|].
      cbn [target successors]. apply in_or_app. right. left. reflexivity.
Qed.

Lemma quiet_explosionSound : quiet (explosionSound cfg).
Proof. unfold explosionSound. solve_quiet. Qed.

Lemma quiet_activateRelay : quiet (activateRelay cfg).
Proof. unfold activateRelay. solve_quiet. Qed.

(** Every mode function keeps the invariant and passes control to one of
    its successors. *)
Lemma body_K fuel p :
  p <> PMenu ->
  hoare K (body cfg fuel p)
        (fun n w => K w /\ In (target n) (successors cfg p)) K.
Proof.
  intros Hp. destruct p; cbn [body].
  - (* search *)
    unfold search. do 5 hoare_step K.
    eapply hoare_conseq; [apply search_loop_K | auto | | auto].
    intros n w [Hw [-> | ->]]; (split; [exact Hw | cbn; auto]).
  - (* destroy *)
    unfold destroy. do 5 hoare_step K.
    eapply hoare_conseq; [apply destroy_loop_K | auto | | auto].
    intros n w [Hw [-> | ->]]; (split; [exact Hw | cbn; auto]).
  - (* sabotage *)
    unfold sabotage. k_step. do 4 hoare_step K.
    apply (hoare_bind _ _ _ (fun _ => K)).
    { destruct a3; cbn [when]; [|apply hoare_ret; auto].
      hoare_step K. k_step. apply hoare_modify. intros; auto. }
    intros ?; cbn beta.
    eapply hoare_conseq; [apply sabotage_loop_K | auto | | auto].
    intros n w [Hw [-> | ->]]; (split; [exact Hw | cbn; auto]).
  - (* destroySabotage *)
    unfold destroySabotage. k_step. do 5 hoare_step K.
    eapply hoare_conseq; [apply destroySabotage_loop_K | auto | | auto].
    intros n w [Hw [-> | [-> | ->]]]; (split; [exact Hw | cbn; auto]).
  - (* domination *)
    unfold domination. hoare_step K. do 4 k_step. hoare_step K.
    eapply hoare_conseq; [apply domination_loop_K | auto | | auto].
    intros n w [Hw [-> | ->]]; (split; [exact Hw | cbn; auto]).
  - (* gameOver *)
    unfold gameOver.
    eapply hoare_bind; [apply accumulate_K|]. intros ?; cbn beta.
    do 2 hoare_step K.
    eapply hoare_bind; [apply K_quiet, quiet_gameOver_screens|].
    intros ?; cbn beta.
    do 7 hoare_step K.
    eapply hoare_conseq; [apply gameOver_prompt_K | auto | | auto].
    intros n w [Hw [-> | ->]]; (split; [exact Hw | cbn; auto]).
  - (* failSplash *)
    unfold failSplash, lostSplash. do 4 hoare_step K. k_step. do 4 hoare_step K.
    eapply hoare_bind; [apply K_quiet, quiet_explosionSound|]. intros ?; cbn beta.
    eapply hoare_bind;
      [apply K_quiet; destruct (relayEnable cfg); cbn [when];
       [apply quiet_activateRelay | apply quiet_ret]|].
    intros ?; cbn beta. hoare_step K.
    apply hoare_ret. intros w Hw. split; [exact Hw | cbn; auto].
  - (* explodeSplash *)
    unfold explodeSplash, lostSplash. do 4 hoare_step K. k_step. do 4 hoare_step K.
    eapply hoare_bind; [apply K_quiet, quiet_explosionSound|]. intros ?; cbn beta.
    eapply hoare_bind;
      [apply K_quiet; destruct (relayEnable cfg); cbn [when];
       [apply quiet_activateRelay | apply quiet_ret]|].
    intros ?; cbn beta. hoare_step K.
    apply hoare_ret. intros w Hw. split; [exact Hw | cbn; auto].
  - (* disarmedSplash *)
    unfold disarmedSplash. k_step. do 3 hoare_step K.
    apply hoare_ret. intros w Hw. split; [exact Hw | cbn; auto].
  - (* playAgainPrompt *)
    unfold playAgainPrompt. do 6 hoare_step K. apply playAgain_loop_K.
  - (* the menu ends the session *)
    contradiction Hp. reflexivity.
Qed.

End Graph.

Lemma entered_ctl tr : entered (ctl tr) = entered tr.
Proof.
  induction tr as [|[t e] tr IH]; [reflexivity|].
  unfold ctl in *. cbn [filter snd].
  destruct e; cbn [is_ctl entered]; try exact IH.
  f_equal. exact IH.
Qed.

Lemma entered_unchanged w w' :
  unchanged w w' -> entered (out w') = entered (out w).
Proof.
  intros Hu. rewrite <- (entered_ctl (out w')), (un_ctl _ _ Hu).
  apply entered_ctl.
Qed.

Lemma body_entered cfg fuel p w :
  p <> PMenu ->
  match body cfg fuel p w with
  | Ok n w' => In (target n) (successors cfg p)
               /\ entered (out w') = entered (out w)
  | Halt _ w' => entered (out w') = entered (out w)
  end.
Proof.
  intros Hp.
  pose proof (body_K cfg (fun x => entered (out x) = entered (out w))) as HK.
  assert (Hb : hoare (fun x => entered (out x) = entered (out w))
                 (body cfg fuel p)
                 (fun n x => entered (out x) = entered (out w)
                             /\ In (target n) (successors cfg p))
                 (fun x => entered (out x) = entered (out w))).
  { apply HK; try (intros; assumption); try exact Hp.
    intros x y Hx Hu. rewrite (entered_unchanged _ _ Hu). exact Hx. }
  specialize (Hb w eq_refl).
  destruct (body cfg fuel p w) as [n w'|h w']; [|exact Hb].
  destruct Hb as [He Hin]. split; assumption.
Qed.

(** X20.  The call graph of the sketch: whatever the keypad does, a mode
    function hands control only to one of its successors (for instance
    [destroySabotage] to [sabotage], [explodeSplash] or [failSplash], and
    the replay prompt to the mode whose flag is set or to the menu), and
    no mode function is entered from inside another except by such a
    hand-over. *)
Theorem call_graph (cfg : config) (fuel : nat) (p : proc) (w : world) :
  p <> PMenu ->
  match body cfg fuel p w with
  | Ok n w' => In (target n) (successors cfg p)
               /\ entered (out w') = entered (out w)
  | Halt _ w' => entered (out w') = entered (out w)
  end.
Proof. apply body_entered. Qed.

Lemma call_graph_witness :
  match body cfg_sabotage 11 PDestroySabotage (world_armed script_hold) with
  | Ok n w' => In (target n) [PSabotage; PExplodeSplash; PFailSplash]
               /\ entered (out w') = []
  | Halt _ w' => entered (out w') = []
  end.
Proof.
  apply (call_graph cfg_sabotage 11 PDestroySabotage (world_armed script_hold)).
  discriminate.
Defined.

Lemma exec_step cfg f p w :
  p <> PMenu ->
  exec cfg (S f) p w
  = (n <- body cfg f p ;; exec cfg f (target n)) (add_out (Enter p) w).
Proof.
  intros Hp. cbn [exec]. unfold bind at 1, emit at 1, modify at 1.
  destruct p; try (contradiction Hp; reflexivity);
    unfold bind; destruct (body cfg f _ _) as [[q|] w'|h w']; reflexivity.
Qed.

Lemma exec_closed cfg (S : proc -> bool) :
  (forall p q, p <> PMenu -> S p = true -> In q (successors cfg p) -> S q = true) ->
  forall fuel p w,
    S p = true ->
    forallb S (entered (out w)) = true ->
    forallb S (entered (out (final (exec cfg fuel p w)))) = true.
Proof.
  intros Hcl. induction fuel as [|f IH]; intros p w Hp Hw; [exact Hw|].
  assert (Hw1 : forallb S (entered (out (add_out (Enter p) w))) = true)
    by (cbn; rewrite Hp, Hw; reflexivity).
  assert (Hd : p = PMenu \/ p <> PMenu) by (destruct p; auto; right; discriminate).
  destruct Hd as [->|Hne]; [exact Hw1|].
  rewrite (exec_step cfg f p w Hne). unfold bind.
  pose proof (body_entered cfg f p (add_out (Enter p) w) Hne) as Hb.
  destruct (body cfg f p (add_out (Enter p) w)) as [n w'|h w'].
  - destruct Hb as [Hin He]. apply IH.
    + exact (Hcl p (target n) Hne Hp Hin).
    + rewrite He. exact Hw1.
  - cbn [final]. rewrite Hb. exact Hw1.
Qed.

(** X21.  A session stays in its mode.  From [domination] only
    [domination], [gameOver] and the menu are ever entered; with
    [sdStatus] set, a session that is in Search and Destroy stays among
    [search], [destroy], the three splashes, the replay prompt and the
    menu; with [sdStatus] clear, a session that is in Sabotage stays
    among [sabotage], [destroySabotage], [failSplash], [explodeSplash],
    the replay prompt and the menu, so it never shows the disarmed
    splash.  This holds for every keypad script, replays included, and
    for runs that are cut off. *)
Theorem session_stays_in_mode (cfg : config) (fuel : nat) (p : proc) (w : world) :
  let w' := final (exec cfg fuel p w) in
  (in_domination p = true ->
   forallb in_domination (entered (out w)) = true ->
   forallb in_domination (entered (out w')) = true)
  /\ (sdStatus cfg = true -> in_search p = true ->
      forallb in_search (entered (out w)) = true ->
      forallb in_search (entered (out w')) = true)
  /\ (sdStatus cfg = false -> in_sabotage p = true ->
      forallb in_sabotage (entered (out w)) = true ->
      forallb in_sabotage (entered (out w')) = true).
Proof.
  cbv zeta. split; [|split].
  - apply exec_closed. intros p0 q _ Hp0 Hin.
    destruct p0; try discriminate Hp0; cbn in Hin;
      repeat (destruct Hin as [<-|Hin]; [reflexivity|]); contradiction.
  - intros Hsd. apply exec_closed. intros p0 q _ Hp0 Hin.
    destruct p0; try discriminate Hp0; cbn [successors] in Hin;
      rewrite ?Hsd in Hin; cbn in Hin;
      repeat (destruct Hin as [<-|Hin]; [reflexivity|]); contradiction.
  - intros Hsd. apply exec_closed. intros p0 q _ Hp0 Hin.
    destruct p0; try discriminate Hp0; cbn [successors] in Hin;
      rewrite ?Hsd in Hin; try destruct (saStatus cfg); cbn in Hin;
      repeat (destruct Hin as [<-|Hin]; [reflexivity|]); contradiction.
Qed.

Lemma session_stays_in_mode_witness :
  forallb in_sabotage
    (entered (out (final (exec cfg_sabotage 100 PSabotage
                            (world0 script_two_cycles))))) = true.
Proof.
  exact (proj2 (proj2 (session_stays_in_mode cfg_sabotage 100 PSabotage
                         (world0 script_two_cycles)))
               eq_refl eq_refl eq_refl).
Defined.




Lemma dom_capture_completes cfg (k : hold_kind) (tm : Z) (led own : pin)
      (cond : world -> bool) f t0 w pre last rest :
  1 <= ACTIVATESECONDS cfg <= 99 ->
  tm <> 0 ->
  (forall x, cond x = held k x && (team x =? 0)) ->
  team w = 0 ->
  held k w = true ->
  script w = pre ++ last :: rest ->
  (List.length pre < f)%nat ->
  in_progress k t0 (dom_minutes cfg) (ACTIVATESECONDS cfg * 10)
              (now w) (now w) pre = true ->
  timeExpiredGuarded (dom_minutes cfg)
    (ulong (ulong (clock_after (now w) pre + dt last) - t0)) = false ->
  ACTIVATESECONDS cfg * 1000
    <= ulong (ulong (clock_after (now w) pre + dt last) - now w)
    < 65536 * (ACTIVATESECONDS cfg * 10) ->
  exists w',
    dom_while cfg (S f) cond k " CAPTURING ZONE" (capture_complete tm led)
              (cls ;; digitalWrite own false) t0 w = Ok false w'
    /\ team w' = tm
    /\ iZoneTime w' = ulong (clock_after (now w) pre + dt last)
    /\ now w' = ulong (ulong (clock_after (now w) pre + dt last) + 1000)
    /\ script w' = rest
    /\ redTime w' = redTime w /\ greenTime w' = greenTime w
    /\ endGame w' = endGame w.
Proof.
  intros HA Htm Hcond Ht Hh Hs Hf Hip He Hc.
  destruct f as [|f']; [cbn in Hf; lia|].
  cbn [dom_while]. unfold bind at 1, get at 1.
  rewrite Hcond, Hh, Ht. cbn [andb negb Z.eqb].
  do 3 (erewrite bind_ok by reflexivity).
  match goal with |- context [bind (hold _ _ _ _ _ _ _) _ ?x] => set (we := x) end.
  destruct (divisors_eq cfg HA) as [Hdiv _]. rewrite Hdiv.
  destruct (holdLoop_completes cfg (capture_complete tm led) k (Since t0)
              (dom_minutes cfg) (ACTIVATESECONDS cfg * 10) (now we) ltac:(lia)
              pre (S f') we last rest Hf Hs Hh Hip He)
    as (w1 & Hu1 & Hn1 & Hs1 & Hrun).
  { change (now we) with (now w).
    rewrite progressPercent_exact by lia. apply Z.div_le_lower_bound; lia. }
  unfold hold. unfold bind at 1. unfold bind at 1, millis, get at 1.
  rewrite Hrun.
  assert (Hue : unchanged w w1)
    by (apply (unchanged_trans w we); [constructor; reflexivity | exact Hu1]).
  eexists. split.
  { unfold bind at 1. unfold bind at 1. unfold capture_complete.
    unfold bind at 1, digitalWrite at 1, emit at 1, modify at 1.
    unfold bind at 1, modify at 1.
    unfold bind at 1, millis, get at 1.
    unfold bind at 1, modify at 1.
    unfold delay at 1, modify at 1. unfold ret at 1.
    unfold bind at 1. unfold bind at 1, cls at 1, emit at 1, modify at 1.
    unfold digitalWrite at 1, emit at 1, modify at 1.
    cbn [dom_while]. unfold bind at 1, get at 1.
    rewrite Hcond.
    cbn [team set_team set_iZoneTime set_now set_clock add_out].
    replace (tm =? 0) with false by (symmetry; apply Z.eqb_neq; exact Htm).
    rewrite andb_false_r. cbn [negb]. reflexivity. }
  cbn. rewrite Hn1, Hs1.
  change (now we) with (now w).
  repeat split; try reflexivity.
  - apply (un_redTime _ _ Hue).
  - apply (un_greenTime _ _ Hue).
  - apply (un_endGame _ _ Hue).
Qed.

(** X23.  Capturing a neutral zone.  Holding the defuse key for
    [ACTIVATESECONDS] gives the zone to red (team 2), holding the cancel
    key gives it to green (team 1).  The holder's interval starts at the
    poll that completes the hold; the capture loop then waits one second
    and ends, whether or not the key is still held, and neither total
    nor [endGame] changes. *)
Theorem domination_capture (cfg : config) (f : nat) (t0 : Z) (w : world)
        (pre : list tick) (last : tick) (rest : list tick) :
  1 <= ACTIVATESECONDS cfg <= 99 ->
  team w = 0 ->
  script w = pre ++ last :: rest ->
  (List.length pre < f)%nat ->
  timeExpiredGuarded (dom_minutes cfg)
    (ulong (ulong (clock_after (now w) pre + dt last) - t0)) = false ->
  ACTIVATESECONDS cfg * 1000
    <= ulong (ulong (clock_after (now w) pre + dt last) - now w)
    < 65536 * (ACTIVATESECONDS cfg * 10) ->
  let T := ulong (clock_after (now w) pre + dt last) in
  (defusing w = true ->
   in_progress CaptureRed t0 (dom_minutes cfg) (ACTIVATESECONDS cfg * 10)
               (now w) (now w) pre = true ->
   exists w',
     dom_capture_red cfg (S f) t0 w = Ok false w'
     /\ team w' = 2 /\ iZoneTime w' = T /\ now w' = ulong (T + 1000)
     /\ script w' = rest
     /\ redTime w' = redTime w /\ greenTime w' = greenTime w
     /\ endGame w' = endGame w)
  /\ (cancelando w = true ->
      in_progress CaptureGreen t0 (dom_minutes cfg) (ACTIVATESECONDS cfg * 10)
                  (now w) (now w) pre = true ->
      exists w',
        dom_capture_green cfg (S f) t0 w = Ok false w'
        /\ team w' = 1 /\ iZoneTime w' = T /\ now w' = ulong (T + 1000)
        /\ script w' = rest
        /\ redTime w' = redTime w /\ greenTime w' = greenTime w
        /\ endGame w' = endGame w).
Proof.
  intros HA Ht Hs Hf He Hc T. split.
  - intros Hd Hip. unfold dom_capture_red.
    exact (dom_capture_completes cfg CaptureRed 2 GREENLED REDLED _ f t0 w pre last
             rest HA ltac:(lia) (fun x => eq_refl) Ht Hd Hs Hf Hip He Hc).
  - intros Hd Hip. unfold dom_capture_green.
    exact (dom_capture_completes cfg CaptureGreen 1 REDLED GREENLED _ f t0 w pre last
             rest HA ltac:(lia) (fun x => eq_refl) Ht Hd Hs Hf Hip He Hc).
Qed.

Lemma domination_capture_witness :
  exists w',
    dom_capture_green cfg_dom 3 0
      (world_capturing [idle_poll 2500 false true; idle_poll 2500 false true])
    = Ok false w'
    /\ team w' = 1 /\ iZoneTime w' = 5000 /\ now w' = 6000.
Proof.
  destruct (domination_capture cfg_dom 2 0
              (world_capturing [idle_poll 2500 false true; idle_poll 2500 false true])
              [idle_poll 2500 false true] (idle_poll 2500 false true) [])
    as [_ Hg];
    [cbn; lia | reflexivity | reflexivity | cbn; lia | reflexivity
    | vm_compute; split; [discriminate | reflexivity] |].
  destruct (Hg eq_refl eq_refl) as (w' & Hr & Htm & Hz & Hn & _).
  exists w'. split; [exact Hr|]. split; [exact Htm|]. split; [exact Hz | exact Hn].
Defined.
(** ** The main menu *)

Lemma display_only_checkArrows i m : display_only (checkArrows i m).
Proof. unfold checkArrows. repeat display_step. Qed.

Lemma menu_redraw {A} cfg text j d (k : M A) w :
  exists w2,
    script w2 = script w /\ unchanged w w2
    /\ (when (soundEnable cfg) (tone 2400 30) ;; cls ;; lcd_print text ;;
        checkArrows j 3 ;; delay d ;; k) w = k w2.
Proof.
  destruct (display_only_when (soundEnable cfg) (tone 2400 30)
              ltac:(display_step) w) as ([] & wa & Ea & Sa).
  destruct (display_only_checkArrows j 3 (add_out (LcdPrint text) (add_out Cls wa)))
    as ([] & wc & Ec & Sc).
  exists (set_now (ulong (now wc + d)) wc).
  split; [|split].
  - cbn. rewrite (sh_script _ _ Sc). cbn. apply (sh_script _ _ Sa).
  - apply (unchanged_trans w wa); [apply Sa|].
    apply (unchanged_trans wa (add_out (LcdPrint text) (add_out Cls wa)));
      [constructor; reflexivity|].
    apply (unchanged_trans _ wc); [apply Sc | constructor; reflexivity].
  - rewrite (bind_ok _ _ _ _ _ Ea).
    do 2 (erewrite bind_ok by reflexivity).
    rewrite (bind_ok _ _ _ _ _ Ec).
    erewrite bind_ok by reflexivity. reflexivity.
Qed.

Lemma script_next_key : forall s,
  forallb no_key s = true
  \/ exists pre p s' c,
       s = pre ++ p :: s' /\ forallb no_key pre = true /\ key p = Some c.
Proof.
  induction s as [|p s IH]; [left; reflexivity|].
  destruct (key p) as [c|] eqn:Kp.
  - right. exists [], p, s, c. repeat split; auto.
  - destruct IH as [Hi|(pre & q & s' & c & Hs & Hp & Hk)].
    + left. cbn [forallb]. unfold no_key at 1. rewrite Kp. exact Hi.
    + right. exists (p :: pre), q, s', c. split; [rewrite Hs; reflexivity|].
      split; [|exact Hk]. cbn [forallb]. unfold no_key at 1. rewrite Kp. exact Hp.
Qed.

Lemma keys_of_idle : forall pre l,
  forallb no_key pre = true -> keys_of (pre ++ l) = keys_of l.
Proof.
  induction pre as [|p pre IH]; intros l H; [reflexivity|].
  cbn [forallb] in H. apply andb_prop in H as [Hp H].
  unfold no_key in Hp. cbn [app keys_of].
  destruct (key p); [discriminate | apply IH, H].
Qed.

Lemma menu_move_range i k : 0 <= i <= 3 -> 0 <= menu_move i k <= 3.
Proof.
  intros Hi. unfold menu_move.
  destruct (Ascii.eqb k BT_UP); [lia|]. destruct (Ascii.eqb k BT_DOWN); lia.
Qed.

Lemma menu_fold_range : forall ks i,
  0 <= i <= 3 -> 0 <= fold_left menu_move ks i <= 3.
Proof.
  induction ks as [|k ks IH]; intros i Hi; [exact Hi|].
  cbn [fold_left]. apply IH, menu_move_range, Hi.
Qed.

Lemma menu_loop_nav cfg last rest :
  key last = Some BT_SEL ->
  forall fuel s w i,
    script w = s ++ last :: rest ->
    ~ In BT_SEL (keys_of s) ->
    (S (List.length s) < fuel)%nat ->
    0 <= i <= 3 ->
    exists w1 f',
      script w1 = rest /\ unchanged w w1
      /\ (fuel - List.length s <= S f')%nat
      /\ menuPrincipal_loop fuel cfg i w
         = menu_select f' cfg (fold_left menu_move (keys_of s) i) w1.
Proof.
  intros Hlast. induction fuel as [|f IH]; intros s w i Hs Hno Hf Hi; [lia|].
  cbn [menuPrincipal_loop].
  destruct (script_next_key s) as [Hidle|(pre & p & s' & c & Es & Hp & Hk)].
  - rewrite (bind_ok _ _ _ _ _
               (waitForKey_polled s f w last rest BT_SEL Hs Hidle Hlast ltac:(lia))).
    change (Ascii.eqb BT_SEL BT_UP) with false.
    change (Ascii.eqb BT_SEL BT_DOWN) with false.
    change (Ascii.eqb BT_SEL BT_SEL) with true. cbn [andb].
    destruct (display_only_when (soundEnable cfg) (tone 2400 30)
                ltac:(display_step) (polled s last rest w)) as ([] & wa & Ea & Sa).
    exists (add_out Cls wa), f.
    split; [cbn; rewrite (sh_script _ _ Sa); reflexivity|].
    split.
    { apply (unchanged_trans w (polled s last rest w)); [constructor; reflexivity|].
      apply (unchanged_trans _ wa); [apply Sa | constructor; reflexivity]. }
    split; [lia|].
    rewrite (bind_ok _ _ _ _ _ Ea). erewrite bind_ok by reflexivity.
    replace (keys_of s) with (@nil ascii); [reflexivity|].
    rewrite <- (app_nil_r s). symmetry. apply keys_of_idle, Hidle.
  - assert (Hks : keys_of s = c :: keys_of s')
      by (rewrite Es, keys_of_idle by exact Hp; cbn [keys_of]; rewrite Hk; reflexivity).
    assert (Hc : Ascii.eqb c BT_SEL = false).
    { apply Ascii.eqb_neq. intros ->. apply Hno. rewrite Hks. left. reflexivity. }
    assert (Hno' : ~ In BT_SEL (keys_of s'))
      by (intros Hin; apply Hno; rewrite Hks; right; exact Hin).
    assert (Hlen : List.length s = (List.length pre + S (List.length s'))%nat)
      by (rewrite Es, length_app; reflexivity).
    assert (Hs' : script w = pre ++ p :: (s' ++ last :: rest))
      by (rewrite Hs, Es, <- app_assoc; reflexivity).
    rewrite (bind_ok _ _ _ _ _
               (waitForKey_polled pre f w p (s' ++ last :: rest) c Hs' Hp Hk ltac:(lia))).
    set (wp := polled pre p (s' ++ last :: rest) w).
    assert (Hup : unchanged w wp) by (constructor; reflexivity).
    rewrite Hks. cbn [fold_left].
    destruct (Ascii.eqb c BT_UP && (0 <? i)) eqn:Eu.
    + apply andb_prop in Eu as [Eu Ei]. apply Z.ltb_lt in Ei.
      destruct (menu_redraw cfg (menu1 (i - 1)) (i - 1) 50
                  (menuPrincipal_loop f cfg (i - 1)) wp) as (w2 & Hs2 & Hu2 & Hr2).
      rewrite Hr2.
      destruct (IH s' w2 (i - 1) Hs2 Hno' ltac:(lia) ltac:(lia))
        as (w1 & f' & H1 & H2 & H3 & H4).
      exists w1, f'. split; [exact H1|].
      split; [eapply unchanged_trans; [exact Hup|];
              eapply unchanged_trans; eassumption|].
      split; [lia|].
      assert (Hm : menu_move i c = i - 1)
        by (unfold menu_move; rewrite Eu; lia).
      rewrite H4, Hm. reflexivity.
    + destruct (Ascii.eqb c BT_DOWN && (i <? 3)) eqn:Ed.
      * apply andb_prop in Ed as [Ed Ei]. apply Z.ltb_lt in Ei.
        destruct (menu_redraw cfg (menu1 (i + 1)) (i + 1) 50
                    (menuPrincipal_loop f cfg (i + 1)) wp) as (w2 & Hs2 & Hu2 & Hr2).
        rewrite Hr2.
        destruct (IH s' w2 (i + 1) Hs2 Hno' ltac:(lia) ltac:(lia))
          as (w1 & f' & H1 & H2 & H3 & H4).
        exists w1, f'. split; [exact H1|].
        split; [eapply unchanged_trans; [exact Hup|];
                eapply unchanged_trans; eassumption|].
        split; [lia|].
        assert (Enu : Ascii.eqb c BT_UP = false).
        { destruct (Ascii.eqb_spec c BT_UP) as [->|]; [discriminate Ed | reflexivity]. }
        assert (Hm : menu_move i c = i + 1)
          by (unfold menu_move; rewrite Enu, Ed; lia).
        rewrite H4, Hm. reflexivity.
      * rewrite Hc.
        destruct (IH s' wp i eq_refl Hno' ltac:(lia) Hi)
          as (w1 & f' & H1 & H2 & H3 & H4).
        exists w1, f'. split; [exact H1|].
        split; [eapply unchanged_trans; eassumption|].
        split; [lia|].
        assert (Hm : menu_move i c = i).
        { unfold menu_move.
          destruct (Ascii.eqb c BT_UP); cbn [andb] in Eu.
          - apply Z.ltb_ge in Eu. lia.
          - destruct (Ascii.eqb c BT_DOWN); cbn [andb] in Ed; [|reflexivity].
            apply Z.ltb_ge in Ed. lia. }
        rewrite H4, Hm. reflexivity.
Qed.

(** X24.  Navigation in the main menu.  The keys pressed before [BT_SEL]
    move the selection like a cursor that stops at both ends: [BT_UP] on
    the first line and [BT_DOWN] on the last line are ignored, and so is
    every other key.  The selected line is always one of the four
    entries, so the [switch] always finds its [case]; on the last line it
    opens the configuration menu.  Until the selection the game state is
    not touched. *)
Theorem menuPrincipal_selects (cfg : config) (fuel : nat) (w : world)
        (s : list tick) (last : tick) (rest : list tick) :
  script w = s ++ last :: rest ->
  key last = Some BT_SEL ->
  ~ In BT_SEL (keys_of s) ->
  (S (List.length s) < fuel)%nat ->
  let i := menu_index (keys_of s) in
  0 <= i <= 3
  /\ (exists w1 f',
        script w1 = rest /\ unchanged w w1
        /\ (fuel - List.length s <= S f')%nat
        /\ menuPrincipal fuel cfg w = menu_select f' cfg i w1
        /\ (i = 3 -> menuPrincipal fuel cfg w = Ok Configure w1))
  /\ (forall n, menu_index (repeat BT_DOWN n) = Z.min (Z.of_nat n) 3)
  /\ (forall f' x w', menu_select f' cfg i x <> Ok NoEntry w').
Proof.
  intros Hs Hlast Hno Hf i.
  assert (Hi : 0 <= i <= 3) by (apply menu_fold_range; lia).
  split; [exact Hi|]. split; [|split].
  - unfold menuPrincipal.
    do 6 (erewrite bind_ok by reflexivity).
    destruct (display_only_checkArrows 0 3
                (add_out (SetCursor 15 1)
                   (add_out (LcdPrint (menu1 0))
                      (add_out Cls
                         (add_out (DigitalWrite BLUELED false)
                            (add_out (DigitalWrite REDLED false)
                               (add_out (DigitalWrite GREENLED false) w)))))))
      as ([] & wc & Ec & Sc).
    rewrite (bind_ok _ _ _ _ _ Ec).
    destruct (menu_loop_nav cfg last rest Hlast fuel s wc 0) as (w1 & f' & H1 & H2 & H3 & H4).
    { rewrite (sh_script _ _ Sc). exact Hs. }
    { exact Hno. }
    { exact Hf. }
    { lia. }
    exists w1, f'. split; [exact H1|]. split.
    { eapply unchanged_trans; [|exact H2].
      eapply unchanged_trans; [|apply Sc]. constructor; reflexivity. }
    split; [exact H3|]. split; [exact H4|].
    intros E3. rewrite H4. fold (menu_index (keys_of s)). fold i. rewrite E3.
    reflexivity.
  - intros n. unfold menu_index.
    assert (Hgen : forall m j, 0 <= j <= 3 ->
                     fold_left menu_move (repeat BT_DOWN m) j
                     = Z.min (j + Z.of_nat m) 3).
    { induction m as [|m IHm]; intros j Hj; cbn [repeat fold_left].
      - lia.
      - rewrite IHm by (apply menu_move_range; exact Hj).
        unfold menu_move. change (Ascii.eqb BT_DOWN BT_UP) with false.
        change (Ascii.eqb BT_DOWN BT_DOWN) with true. cbv iota. lia. }
    rewrite Hgen by lia. f_equal.
  - intros f' x w' H. unfold menu_select in H.
    destruct (Z.eqb_spec i 0); [|destruct (Z.eqb_spec i 1);
      [|destruct (Z.eqb_spec i 2); [|destruct (Z.eqb_spec i 3); [|lia]]]].
    + apply bind_inv in H as (? & ? & _ & H).
      apply bind_inv in H as (? & ? & _ & H). discriminate H.
    + apply bind_inv in H as (? & ? & _ & H).
      apply bind_inv in H as (? & ? & _ & H). discriminate H.
    + apply bind_inv in H as (? & ? & _ & H).
      apply bind_inv in H as (? & ? & _ & H). discriminate H.
    + discriminate H.
Qed.

Lemma menuPrincipal_selects_witness :
  exists w1,
    menuPrincipal 10 cfg_search
      (world0 (map (key_poll 100) (list_ascii_of_string "bbabb1bd5")))
    = Ok Configure w1
    /\ script w1 = [key_poll 100 "5"].
Proof.
  destruct (menuPrincipal_selects cfg_search 10
              (world0 (map (key_poll 100) (list_ascii_of_string "bbabb1bd5")))
              (map (key_poll 100) (list_ascii_of_string "bbabb1b"))
              (key_poll 100 "d") [key_poll 100 "5"] eq_refl eq_refl)
    as (_ & (w1 & f' & Hs & _ & _ & _ & Hc) & _).
  { cbn. intros H.
    repeat (destruct H as [H|H]; [discriminate H|]). exact H. }
  { cbn. lia. }
  exists w1. split; [apply Hc; reflexivity | exact Hs].
Defined.

(** ** The configuration menu *)

(** X25.  In the configuration menu [BT_CANCEL] leaves at once, on any
    line and without touching the game state; [BT_SEL] on the Relay Test
    line closes the relay at the key press, opens it again exactly
    4000 ms later and returns to the menu 2000 ms after that, with the
    relay open. *)
Theorem config_relay_test (cfg : config) (f : nat) (w : world)
        (pre : list tick) (last : tick) (rest : list tick) :
  script w = pre ++ last :: rest ->
  forallb no_key pre = true ->
  (List.length pre < f)%nat ->
  let T := clock_after (now w) (pre ++ [last]) in
  (key last = Some BT_CANCEL ->
   forall i, exists w',
     config_loop (S f) cfg i w = Ok false w'
     /\ script w' = rest /\ now w' = T /\ unchanged w w')
  /\ (key last = Some BT_SEL ->
      exists l,
        config_loop (S f) cfg 2 w
        = Ok true (at_time (ulong (T + 6000)) l (polled pre last rest w))
        /\ In (T, DigitalWrite RELAYPIN true) l
        /\ In (ulong (T + 4000), DigitalWrite RELAYPIN false) l
        /\ pin_level RELAYPIN l = Some false).
Proof.
  intros Hs Hp Hf T. split.
  - intros Hk i. cbn [config_loop].
    rewrite (bind_ok _ _ _ _ _ (waitForKey_polled pre f w last rest BT_CANCEL
                                   Hs Hp Hk Hf)).
    change (Ascii.eqb BT_CANCEL BT_UP) with false.
    change (Ascii.eqb BT_CANCEL BT_DOWN) with false.
    change (Ascii.eqb BT_CANCEL BT_CANCEL) with true. cbn [andb].
    exists (if soundEnable cfg
            then add_out (Tone 2400 30) (polled pre last rest w)
            else polled pre last rest w).
    destruct (soundEnable cfg);
      (split; [reflexivity|]; split; [reflexivity|]; split; [reflexivity|];
       constructor; reflexivity).
  - intros Hk. cbn [config_loop].
    rewrite (bind_ok _ _ _ _ _ (waitForKey_polled pre f w last rest BT_SEL
                                   Hs Hp Hk Hf)).
    change (Ascii.eqb BT_SEL BT_UP) with false.
    change (Ascii.eqb BT_SEL BT_DOWN) with false.
    change (Ascii.eqb BT_SEL BT_CANCEL) with false.
    change (Ascii.eqb BT_SEL BT_SEL) with true. cbn [andb Z.eqb].
    exists ([(ulong (T + 4000), DigitalWrite RELAYPIN false);
             (ulong (T + 4000), LcdPrint "RELAYPIN OFF!");
             (ulong (T + 4000), Cls);
             (T, DigitalWrite RELAYPIN true);
             (T, LcdPrint "RELAYPIN ON!");
             (T, Cls)]
            ++ (if soundEnable cfg then [(T, Tone 2400 30)] else [])).
    split; [|split; [|split]].
    + replace (ulong (T + 6000)) with (ulong (ulong (T + 4000) + 2000))
        by (rewrite ulong_add_l; f_equal; lia).
      destruct (soundEnable cfg); reflexivity.
    + cbn. auto 10.
    + cbn. auto.
    + reflexivity.
Qed.

Lemma config_relay_test_witness :
  exists l,
    config_loop 3 cfg_search 2
      (world0 [idle_poll 300 false false; key_poll 10 "d"])
    = Ok true (at_time 6310 l
                 (polled [idle_poll 300 false false] (key_poll 10 "d") []
                         (world0 [idle_poll 300 false false; key_poll 10 "d"])))
    /\ In (310, DigitalWrite RELAYPIN true) l
    /\ In (4310, DigitalWrite RELAYPIN false) l.
Proof.
  destruct (config_relay_test cfg_search 2
              (world0 [idle_poll 300 false false; key_poll 10 "d"])
              [idle_poll 300 false false] (key_poll 10 "d") []
              eq_refl eq_refl ltac:(cbn; lia)) as [_ Hsel].
  destruct (Hsel eq_refl) as (l & Hr & H1 & H2 & _).
  exists l. split; [exact Hr|]. split; [exact H1 | exact H2].
Defined.

(** ** Arming and the end of the game time *)

Lemma display_only_prearm_display label m e : display_only (prearm_display label m e).
Proof.
  unfold prearm_display. repeat display_step. apply display_only_printTime.
Qed.

Lemma search_arm_by_hold cfg f t0 w p1 p2 pre last rest :
  1 <= ACTIVATESECONDS cfg <= 99 ->
  passwordEnable cfg = false ->
  endGame w = false ->
  script w = p1 :: p2 :: pre ++ last :: rest ->
  (List.length pre < f)%nat ->
  timeExpired (game_minutes cfg) (ulong (ulong (now w + dt p1) - t0)) = false ->
  heldD p2 = true ->
  in_progress Arm t0 (game_minutes cfg) (ACTIVATESECONDS cfg * 10)
              (ulong (ulong (now w + dt p1) + dt p2))
              (ulong (ulong (now w + dt p1) + dt p2)) pre = true ->
  timeExpiredGuarded (game_minutes cfg)
    (ulong (ulong (clock_after (ulong (ulong (now w + dt p1) + dt p2)) pre
                   + dt last) - t0)) = false ->
  ACTIVATESECONDS cfg * 1000
    <= ulong (ulong (clock_after (ulong (ulong (now w + dt p1) + dt p2)) pre
                     + dt last) - ulong (ulong (now w + dt p1) + dt p2))
    < 65536 * (ACTIVATESECONDS cfg * 10) ->
  exists w',
    search_loop cfg (S f) t0 w = Ok (Goto PDestroy) w'
    /\ unchanged w w' /\ script w' = rest.
Proof.
  intros HA Hp Heg Hs Hf Hne Hd Hip He Hc.
  cbn [search_loop].
  unfold bind at 1, get at 1. rewrite Heg.
  rewrite (bind_ok _ _ _ _ _ (getKey_cons w p1 _ Hs)).
  set (wa := set_clock (ulong (now w + dt p1)) (p2 :: pre ++ last :: rest)
                       (heldD p1) (heldC p1) w).
  unfold bind at 1, millis, get at 1.
  change (now wa) with (ulong (now w + dt p1)).
  destruct (display_only_prearm_display "GAME TIME" (game_minutes cfg)
              (ulong (ulong (now w + dt p1) - t0)) wa) as ([] & wb & E1 & S1).
  rewrite (bind_ok _ _ _ _ _ E1). rewrite Hne.
  rewrite (bind_ok _ _ _ _ _
             (getKey_cons wb p2 _ (eq_trans (sh_script _ _ S1) eq_refl))).
  set (wd := set_clock (ulong (now wb + dt p2)) (pre ++ last :: rest)
                       (heldD p2) (heldC p2) wb).
  rewrite (code_entry_disabled cfg _ _ _ _ Hp).
  unfold bind at 1, ret at 1. unfold bind at 1, get at 1.
  change (defusing wd) with (heldD p2). rewrite Hd, Hp. cbn [andb negb].
  assert (Hu : unchanged w wd).
  { apply (unchanged_trans w wa); [constructor; reflexivity|].
    apply (unchanged_trans wa wb); [apply S1 | constructor; reflexivity]. }
  assert (Hn : now wd = ulong (ulong (now w + dt p1) + dt p2))
    by (unfold wd; cbn; rewrite (sh_now _ _ S1); reflexivity).
  do 5 (erewrite bind_ok by reflexivity); cbv beta.
  match goal with |- context [bind (hold _ _ _ _ _ _ _) _ ?x] => set (we := x) end.
  assert (Hue : unchanged wd we) by (constructor; reflexivity).
  destruct (divisors_eq cfg HA) as [_ Hdiv]. rewrite Hdiv.
  destruct (holdLoop_completes cfg (digitalWrite GREENLED false)
              Arm (Since t0) (game_minutes cfg) (ACTIVATESECONDS cfg * 10)
              (now we) ltac:(lia) pre f we last rest Hf eq_refl Hd)
    as (w1 & Hu1 & Hn1 & Hs1 & Hrun).
  { change (now we) with (now wd). rewrite Hn. exact Hip. }
  { change (now we) with (now wd). rewrite Hn. exact He. }
  { change (now we) with (now wd). rewrite Hn.
    rewrite progressPercent_exact by lia. apply Z.div_le_lower_bound; lia. }
  unfold hold. unfold bind at 1. unfold bind at 1, millis, get at 1.
  rewrite Hrun.
  eexists. split; [reflexivity|].
  split; [|exact Hs1].
  apply (unchanged_trans w wd); [exact Hu|].
  apply (unchanged_trans wd we); [exact Hue|].
  apply (unchanged_trans we w1); [exact Hu1|].
  constructor; reflexivity.
Qed.

Lemma sabotage_arm_by_hold cfg f w p1 p2 pre last rest :
  1 <= ACTIVATESECONDS cfg <= 99 ->
  passwordEnable cfg = false ->
  endGame w = false ->
  script w = p1 :: p2 :: pre ++ last :: rest ->
  (List.length pre < f)%nat ->
  timeExpired (game_minutes cfg) (ulong (ulong (now w + dt p1) - iTime w)) = false ->
  heldD p2 = true ->
  in_progress Arm (iTime w) (game_minutes cfg) (ACTIVATESECONDS cfg * 10)
              (ulong (ulong (now w + dt p1) + dt p2))
              (ulong (ulong (now w + dt p1) + dt p2)) pre = true ->
  timeExpiredGuarded (game_minutes cfg)
    (ulong (ulong (clock_after (ulong (ulong (now w + dt p1) + dt p2)) pre
                   + dt last) - iTime w)) = false ->
  ACTIVATESECONDS cfg * 1000
    <= ulong (ulong (clock_after (ulong (ulong (now w + dt p1) + dt p2)) pre
                     + dt last) - ulong (ulong (now w + dt p1) + dt p2))
    < 65536 * (ACTIVATESECONDS cfg * 10) ->
  exists w',
    sabotage_loop cfg (S f) w = Ok (Goto PDestroySabotage) w'
    /\ unchanged w w' /\ script w' = rest.
Proof.
  intros HA Hp Heg Hs Hf Hne Hd Hip He Hc.
  cbn [sabotage_loop].
  unfold bind at 1, get at 1. rewrite Heg.
  rewrite (bind_ok _ _ _ _ _ (getKey_cons w p1 _ Hs)).
  set (wa := set_clock (ulong (now w + dt p1)) (p2 :: pre ++ last :: rest)
                       (heldD p1) (heldC p1) w).
  unfold bind at 1, millis, get at 1.
  unfold bind at 1, get at 1.
  change (now wa) with (ulong (now w + dt p1)).
  change (iTime wa) with (iTime w).
  destruct (display_only_prearm_display "Game Time:" (game_minutes cfg)
              (ulong (ulong (now w + dt p1) - iTime w)) wa) as ([] & wb & E1 & S1).
  rewrite (bind_ok _ _ _ _ _ E1). rewrite Hne.
  rewrite (bind_ok _ _ _ _ _
             (getKey_cons wb p2 _ (eq_trans (sh_script _ _ S1) eq_refl))).
  set (wd := set_clock (ulong (now wb + dt p2)) (pre ++ last :: rest)
                       (heldD p2) (heldC p2) wb).
  rewrite (code_entry_disabled cfg _ _ _ _ Hp).
  unfold bind at 1, ret at 1. unfold bind at 1, get at 1.
  change (defusing wd) with (heldD p2). rewrite Hd, Hp. cbn [andb negb].
  assert (Hu : unchanged w wd).
  { apply (unchanged_trans w wa); [constructor; reflexivity|].
    apply (unchanged_trans wa wb); [apply S1 | constructor; reflexivity]. }
  assert (Hn : now wd = ulong (ulong (now w + dt p1) + dt p2))
    by (unfold wd; cbn; rewrite (sh_now _ _ S1); reflexivity).
  do 5 (erewrite bind_ok by reflexivity); cbv beta.
  match goal with |- context [bind (hold _ _ _ _ _ _ _) _ ?x] => set (we := x) end.
  assert (Hue : unchanged wd we) by (constructor; reflexivity).
  assert (Hit : iTime we = iTime w)
    by (apply (un_iTime w we), (unchanged_trans w wd); assumption).
  destruct (divisors_eq cfg HA) as [_ Hdiv]. rewrite Hdiv.
  destruct (holdLoop_completes cfg (digitalWrite GREENLED false)
              Arm SinceITime (game_minutes cfg) (ACTIVATESECONDS cfg * 10)
              (now we) ltac:(lia) pre f we last rest Hf eq_refl Hd)
    as (w1 & Hu1 & Hn1 & Hs1 & Hrun).
  { cbn [clock_start]. rewrite Hit. change (now we) with (now wd).
    rewrite Hn. exact Hip. }
  { cbn [clock_start]. rewrite Hit. change (now we) with (now wd).
    rewrite Hn. exact He. }
  { change (now we) with (now wd). rewrite Hn.
    rewrite progressPercent_exact by lia. apply Z.div_le_lower_bound; lia. }
  unfold hold. unfold bind at 1. unfold bind at 1, millis, get at 1.
  rewrite Hrun.
  eexists. split; [reflexivity|].
  split; [|exact Hs1].
  apply (unchanged_trans w wd); [exact Hu|].
  apply (unchanged_trans wd we); [exact Hue|].
  apply (unchanged_trans we w1); [exact Hu1|].
  constructor; reflexivity.
Qed.

(** X26.  Arming by hold.  With the code disabled, when the defuse key
    is found held at the second poll of a round of the pre-arming loop
    and stays held until [ACTIVATESECONDS] have passed since that poll,
    with the game time not yet over, [search] hands over to [destroy] and
    [sabotage] to [destroySabotage], at the poll that completes the hold
    and with the game state (the Sabotage clock included) untouched. *)
Theorem arm_by_hold (cfg : config) (f : nat) (w : world) (p1 p2 : tick)
        (pre : list tick) (last : tick) (rest : list tick) :
  1 <= ACTIVATESECONDS cfg <= 99 ->
  passwordEnable cfg = false ->
  endGame w = false ->
  script w = p1 :: p2 :: pre ++ last :: rest ->
  (List.length pre < f)%nat ->
  timeExpired (game_minutes cfg) (ulong (ulong (now w + dt p1) - iTime w)) = false ->
  heldD p2 = true ->
  in_progress Arm (iTime w) (game_minutes cfg) (ACTIVATESECONDS cfg * 10)
              (ulong (ulong (now w + dt p1) + dt p2))
              (ulong (ulong (now w + dt p1) + dt p2)) pre = true ->
  timeExpiredGuarded (game_minutes cfg)
    (ulong (ulong (clock_after (ulong (ulong (now w + dt p1) + dt p2)) pre
                   + dt last) - iTime w)) = false ->
  ACTIVATESECONDS cfg * 1000
    <= ulong (ulong (clock_after (ulong (ulong (now w + dt p1) + dt p2)) pre
                     + dt last) - ulong (ulong (now w + dt p1) + dt p2))
    < 65536 * (ACTIVATESECONDS cfg * 10) ->
  (exists w',
      search_loop cfg (S f) (iTime w) w = Ok (Goto PDestroy) w'
      /\ unchanged w w' /\ script w' = rest)
  /\ (exists w',
         sabotage_loop cfg (S f) w = Ok (Goto PDestroySabotage) w'
         /\ unchanged w w' /\ script w' = rest).
Proof.
  intros HA Hp Heg Hs Hf Hne Hd Hip He Hc. split.
  - exact (search_arm_by_hold cfg f (iTime w) w p1 p2 pre last rest
             HA Hp Heg Hs Hf Hne Hd Hip He Hc).
  - exact (sabotage_arm_by_hold cfg f w p1 p2 pre last rest
             HA Hp Heg Hs Hf Hne Hd Hip He Hc).
Qed.

Lemma arm_by_hold_witness :
  exists w',
    sabotage_loop cfg_sabotage 11 (world_armed script_hold)
    = Ok (Goto PDestroySabotage) w'
    /\ script w' = [].
Proof.
  destruct (arm_by_hold cfg_sabotage 10 (world_armed script_hold)
              (idle_poll 10 true false) (idle_poll 10 true false)
              [idle_poll 2500 true false] (idle_poll 2500 true false) [])
    as [_ (w' & Hr & _ & Hs)];
    [cbn; lia | reflexivity | reflexivity | reflexivity | cbn; lia | reflexivity
    | reflexivity | reflexivity | reflexivity
    | vm_compute; split; [discriminate | reflexivity] |].
  exists w'. split; [exact Hr | exact Hs].
Defined.

(** ** Sample runs of the unconditional properties *)

Lemma drawBar_within_row_witness :
  drawBar 200 (world0 []) = drawBar 100 (world0 []).
Proof.
  destruct (drawBar_within_row 200 (world0 [])) as (l & _ & _ & _ & _ & _ & Hc).
  apply Hc. vm_compute. discriminate.
Defined.

Lemma lostSplash_outcome_witness :
  exists l,
    failSplash (mkConfig 10 2 5 false true false true false [] 5000) (world0 [])
    = Ok (Goto PPlayAgain) (at_time 10100 l (set_endGame false (world0 [])))
    /\ silent l = true /\ pin_level RELAYPIN l = Some false.
Proof.
  destruct (lostSplash_outcome (mkConfig 10 2 5 false true false true false [] 5000)
              "  TIME OUT" (world0 []))
    as (l & Hr & _ & _ & Hrel & Hsil & _).
  exists l. split; [exact Hr|]. split; [exact (Hsil eq_refl) | exact Hrel].
Defined.

Lemma disarmedSplash_outcome_witness :
  exists l,
    disarmedSplash cfg_search (world0 [])
    = Ok (Goto PPlayAgain) (at_time 5000 l (set_endGame false (world0 [])))
    /\ In (0, DigitalWrite GREENLED true) l.
Proof.
  destruct (disarmedSplash_outcome cfg_search (world0 []))
    as (l & Hr & _ & _ & _ & _ & Hg).
  exists l. split; [exact Hr | exact (Hg eq_refl)].
Defined.
(** * Released holds and disarming by code *)

(** ** Released holds *)

Lemma released_early_inv k c0 minutes divisor t pre last :
  released_early k c0 minutes divisor t pre last = true ->
  in_progress k c0 minutes divisor t t pre = true
  /\ timeExpiredGuarded minutes
       (ulong (ulong (clock_after t pre + dt last) - c0)) = false
  /\ progressPercent divisor
       (ulong (ulong (clock_after t pre + dt last) - t)) < 100
  /\ held_flags k (heldD last) (heldC last) = false.
Proof.
  unfold released_early. intros H.
  apply andb_prop in H as [H H4]. apply andb_prop in H as [H H3].
  apply andb_prop in H as [H1 H2].
  apply negb_true_iff in H2, H4. apply Z.ltb_lt in H3. auto.
Qed.

(** A hold action entered with its input held and released early returns
    [Released] at the poll that finds it released. *)
Lemma hold_releases cfg complete k clock minutes divisor fuel w pre last rest :
  divisor <> 0 ->
  (S (List.length pre) < fuel)%nat ->
  script w = pre ++ last :: rest ->
  held k w = true ->
  released_early k (clock_start clock w) minutes divisor (now w) pre last = true ->
  exists w1,
    unchanged w w1
    /\ now w1 = ulong (clock_after (now w) pre + dt last)
    /\ script w1 = rest
    /\ defusing w1 = heldD last /\ cancelando w1 = heldC last
    /\ hold cfg fuel k clock minutes divisor complete w = Ok Released w1.
Proof.
  intros Hd Hf Hs Hh Hr.
  destruct (released_early_inv _ _ _ _ _ _ _ Hr) as (Hp & He & Hc & Hrel).
  exact (holdLoop_releases cfg complete k clock minutes divisor (now w) Hd
           pre fuel w last rest Hf Hs Hh Hp He Hc Hrel).
Qed.

Lemma search_release cfg f t0 w p1 p2 pre last rest :
  divisor_ul cfg <> 0 ->
  passwordEnable cfg = false ->
  endGame w = false ->
  script w = p1 :: p2 :: pre ++ last :: rest ->
  (S (List.length pre) < f)%nat ->
  timeExpired (game_minutes cfg) (ulong (ulong (now w + dt p1) - t0)) = false ->
  heldD p2 = true ->
  released_early Arm t0 (game_minutes cfg) (divisor_ul cfg)
                 (ulong (ulong (now w + dt p1) + dt p2)) pre last = true ->
  exists w1,
    unchanged w w1
    /\ now w1 = ulong (clock_after (ulong (ulong (now w + dt p1) + dt p2)) pre
                       + dt last)
    /\ script w1 = rest
    /\ search_loop cfg (S f) t0 w = search_loop cfg f t0 w1.
Proof.
  intros HA Hp Heg Hs Hf Hne Hd Hr.
  cbn [search_loop].
  unfold bind at 1, get at 1. rewrite Heg.
  rewrite (bind_ok _ _ _ _ _ (getKey_cons w p1 _ Hs)).
  set (wa := set_clock (ulong (now w + dt p1)) (p2 :: pre ++ last :: rest)
                       (heldD p1) (heldC p1) w).
  unfold bind at 1, millis, get at 1.
  change (now wa) with (ulong (now w + dt p1)).
  destruct (display_only_prearm_display "GAME TIME" (game_minutes cfg)
              (ulong (ulong (now w + dt p1) - t0)) wa) as ([] & wb & E1 & S1).
  rewrite (bind_ok _ _ _ _ _ E1). rewrite Hne.
  rewrite (bind_ok _ _ _ _ _
             (getKey_cons wb p2 _ (eq_trans (sh_script _ _ S1) eq_refl))).
  set (wd := set_clock (ulong (now wb + dt p2)) (pre ++ last :: rest)
                       (heldD p2) (heldC p2) wb).
  rewrite (code_entry_disabled cfg _ _ _ _ Hp).
  unfold bind at 1, ret at 1. unfold bind at 1, get at 1.
  change (defusing wd) with (heldD p2). rewrite Hd, Hp. cbn [andb negb].
  assert (Hu : unchanged w wd).
  { apply (unchanged_trans w wa); [constructor; reflexivity|].
    apply (unchanged_trans wa wb); [apply S1 | constructor; reflexivity]. }
  assert (Hn : now wd = ulong (ulong (now w + dt p1) + dt p2))
    by (unfold wd; cbn; rewrite (sh_now _ _ S1); reflexivity).
  do 5 (erewrite bind_ok by reflexivity); cbv beta.
  match goal with |- context [bind (hold _ _ _ _ _ _ _) _ ?x] => set (we := x) end.
  assert (Hue : unchanged wd we) by (constructor; reflexivity).
  destruct (hold_releases cfg (digitalWrite GREENLED false) Arm (Since t0)
              (game_minutes cfg) (divisor_ul cfg) f we pre last rest
              HA Hf eq_refl Hd) as (w1 & Hu1 & Hn1 & Hs1 & _ & _ & Hrun).
  { change (now we) with (now wd). rewrite Hn. exact Hr. }
  rewrite (bind_ok _ _ _ _ _ Hrun).
  exists (add_out Cls (add_out (DigitalWrite REDLED false) w1)).
  split.
  { apply (unchanged_trans w wd); [exact Hu|].
    apply (unchanged_trans wd we); [exact Hue|].
    apply (unchanged_trans we w1); [exact Hu1|].
    constructor; reflexivity. }
  split; [cbn [now add_out]; rewrite Hn1; change (now we) with (now wd);
          rewrite Hn; reflexivity|].
  split; [exact Hs1 | reflexivity].
Qed.

Lemma sabotage_release cfg f w p1 p2 pre last rest :
  divisor_ul cfg <> 0 ->
  passwordEnable cfg = false ->
  endGame w = false ->
  script w = p1 :: p2 :: pre ++ last :: rest ->
  (S (List.length pre) < f)%nat ->
  timeExpired (game_minutes cfg) (ulong (ulong (now w + dt p1) - iTime w)) = false ->
  heldD p2 = true ->
  released_early Arm (iTime w) (game_minutes cfg) (divisor_ul cfg)
                 (ulong (ulong (now w + dt p1) + dt p2)) pre last = true ->
  exists w1,
    unchanged w w1
    /\ now w1 = ulong (clock_after (ulong (ulong (now w + dt p1) + dt p2)) pre
                       + dt last)
    /\ script w1 = rest
    /\ sabotage_loop cfg (S f) w = sabotage_loop cfg f w1.
Proof.
  intros HA Hp Heg Hs Hf Hne Hd Hr.
  cbn [sabotage_loop].
  unfold bind at 1, get at 1. rewrite Heg.
  rewrite (bind_ok _ _ _ _ _ (getKey_cons w p1 _ Hs)).
  set (wa := set_clock (ulong (now w + dt p1)) (p2 :: pre ++ last :: rest)
                       (heldD p1) (heldC p1) w).
  unfold bind at 1, millis, get at 1.
  unfold bind at 1, get at 1.
  change (now wa) with (ulong (now w + dt p1)).
  change (iTime wa) with (iTime w).
  destruct (display_only_prearm_display "Game Time:" (game_minutes cfg)
              (ulong (ulong (now w + dt p1) - iTime w)) wa) as ([] & wb & E1 & S1).
  rewrite (bind_ok _ _ _ _ _ E1). rewrite Hne.
  rewrite (bind_ok _ _ _ _ _
             (getKey_cons wb p2 _ (eq_trans (sh_script _ _ S1) eq_refl))).
  set (wd := set_clock (ulong (now wb + dt p2)) (pre ++ last :: rest)
                       (heldD p2) (heldC p2) wb).
  rewrite (code_entry_disabled cfg _ _ _ _ Hp).
  unfold bind at 1, ret at 1. unfold bind at 1, get at 1.
  change (defusing wd) with (heldD p2). rewrite Hd, Hp. cbn [andb negb].
  assert (Hu : unchanged w wd).
  { apply (unchanged_trans w wa); [constructor; reflexivity|].
    apply (unchanged_trans wa wb); [apply S1 | constructor; reflexivity]. }
  assert (Hn : now wd = ulong (ulong (now w + dt p1) + dt p2))
    by (unfold wd; cbn; rewrite (sh_now _ _ S1); reflexivity).
  do 5 (erewrite bind_ok by reflexivity); cbv beta.
  match goal with |- context [bind (hold _ _ _ _ _ _ _) _ ?x] => set (we := x) end.
  assert (Hue : unchanged wd we) by (constructor; reflexivity).
  assert (Hit : iTime we = iTime w)
    by (apply (un_iTime w we), (unchanged_trans w wd); assumption).
  destruct (hold_releases cfg (digitalWrite GREENLED false) Arm SinceITime
              (game_minutes cfg) (divisor_ul cfg) f we pre last rest
              HA Hf eq_refl Hd) as (w1 & Hu1 & Hn1 & Hs1 & _ & _ & Hrun).
  { cbn [clock_start]. rewrite Hit. change (now we) with (now wd).
    rewrite Hn. exact Hr. }
  rewrite (bind_ok _ _ _ _ _ Hrun).
  exists (add_out Cls (add_out (DigitalWrite REDLED false) w1)).
  split.
  { apply (unchanged_trans w wd); [exact Hu|].
    apply (unchanged_trans wd we); [exact Hue|].
    apply (unchanged_trans we w1); [exact Hu1|].
    constructor; reflexivity. }
  split; [cbn [now add_out]; rewrite Hn1; change (now we) with (now wd);
          rewrite Hn; reflexivity|].
  split; [exact Hs1 | reflexivity].
Qed.

Lemma destroy_release cfg f t0 d w p1 p2 pre last rest :
  divisor_ul cfg <> 0 ->
  passwordEnable cfg = false ->
  endGame w = false ->
  script w = p1 :: p2 :: pre ++ last :: rest ->
  (S (List.length pre) < f)%nat ->
  timeExpired (bomb_minutes cfg) (ulong (ulong (now w + dt p1) - t0)) = false ->
  heldD p2 = true ->
  released_early Disarm t0 (bomb_minutes cfg) (divisor_ul cfg)
                 (ulong (ulong (now w + dt p1) + dt p2)) pre last = true ->
  exists w1 d',
    unchanged w w1
    /\ now w1 = ulong (clock_after (ulong (ulong (now w + dt p1) + dt p2)) pre
                       + dt last)
    /\ script w1 = rest
    /\ destroy_loop cfg (S f) t0 d w = destroy_loop cfg f t0 d' w1.
Proof.
  intros HA Hp Heg Hs Hf Hne Hd Hr.
  cbn [destroy_loop].
  armed_round cfg w t0 d p1 p2 (pre ++ last :: rest) Hs Heg Hp Hne Hd wd Hwd.
  destruct Hwd as [Hu Hn].
  do 5 (erewrite bind_ok by reflexivity); cbv beta.
  match goal with |- context [bind (hold _ _ _ _ _ _ _) _ ?x] => set (we := x) end.
  assert (Hue : unchanged wd we) by (constructor; reflexivity).
  destruct (hold_releases cfg (ret tt) Disarm (Since t0)
              (bomb_minutes cfg) (divisor_ul cfg) f we pre last rest
              HA Hf eq_refl Hd) as (w1 & Hu1 & Hn1 & Hs1 & _ & _ & Hrun).
  { change (now we) with (now wd). rewrite Hn. exact Hr. }
  rewrite (bind_ok _ _ _ _ _ Hrun).
  exists (add_out Cls (add_out (DigitalWrite GREENLED false)
                         (add_out (DigitalWrite REDLED false) w1))).
  eexists.
  split.
  { apply (unchanged_trans w wd); [exact Hu|].
    apply (unchanged_trans wd we); [exact Hue|].
    apply (unchanged_trans we w1); [exact Hu1|].
    constructor; reflexivity. }
  split; [cbn [now add_out]; rewrite Hn1; change (now we) with (now wd);
          rewrite Hn; reflexivity|].
  split; [exact Hs1 | reflexivity].
Qed.

Lemma destroySabotage_release cfg f t0 d w p1 p2 pre last rest :
  divisor_ul cfg <> 0 ->
  passwordEnable cfg = false ->
  endGame w = false ->
  script w = p1 :: p2 :: pre ++ last :: rest ->
  (S (List.length pre) < f)%nat ->
  timeExpired (bomb_minutes cfg) (ulong (ulong (now w + dt p1) - t0)) = false ->
  heldD p2 = true ->
  released_early Disarm t0 (bomb_minutes cfg) (divisor_ul cfg)
                 (ulong (ulong (now w + dt p1) + dt p2)) pre last = true ->
  exists w1 d',
    unchanged w w1
    /\ now w1 = ulong (clock_after (ulong (ulong (now w + dt p1) + dt p2)) pre
                       + dt last)
    /\ script w1 = rest
    /\ destroySabotage_loop cfg (S f) t0 d w = destroySabotage_loop cfg f t0 d' w1.
Proof.
  intros HA Hp Heg Hs Hf Hne Hd Hr.
  cbn [destroySabotage_loop].
  armed_round cfg w t0 d p1 p2 (pre ++ last :: rest) Hs Heg Hp Hne Hd wd Hwd.
  destruct Hwd as [Hu Hn].
  do 5 (erewrite bind_ok by reflexivity); cbv beta.
  match goal with |- context [bind (hold _ _ _ _ _ _ _) _ ?x] => set (we := x) end.
  assert (Hue : unchanged wd we) by (constructor; reflexivity).
  destruct (hold_releases cfg (cls ;; lcd_print "Bomb Disarmed" ;; delay 1000)
              Disarm (Since t0)
              (bomb_minutes cfg) (divisor_ul cfg) f we pre last rest
              HA Hf eq_refl Hd) as (w1 & Hu1 & Hn1 & Hs1 & _ & _ & Hrun).
  { change (now we) with (now wd). rewrite Hn. exact Hr. }
  rewrite (bind_ok _ _ _ _ _ Hrun).
  exists (add_out Cls (add_out (DigitalWrite GREENLED false)
                         (add_out (DigitalWrite REDLED false) w1))).
  eexists.
  split.
  { apply (unchanged_trans w wd); [exact Hu|].
    apply (unchanged_trans wd we); [exact Hue|].
    apply (unchanged_trans we w1); [exact Hu1|].
    constructor; reflexivity. }
  split; [cbn [now add_out]; rewrite Hn1; change (now we) with (now wd);
          rewrite Hn; reflexivity|].
  split; [exact Hs1 | reflexivity].
Qed.

(** A released hold in one of the three hold blocks of [domination()]:
    the block is left without a [return]. *)
Lemma dom_while_release cfg f cond k banner complete after t0 w pre last rest :
  divisor_int cfg <> 0 ->
  (S (List.length pre) < f)%nat ->
  (forall x, held k x = false -> cond x = false) ->
  display_only after ->
  cond w = true ->
  held k w = true ->
  script w = pre ++ last :: rest ->
  released_early k t0 (dom_minutes cfg) (divisor_int cfg) (now w) pre last = true ->
  exists w1,
    unchanged w w1
    /\ now w1 = ulong (clock_after (now w) pre + dt last)
    /\ script w1 = rest
    /\ defusing w1 = heldD last /\ cancelando w1 = heldC last
    /\ dom_while cfg (S f) cond k banner complete after t0 w = Ok false w1.
Proof.
  intros HA Hf Hcond Hafter Hc Hh Hs Hr.
  cbn [dom_while]. unfold bind at 1, get at 1. rewrite Hc. cbn [negb].
  do 3 (erewrite bind_ok by reflexivity); cbv beta.
  match goal with |- context [bind (hold _ _ _ _ _ _ _) _ ?x] => set (we := x) end.
  assert (Hue : unchanged w we) by (constructor; reflexivity).
  destruct (hold_releases cfg complete k (Since t0)
              (dom_minutes cfg) (divisor_int cfg) f we pre last rest
              HA Hf Hs Hh Hr) as (w1 & Hu1 & Hn1 & Hs1 & Hd1 & Hc1 & Hrun).
  rewrite (bind_ok _ _ _ _ _ Hrun).
  destruct (Hafter w1) as ([] & w2 & E2 & S2).
  rewrite (bind_ok _ _ _ _ _ E2).
  destruct f as [|f']; [cbn in Hf; lia|].
  cbn [dom_while]. unfold bind at 1, get at 1.
  destruct (released_early_inv _ _ _ _ _ _ _ Hr) as (_ & _ & _ & Hrel).
  assert (Hc2 : cond w2 = false).
  { apply Hcond. unfold held.
    rewrite (sh_defusing _ _ S2), (sh_cancelando _ _ S2), Hd1, Hc1. exact Hrel. }
  rewrite Hc2. cbn [negb].
  exists w2.
  split.
  { apply (unchanged_trans w we); [exact Hue|].
    apply (unchanged_trans we w1); [exact Hu1 | apply S2]. }
  split; [rewrite (sh_now _ _ S2), Hn1; reflexivity|].
  split; [rewrite (sh_script _ _ S2); exact Hs1|].
  split; [rewrite (sh_defusing _ _ S2); exact Hd1|].
  split; [rewrite (sh_cancelando _ _ S2); exact Hc1 | reflexivity].
Qed.

Lemma dom_while_skip cfg f cond k banner complete after t0 w :
  cond w = false ->
  dom_while cfg (S f) cond k banner complete after t0 w = Ok false w.
Proof.
  intros Hc. cbn [dom_while]. unfold bind at 1, get at 1. rewrite Hc. reflexivity.
Qed.

Lemma display_only_dom_display cfg t t0 : display_only (dom_display cfg t t0).
Proof. unfold dom_display. repeat display_step. Qed.

Lemma display_only_dom_show cfg t t0 b : display_only (dom_show cfg t t0 b).
Proof.
  unfold dom_show. repeat display_step;
    first [apply display_only_printTime | apply display_only_printTimeDom].
Qed.

(** One round of the main loop of [domination()] up to the hold blocks. *)
Lemma domination_round cfg f t0 show lt w p1 tl :
  endGame w = false ->
  script w = p1 :: tl ->
  timeExpired (dom_minutes cfg) (ulong (ulong (now w + dt p1) - t0)) = false ->
  exists wd show' lt',
    unchanged w wd
    /\ now wd = ulong (now w + dt p1)
    /\ script wd = tl
    /\ defusing wd = heldD p1 /\ cancelando wd = heldC p1
    /\ domination_loop cfg (S f) t0 show lt w =
       (r1 <- dom_neutralize cfg f t0 ;;
        if r1 : bool then ret Return
        else
          r2 <- dom_capture_red cfg f t0 ;;
          if r2 : bool then ret Return
          else
            r3 <- dom_capture_green cfg f t0 ;;
            if r3 : bool then ret Return
            else domination_loop cfg f t0 show' lt') wd.
Proof.
  intros Heg Hs Hne.
  cbn [domination_loop].
  unfold bind at 1, get at 1. rewrite Heg.
  rewrite (bind_ok _ _ _ _ _ (getKey_cons w p1 _ Hs)).
  set (wa := set_clock (ulong (now w + dt p1)) tl (heldD p1) (heldC p1) w).
  unfold bind at 1, millis, get at 1.
  change (now wa) with (ulong (now w + dt p1)).
  destruct (display_only_dom_display cfg (ulong (now w + dt p1)) t0 wa)
    as ([] & wb & E1 & S1).
  rewrite (bind_ok _ _ _ _ _ E1). cbv zeta.
  set (toggle := 2000 <=? ulong (ulong (now w + dt p1) - lt)).
  destruct (display_only_when toggle cls ltac:(display_step) wb)
    as ([] & wc & E2 & S2).
  rewrite (bind_ok _ _ _ _ _ E2).
  destruct (display_only_dom_show cfg (ulong (now w + dt p1)) t0
              (if toggle then negb show else show) wc) as ([] & wd & E3 & S3).
  rewrite (bind_ok _ _ _ _ _ E3). rewrite Hne.
  exists wd, (if toggle then negb show else show),
    (if toggle then ulong (now w + dt p1) else lt).
  assert (S13 : shown wa wd)
    by (apply (shown_trans wa wb); [exact S1|];
        apply (shown_trans wb wc); [exact S2 | exact S3]).
  split; [apply (unchanged_trans w wa); [constructor; reflexivity | apply S13]|].
  split; [rewrite (sh_now _ _ S13); reflexivity|].
  split; [rewrite (sh_script _ _ S13); reflexivity|].
  split; [rewrite (sh_defusing _ _ S13); reflexivity|].
  split; [rewrite (sh_cancelando _ _ S13); reflexivity | reflexivity].
Qed.

Lemma dom_starts_inv tm p k :
  dom_starts tm p = Some k ->
  match k with
  | Neutralize => (heldD p || heldC p) = true /\ 0 < tm
  | CaptureRed => heldD p = true /\ tm = 0
  | CaptureGreen => heldD p = false /\ heldC p = true /\ tm = 0
  | _ => False
  end.
Proof.
  unfold dom_starts.
  destruct (Z.ltb_spec 0 tm) as [Hlt|Hle].
  - destruct (heldD p || heldC p) eqn:E; cbn [andb].
    + intros H. injection H as <-. auto.
    + destruct (Z.eqb_spec tm 0); [lia|]. rewrite !andb_false_r. discriminate.
  - rewrite andb_false_r.
    destruct (Z.eqb_spec tm 0) as [E0|E0]; rewrite ?andb_false_r; [|discriminate].
    rewrite !andb_true_r.
    destruct (heldD p) eqn:Ed; [intros H; injection H as <-; auto|].
    destruct (heldC p) eqn:Ec; [intros H; injection H as <-; auto | discriminate].
Qed.

(** A hold action of [domination()] that is released early: the round
    ends, and the main loop goes on in an unchanged zone. *)
Lemma domination_release cfg f t0 show lt w p1 pre last rest k :
  divisor_int cfg <> 0 ->
  (S (S (List.length pre)) < f)%nat ->
  endGame w = false ->
  script w = p1 :: pre ++ last :: rest ->
  timeExpired (dom_minutes cfg) (ulong (ulong (now w + dt p1) - t0)) = false ->
  dom_starts (team w) p1 = Some k ->
  released_early k t0 (dom_minutes cfg) (divisor_int cfg)
                 (ulong (now w + dt p1)) pre last = true ->
  (k = CaptureRed -> heldC last = false) ->
  exists w1 show' lt',
    unchanged w w1
    /\ now w1 = ulong (clock_after (ulong (now w + dt p1)) pre + dt last)
    /\ script w1 = rest
    /\ domination_loop cfg (S f) t0 show lt w
       = domination_loop cfg f t0 show' lt' w1.
Proof.
  intros HA Hf Heg Hs Hne Hk Hr Hlast.
  destruct (domination_round cfg f t0 show lt w p1 _ Heg Hs Hne)
    as (wd & show' & lt' & Hu & Hn & Hsd & Hdd & Hcd & Hrun).
  rewrite Hrun. clear Hrun.
  destruct f as [|f']; [lia|].
  assert (Hf' : (S (List.length pre) < f')%nat) by lia.
  assert (Htm : team wd = team w) by apply (un_team _ _ Hu).
  destruct (released_early_inv _ _ _ _ _ _ _ Hr) as (_ & _ & _ & Hrel).
  pose proof (dom_starts_inv _ _ _ Hk) as Hst.
  rewrite <- Hn in Hr.
  destruct k; try contradiction.
  - (* red capture *)
    destruct Hst as [Hd H0].
    assert (Hsk1 : dom_neutralize cfg (S f') t0 wd = Ok false wd)
      by (unfold dom_neutralize; apply dom_while_skip; cbn beta; rewrite Htm, H0; apply andb_false_r).
    rewrite (bind_ok _ _ _ _ _ Hsk1).
    unfold dom_capture_red.
    destruct (dom_while_release cfg f' (fun x => defusing x && (team x =? 0))
                CaptureRed " CAPTURING ZONE" (capture_complete 2 GREENLED)
                (cls ;; digitalWrite REDLED false) t0 wd pre last rest HA Hf')
      as (w1 & Hu1 & Hn1 & Hs1 & Hd1 & Hc1 & Hrun1).
    + intros x Hx. unfold held in Hx. cbn [held_flags] in Hx.
      rewrite Hx. reflexivity.
    + repeat display_step.
    + rewrite Hdd, Hd, Htm, H0. reflexivity.
    + unfold held. cbn [held_flags]. rewrite Hdd. exact Hd.
    + exact Hsd.
    + exact Hr.
    + rewrite (bind_ok _ _ _ _ _ Hrun1).
      assert (Hsk3 : dom_capture_green cfg (S f') t0 w1 = Ok false w1)
        by (unfold dom_capture_green; apply dom_while_skip; cbn beta; rewrite Hc1, (Hlast eq_refl); reflexivity).
      rewrite (bind_ok _ _ _ _ _ Hsk3).
      exists w1, show', lt'.
      split; [apply (unchanged_trans w wd); assumption|].
      split; [rewrite Hn1, Hn; reflexivity|].
      split; [exact Hs1 | reflexivity].
  - (* green capture *)
    destruct Hst as (Hd & Hc & H0).
    assert (Hsk1 : dom_neutralize cfg (S f') t0 wd = Ok false wd)
      by (unfold dom_neutralize; apply dom_while_skip; cbn beta; rewrite Htm, H0; apply andb_false_r).
    rewrite (bind_ok _ _ _ _ _ Hsk1).
    assert (Hsk2 : dom_capture_red cfg (S f') t0 wd = Ok false wd)
      by (unfold dom_capture_red; apply dom_while_skip; cbn beta; rewrite Hdd, Hd; reflexivity).
    rewrite (bind_ok _ _ _ _ _ Hsk2).
    unfold dom_capture_green.
    destruct (dom_while_release cfg f' (fun x => cancelando x && (team x =? 0))
                CaptureGreen " CAPTURING ZONE" (capture_complete 1 REDLED)
                (cls ;; digitalWrite GREENLED false) t0 wd pre last rest HA Hf')
      as (w1 & Hu1 & Hn1 & Hs1 & Hd1 & Hc1 & Hrun1).
    + intros x Hx. unfold held in Hx. cbn [held_flags] in Hx.
      rewrite Hx. reflexivity.
    + repeat display_step.
    + rewrite Hcd, Hc, Htm, H0. reflexivity.
    + unfold held. cbn [held_flags]. rewrite Hcd. exact Hc.
    + exact Hsd.
    + exact Hr.
    + rewrite (bind_ok _ _ _ _ _ Hrun1).
      exists w1, show', lt'.
      split; [apply (unchanged_trans w wd); assumption|].
      split; [rewrite Hn1, Hn; reflexivity|].
      split; [exact Hs1 | reflexivity].
  - (* neutralize *)
    destruct Hst as [Hdc Hpos].
    cbn [held_flags] in Hrel. apply orb_false_elim in Hrel as [Hrd Hrc].
    unfold dom_neutralize.
    destruct (dom_while_release cfg f'
                (fun x => (defusing x || cancelando x) && (0 <? team x))
                Neutralize "NEUTRALIZING..." (neutralize_complete)
                cls t0 wd pre last rest HA Hf')
      as (w1 & Hu1 & Hn1 & Hs1 & Hd1 & Hc1 & Hrun1).
    + intros x Hx. unfold held in Hx. cbn [held_flags] in Hx.
      rewrite Hx. reflexivity.
    + repeat display_step.
    + rewrite Hdd, Hcd, Hdc, Htm.
      destruct (Z.ltb_spec 0 (team w)); [reflexivity | lia].
    + unfold held. cbn [held_flags]. rewrite Hdd, Hcd. exact Hdc.
    + exact Hsd.
    + exact Hr.
    + rewrite (bind_ok _ _ _ _ _ Hrun1).
      assert (Hsk2 : dom_capture_red cfg (S f') t0 w1 = Ok false w1)
        by (unfold dom_capture_red; apply dom_while_skip; cbn beta; rewrite Hd1, Hrd; reflexivity).
      rewrite (bind_ok _ _ _ _ _ Hsk2).
      assert (Hsk3 : dom_capture_green cfg (S f') t0 w1 = Ok false w1)
        by (unfold dom_capture_green; apply dom_while_skip; cbn beta; rewrite Hc1, Hrc; reflexivity).
      rewrite (bind_ok _ _ _ _ _ Hsk3).
      exists w1, show', lt'.
      split; [apply (unchanged_trans w wd); assumption|].
      split; [rewrite Hn1, Hn; reflexivity|].
      split; [exact Hs1 | reflexivity].
Qed.

(** C6.  A hold action whose input is released before its progress
    reaches 100 percent is cancelled, in every loop that starts one.  In
    the four loops of the armed modes (with the code disabled, where the
    defuse key found held at the second poll of a round starts the hold)
    and in the main loop of [domination()] (where the first poll of a
    round starts neutralizing or capturing), when the hold stays in
    progress over the polls [pre] and its input is found released at the
    poll [last], the loop goes on as the same loop: Preparing stays
    Preparing, Armed stays Armed, with the same clock.  The controller
    team, the control totals and the zone start instant, [endGame] and
    the Sabotage clock are as they were, and no function was entered.
    Nothing of the hold is kept: the progress is measured from the
    instant the hold started, so a hold started later by the loop that
    goes on is measured from its own start. *)
Theorem hold_release_cancels cfg f pre last rest :
  (divisor_ul cfg <> 0 ->
   passwordEnable cfg = false ->
   (S (List.length pre) < f)%nat ->
   forall w p1 p2,
     endGame w = false ->
     script w = p1 :: p2 :: pre ++ last :: rest ->
     heldD p2 = true ->
     (forall t0,
         timeExpired (game_minutes cfg) (ulong (ulong (now w + dt p1) - t0)) = false ->
         released_early Arm t0 (game_minutes cfg) (divisor_ul cfg)
                        (ulong (ulong (now w + dt p1) + dt p2)) pre last = true ->
         exists w1,
           unchanged w w1
           /\ now w1 = ulong (clock_after (ulong (ulong (now w + dt p1) + dt p2)) pre
                              + dt last)
           /\ script w1 = rest
           /\ search_loop cfg (S f) t0 w = search_loop cfg f t0 w1)
     /\ (timeExpired (game_minutes cfg)
           (ulong (ulong (now w + dt p1) - iTime w)) = false ->
         released_early Arm (iTime w) (game_minutes cfg) (divisor_ul cfg)
                        (ulong (ulong (now w + dt p1) + dt p2)) pre last = true ->
         exists w1,
           unchanged w w1
           /\ now w1 = ulong (clock_after (ulong (ulong (now w + dt p1) + dt p2)) pre
                              + dt last)
           /\ script w1 = rest
           /\ sabotage_loop cfg (S f) w = sabotage_loop cfg f w1)
     /\ (forall t0 d,
            timeExpired (bomb_minutes cfg)
              (ulong (ulong (now w + dt p1) - t0)) = false ->
            released_early Disarm t0 (bomb_minutes cfg) (divisor_ul cfg)
                           (ulong (ulong (now w + dt p1) + dt p2)) pre last = true ->
            (exists w1 d',
                unchanged w w1
                /\ now w1 = ulong (clock_after (ulong (ulong (now w + dt p1) + dt p2))
                                               pre + dt last)
                /\ script w1 = rest
                /\ destroy_loop cfg (S f) t0 d w = destroy_loop cfg f t0 d' w1)
            /\ (exists w1 d',
                   unchanged w w1
                   /\ now w1 = ulong (clock_after
                                        (ulong (ulong (now w + dt p1) + dt p2))
                                        pre + dt last)
                   /\ script w1 = rest
                   /\ destroySabotage_loop cfg (S f) t0 d w
                      = destroySabotage_loop cfg f t0 d' w1)))
  /\ (divisor_int cfg <> 0 ->
      (S (S (List.length pre)) < f)%nat ->
      forall w p1 k t0 show lt,
        endGame w = false ->
        script w = p1 :: pre ++ last :: rest ->
        timeExpired (dom_minutes cfg) (ulong (ulong (now w + dt p1) - t0)) = false ->
        dom_starts (team w) p1 = Some k ->
        released_early k t0 (dom_minutes cfg) (divisor_int cfg)
                       (ulong (now w + dt p1)) pre last = true ->
        (k = CaptureRed -> heldC last = false) ->
        exists w1 show' lt',
          unchanged w w1
          /\ now w1 = ulong (clock_after (ulong (now w + dt p1)) pre + dt last)
          /\ script w1 = rest
          /\ domination_loop cfg (S f) t0 show lt w
             = domination_loop cfg f t0 show' lt' w1).
Proof.
  split.
  - intros HA Hp Hf w p1 p2 Heg Hs Hd.
    split; [|split].
    + intros t0 Hne Hr.
      exact (search_release cfg f t0 w p1 p2 pre last rest HA Hp Heg Hs Hf Hne Hd Hr).
    + intros Hne Hr.
      exact (sabotage_release cfg f w p1 p2 pre last rest HA Hp Heg Hs Hf Hne Hd Hr).
    + intros t0 d Hne Hr. split.
      * exact (destroy_release cfg f t0 d w p1 p2 pre last rest
                 HA Hp Heg Hs Hf Hne Hd Hr).
      * exact (destroySabotage_release cfg f t0 d w p1 p2 pre last rest
                 HA Hp Heg Hs Hf Hne Hd Hr).
  - intros HA Hf w p1 k t0 show lt Heg Hs Hne Hk Hr Hlast.
    exact (domination_release cfg f t0 show lt w p1 pre last rest k
             HA Hf Heg Hs Hne Hk Hr Hlast).
Qed.

(** Two 3 s holds of a 5 s arming action, each released: the pre-arming
    loop goes on, nothing is armed. *)
Lemma hold_release_cancels_witness :
  exists w2,
    unchanged (world_armed (script_partial_hold ++ script_partial_hold)) w2
    /\ script w2 = []
    /\ search_loop cfg_search 12 0
         (world_armed (script_partial_hold ++ script_partial_hold))
       = search_loop cfg_search 10 0 w2.
Proof.
  destruct (proj1 (hold_release_cancels cfg_search 11
                     [idle_poll 3000 true false] (idle_poll 10 false false)
                     script_partial_hold)
              ltac:(vm_compute; discriminate) eq_refl ltac:(cbn; lia)
              (world_armed (script_partial_hold ++ script_partial_hold))
              (idle_poll 10 false false) (idle_poll 10 true false)
              eq_refl eq_refl eq_refl) as (H1 & _).
  destruct (H1 0 eq_refl eq_refl) as (w1 & Hu1 & Hn1 & Hs1 & E1).
  destruct (proj1 (hold_release_cancels cfg_search 10
                     [idle_poll 3000 true false] (idle_poll 10 false false) [])
              ltac:(vm_compute; discriminate) eq_refl ltac:(cbn; lia)
              w1 (idle_poll 10 false false) (idle_poll 10 true false)
              (eq_trans (un_endGame _ _ Hu1) eq_refl) Hs1 eq_refl) as (H2 & _).
  destruct (H2 0) as (w2 & Hu2 & _ & Hs2 & E2).
  - rewrite Hn1. vm_compute. reflexivity.
  - rewrite Hn1. vm_compute. reflexivity.
  - exists w2.
    split; [exact (unchanged_trans _ _ _ Hu1 Hu2)|].
    split; [exact Hs2 | exact (eq_trans E1 E2)].
Defined.

(** ** Disarming by code *)

(** A digit pressed while entry time is left is stored at position [i]. *)
Lemma setCodeTime_digit_typed cfg f st i w pre last rest c :
  script w = pre ++ last :: rest ->
  forallb no_key pre = true ->
  key last = Some c ->
  is_digit c = true ->
  (List.length pre < f)%nat ->
  (codeTimeLeft cfg st (now w) <=? 100) = false ->
  exists w',
    setCodeTime_digit cfg (S f) st i w = Ok tt w'
    /\ unchanged w w'
    /\ script w' = rest
    /\ now w' = clock_after (now w) (pre ++ [last])
    /\ codeInput w' = store i c (codeInput w).
Proof.
  intros Hs Hp Hk Hd Hf Ht.
  cbn [setCodeTime_digit]. unfold bind at 1, millis, get at 1. rewrite Ht.
  erewrite bind_ok by reflexivity.
  destruct (display_only_printTimeDom (codeTimeLeft cfg st (now w)) false
              (add_out (SetCursor 11 0) w)) as ([] & w2 & E2 & S2).
  rewrite (bind_ok _ _ _ _ _ E2).
  assert (Hs2 : script w2 = pre ++ last :: rest)
    by (rewrite (sh_script _ _ S2); exact Hs).
  rewrite (bind_ok _ _ _ _ _ (getNumber_polled pre f w2 last rest c Hs2 Hp Hk Hf)).
  rewrite Hd, (x_not_digit c Hd). cbn [negb].
  assert (Hu2 : unchanged w w2).
  { apply (unchanged_trans w (add_out (SetCursor 11 0) w));
      [constructor; reflexivity | apply S2]. }
  assert (Hn2 : now w2 = now w) by (rewrite (sh_now _ _ S2); reflexivity).
  assert (Hc2 : codeInput w2 = codeInput w)
    by (rewrite (sh_codeInput _ _ S2); reflexivity).
  destruct (Nat.eqb i 0), (soundEnable cfg);
    (eexists; split; [reflexivity|];
     split;
       [apply (unchanged_trans w w2); [exact Hu2 | constructor; reflexivity]|];
     split; [reflexivity|];
     split; [cbn; rewrite Hn2; reflexivity|];
     cbn; rewrite Hc2; reflexivity).
Qed.

Lemma press_polls_length_head (p : press) ps :
  (List.length (fst p) < List.length (press_polls (p :: ps)))%nat
  /\ (List.length (press_polls ps) <= List.length (press_polls (p :: ps)))%nat.
Proof. cbn [press_polls]. rewrite length_app. cbn [List.length]. lia. Qed.

Lemma clock_after_app2 l1 : forall t l2,
  clock_after t (l1 ++ l2) = clock_after (clock_after t l1) l2.
Proof. induction l1 as [|p l1 IH]; intros t l2; cbn; [reflexivity | apply IH]. Qed.

(** The [for] loop of [setCodeTime()] from position [i] on, when every
    remaining position gets its digit in time. *)
Lemma setCodeTime_typed cfg f st : forall ps i w cs rest,
  script w = press_polls ps ++ rest ->
  pressed ps = map Some cs ->
  forallb is_digit cs = true ->
  typed_in_time cfg st (now w) ps = true ->
  (List.length (press_polls ps) < f)%nat ->
  (i + List.length ps <= List.length (codeInput w))%nat ->
  exists w',
    for_each (seq i (List.length ps))
             (fun i => setCodeTime_digit cfg (S f) st i) w = Ok tt w'
    /\ unchanged w w'
    /\ script w' = rest
    /\ now w' = clock_after (now w) (press_polls ps)
    /\ List.length (codeInput w') = List.length (codeInput w)
    /\ (forall j, (j < i)%nat -> nth j (codeInput w') NUL = nth j (codeInput w) NUL)
    /\ (forall k, (k < List.length ps)%nat ->
                  nth (i + k) (codeInput w') NUL = nth k cs NUL).
Proof.
  induction ps as [|p ps IH]; intros i w cs rest Hs Hk Hd Ht Hf Hl.
  - exists w. cbn. split; [reflexivity|]. split; [apply unchanged_refl|].
    split; [exact Hs|]. split; [reflexivity|]. split; [reflexivity|].
    split; [reflexivity | intros k Hk'; lia].
  - destruct cs as [|c cs]; [discriminate Hk|].
    cbn [pressed map] in Hk. injection Hk as Hkp Hk.
    cbn [forallb] in Hd. apply andb_prop in Hd as [Hdc Hd].
    cbn [typed_in_time] in Ht. apply andb_prop in Ht as [Ht Ht3].
    apply andb_prop in Ht as [Ht1 Ht2]. apply negb_true_iff in Ht1.
    destruct (press_polls_length_head p ps) as [Hl1 Hl2].
    cbn [press_polls] in Hs. rewrite <- app_assoc in Hs. cbn [app] in Hs.
    destruct (setCodeTime_digit_typed cfg f st i w (fst p) (snd p)
                (press_polls ps ++ rest) c Hs Ht2 Hkp Hdc ltac:(lia) Ht1)
      as (w1 & E1 & Hu1 & Hs1 & Hn1 & Hc1).
    cbn [List.length] in Hl.
    destruct (IH (S i) w1 cs rest Hs1 Hk Hd) as (w' & E & Hu & Hs' & Hn & Hlen & Hlow & Hnew).
    + rewrite Hn1. exact Ht3.
    + lia.
    + rewrite Hc1, store_length. lia.
    + exists w'. cbn [List.length seq for_each].
      rewrite (bind_ok _ _ _ _ _ E1).
      split; [exact E|].
      split; [apply (unchanged_trans w w1); assumption|].
      split; [exact Hs'|].
      split.
      { rewrite Hn, Hn1. cbn [press_polls].
        rewrite (clock_after_app2 (fst p) (now w) (snd p :: press_polls ps)).
        rewrite (clock_after_app2 (fst p) (now w) [snd p]).
        reflexivity. }
      split; [rewrite Hlen, Hc1; apply store_length|].
      split.
      * intros j Hj. rewrite Hlow by lia. rewrite Hc1.
        apply nth_store_other. lia.
      * intros k Hk'. destruct k as [|k].
        -- rewrite Nat.add_0_r, Hlow by lia. rewrite Hc1.
           apply nth_store_same. lia.
        -- replace (i + S k)%nat with (S i + k)%nat by lia.
           cbn [nth]. apply Hnew. lia.
Qed.

(** The code-entry branch when the code typed is the password. *)
Lemma code_entry_accepts cfg f intro col w ps rest :
  passwordEnable cfg = true ->
  display_only intro ->
  script w = press_polls ps ++ rest ->
  pressed ps = map Some (password cfg) ->
  forallb is_digit (password cfg) = true ->
  List.length (password cfg) = 8%nat ->
  List.length (codeInput w) = 8%nat ->
  typed_in_time cfg (ulong (now w + 1000)) (ulong (now w + 1000)) ps = true ->
  (List.length (press_polls ps) < f)%nat ->
  exists w',
    code_entry cfg (S f) (Some "d"%char) intro col w = Ok true w'
    /\ unchanged w w'
    /\ script w' = rest
    /\ now w' = clock_after (ulong (now w + 1000)) (press_polls ps).
Proof.
  intros Hp Hi Hs Hk Hd Hlp Hlc Ht Hf.
  unfold code_entry. change (Ascii.eqb "d" "d") with true. rewrite Hp.
  cbn [andb].
  destruct (Hi w) as ([] & w1 & E1 & S1).
  rewrite (bind_ok _ _ _ _ _ E1).
  do 4 (erewrite bind_ok by reflexivity).
  match goal with |- context [bind (setCodeTime _ _) _ ?x] => set (we := x) end.
  assert (Hue : unchanged w we).
  { apply (unchanged_trans w w1); [apply S1 | constructor; reflexivity]. }
  assert (Hne : now we = ulong (now w + 1000))
    by (unfold we; cbn; rewrite (sh_now _ _ S1); reflexivity).
  assert (Hse : script we = press_polls ps ++ rest)
    by (unfold we; cbn; rewrite (sh_script _ _ S1); exact Hs).
  assert (Hce : codeInput we = codeInput w)
    by (unfold we; cbn; rewrite (sh_codeInput _ _ S1); reflexivity).
  assert (Hn8 : List.length ps = 8%nat).
  { pose proof (f_equal (@List.length _) Hk) as Hk'. unfold pressed in Hk'.
    rewrite !length_map in Hk'. rewrite <- Hlp. exact Hk'. }
  destruct (setCodeTime_typed cfg f (now we) ps 0 we (password cfg) rest Hse Hk Hd)
    as (w' & E & Hu & Hs' & Hn & Hlen & _ & Hnew).
  { rewrite Hne. exact Ht. }
  { exact Hf. }
  { rewrite Hce, Hlc, Hn8. cbn. lia. }
  unfold setCodeTime. unfold bind at 1. unfold bind at 1, millis, get at 1.
  rewrite Hn8 in E. cbv beta. rewrite E.
  unfold bind at 1, get at 1.
  assert (Hcmp : comparePassword (codeInput w') (password cfg) = true).
  { unfold comparePassword. apply compare_from_true_iff.
    intros j Hj. apply (Hnew j). lia. }
  rewrite Hcmp.
  exists w'. split; [reflexivity|].
  split; [apply (unchanged_trans w we); assumption|].
  split; [exact Hs'|]. rewrite Hn, Hne. reflexivity.
Qed.

(** A round of an armed loop up to its second poll, which reports [d]. *)
Ltac armed_round_code cfg w t0 d p1 p2 tl Hs Heg Hne Hk wd Hwd :=
  let wa := fresh "wa" in
  let wb := fresh "wb" in
  let d' := fresh "d'" in
  let E1 := fresh "E1" in
  let S1 := fresh "S1" in
  unfold bind at 1, get at 1; rewrite Heg;
  rewrite (bind_ok _ _ _ _ _ (getKey_cons w p1 (p2 :: tl) Hs));
  set (wa := set_clock (ulong (now w + dt p1)) (p2 :: tl) (heldD p1) (heldC p1) w);
  unfold bind at 1, millis, get at 1;
  change (now wa) with (ulong (now w + dt p1));
  destruct (display_only_armed_display cfg (bomb_minutes cfg)
              (ulong (ulong (now w + dt p1) - t0)) d wa) as (d' & wb & E1 & S1);
  rewrite (bind_ok _ _ _ _ _ E1);
  rewrite Hne;
  rewrite (bind_ok _ _ _ _ _ (getKey_cons wb p2 tl (eq_trans (sh_script _ _ S1) eq_refl)));
  set (wd := set_clock (ulong (now wb + dt p2)) tl (heldD p2) (heldC p2) wb);
  rewrite Hk;
  assert (Hwd : unchanged w wd /\ now wd = ulong (ulong (now w + dt p1) + dt p2)
                /\ codeInput wd = codeInput w)
    by (split;
        [apply (unchanged_trans w wa); [constructor; reflexivity|];
         apply (unchanged_trans wa wb); [apply S1 | constructor; reflexivity]
        | split;
          [unfold wd; cbn; rewrite (sh_now _ _ S1); reflexivity
          | unfold wd; cbn; rewrite (sh_codeInput _ _ S1); reflexivity]]).

Lemma destroy_disarm_by_code cfg f t0 d w p1 p2 ps rest :
  passwordEnable cfg = true ->
  endGame w = false ->
  script w = p1 :: p2 :: press_polls ps ++ rest ->
  (List.length (press_polls ps) < f)%nat ->
  timeExpired (bomb_minutes cfg) (ulong (ulong (now w + dt p1) - t0)) = false ->
  key p2 = Some "d"%char ->
  pressed ps = map Some (password cfg) ->
  forallb is_digit (password cfg) = true ->
  List.length (password cfg) = 8%nat ->
  List.length (codeInput w) = 8%nat ->
  typed_in_time cfg (ulong (ulong (ulong (now w + dt p1) + dt p2) + 1000))
                (ulong (ulong (ulong (now w + dt p1) + dt p2) + 1000)) ps = true ->
  exists w',
    destroy_loop cfg (S (S f)) t0 d w = Ok (Goto PDisarmedSplash) w'
    /\ unchanged w w' /\ script w' = rest.
Proof.
  intros Hp Heg Hs Hf Hne Hk Hps Hd Hlp Hlc Ht.
  cbn [destroy_loop].
  armed_round_code cfg w t0 d p1 p2 (press_polls ps ++ rest) Hs Heg Hne Hk wd Hwd.
  destruct Hwd as (Hu & Hn & Hc).
  destruct (code_entry_accepts cfg f
              (cls ;; lcd_setCursor 1 0 ;; lcd_print "DISARMING BOMB") 3
              wd ps rest Hp ltac:(repeat display_step) eq_refl Hps Hd Hlp)
    as (w' & E & Hu' & Hs' & _).
  { rewrite Hc. exact Hlc. }
  { rewrite Hn. exact Ht. }
  { exact Hf. }
  rewrite (bind_ok _ _ _ _ _ E).
  exists w'. split; [reflexivity|].
  split; [apply (unchanged_trans w wd); assumption | exact Hs'].
Qed.

Lemma destroySabotage_disarm_by_code cfg f t0 d w p1 p2 ps rest :
  passwordEnable cfg = true ->
  endGame w = false ->
  script w = p1 :: p2 :: press_polls ps ++ rest ->
  (List.length (press_polls ps) < f)%nat ->
  timeExpired (bomb_minutes cfg) (ulong (ulong (now w + dt p1) - t0)) = false ->
  key p2 = Some "d"%char ->
  pressed ps = map Some (password cfg) ->
  forallb is_digit (password cfg) = true ->
  List.length (password cfg) = 8%nat ->
  List.length (codeInput w) = 8%nat ->
  typed_in_time cfg (ulong (ulong (ulong (now w + dt p1) + dt p2) + 1000))
                (ulong (ulong (ulong (now w + dt p1) + dt p2) + 1000)) ps = true ->
  exists w',
    destroySabotage_loop cfg (S (S f)) t0 d w = Ok (Goto PSabotage) w'
    /\ unchanged w w' /\ script w' = rest.
Proof.
  intros Hp Heg Hs Hf Hne Hk Hps Hd Hlp Hlc Ht.
  cbn [destroySabotage_loop].
  armed_round_code cfg w t0 d p1 p2 (press_polls ps ++ rest) Hs Heg Hne Hk wd Hwd.
  destruct Hwd as (Hu & Hn & Hc).
  destruct (code_entry_accepts cfg f
              (cls ;; digitalWrite REDLED false ;; digitalWrite GREENLED true ;;
               lcd_print "DISARMING BOMB") 2
              wd ps rest Hp ltac:(repeat display_step) eq_refl Hps Hd Hlp)
    as (w' & E & Hu' & Hs' & _).
  { rewrite Hc. exact Hlc. }
  { rewrite Hn. exact Ht. }
  { exact Hf. }
  rewrite (bind_ok _ _ _ _ _ E).
  exists w'. split; [reflexivity|].
  split; [apply (unchanged_trans w wd); assumption | exact Hs'].
Qed.

Lemma sabotage_after_disarm cfg w w' :
  unchanged w w' ->
  start w = false ->
  iTime w' = iTime w /\ start w' = false
  /\ forall fuel',
       iTime (final (sabotage cfg fuel' w')) = iTime w
       /\ forall n x, sabotage cfg fuel' w' = Ok n x ->
                      n = Goto PDestroySabotage \/ n = Goto PFailSplash.
Proof.
  intros Hu Hst.
  split; [apply Hu|].
  assert (Hst' : start w' = false) by (rewrite (un_start _ _ Hu); exact Hst).
  split; [exact Hst'|].
  intros fuel'.
  pose proof (sabotage_keeps_clock cfg fuel' w' Hst' w' eq_refl) as Hk.
  destruct (sabotage cfg fuel' w') as [n x|h x]; cbn [final].
  - destruct Hk as [[Hi _] Hn]. split; [rewrite Hi; apply Hu|].
    intros n0 x0 E. inversion E; subst. exact Hn.
  - destruct Hk as [Hi _]. split; [rewrite Hi; apply Hu|].
    intros n0 x0 E. discriminate E.
Qed.

(** C8.  An armed loop whose bomb clock is running ends differently in
    the two modes when the bomb is disarmed, by hold or by code.  By
    hold: the code is disabled and the defuse key is held from the second
    poll of a round until the hold duration is reached.  By code: the code
    is enabled, the second poll of a round reports [d], and the eight
    digits of the password are then typed in time.  Either way, in
    Sabotage [destroySabotage] calls [sabotage()] again, with the game
    clock [iTime] and the cleared [start] flag untouched, and [sabotage()]
    then keeps that clock, so the game time goes on from where it was; in
    Search and Destroy [destroy] calls [disarmedSplash()], which ends the
    game at the replay prompt.  Whatever the input, the armed loop of
    Sabotage never calls [disarmedSplash()] and never touches the game
    clock, its pre-arming loop leads only to the armed phase or to the
    time-out, and the armed loop of Search and Destroy never returns to
    the pre-arming phase.  [sabotage()] always leaves [start] cleared, so
    only the replay prompt, which sets it, makes the next [sabotage()]
    take a new game clock. *)
Theorem disarm_differs :
  (forall cfg f t0 d w p1 p2 pre last rest,
      1 <= ACTIVATESECONDS cfg <= 99 ->
      passwordEnable cfg = false ->
      endGame w = false ->
      start w = false ->
      script w = p1 :: p2 :: pre ++ last :: rest ->
      (List.length pre < f)%nat ->
      timeExpired (bomb_minutes cfg) (ulong (ulong (now w + dt p1) - t0)) = false ->
      heldD p2 = true ->
      in_progress Disarm t0 (bomb_minutes cfg) (ACTIVATESECONDS cfg * 10)
                  (ulong (ulong (now w + dt p1) + dt p2))
                  (ulong (ulong (now w + dt p1) + dt p2)) pre = true ->
      timeExpiredGuarded (bomb_minutes cfg)
        (ulong (ulong (clock_after (ulong (ulong (now w + dt p1) + dt p2)) pre
                       + dt last) - t0)) = false ->
      ACTIVATESECONDS cfg * 1000
        <= ulong (ulong (clock_after (ulong (ulong (now w + dt p1) + dt p2)) pre
                         + dt last) - ulong (ulong (now w + dt p1) + dt p2))
        < 65536 * (ACTIVATESECONDS cfg * 10) ->
      (exists w',
          destroySabotage_loop cfg (S f) t0 d w = Ok (Goto PSabotage) w'
          /\ script w' = rest
          /\ iTime w' = iTime w /\ start w' = false
          /\ forall fuel',
               iTime (final (sabotage cfg fuel' w')) = iTime w
               /\ forall n x, sabotage cfg fuel' w' = Ok n x ->
                              n = Goto PDestroySabotage \/ n = Goto PFailSplash)
      /\ (exists w',
             destroy_loop cfg (S f) t0 d w = Ok (Goto PDisarmedSplash) w'
             /\ script w' = rest))
  /\ (forall cfg f t0 d w p1 p2 ps rest,
         passwordEnable cfg = true ->
         forallb is_digit (password cfg) = true ->
         List.length (password cfg) = 8%nat ->
         List.length (codeInput w) = 8%nat ->
         endGame w = false ->
         start w = false ->
         script w = p1 :: p2 :: press_polls ps ++ rest ->
         (List.length (press_polls ps) < f)%nat ->
         timeExpired (bomb_minutes cfg)
           (ulong (ulong (now w + dt p1) - t0)) = false ->
         key p2 = Some "d"%char ->
         pressed ps = map Some (password cfg) ->
         typed_in_time cfg
           (ulong (ulong (ulong (now w + dt p1) + dt p2) + 1000))
           (ulong (ulong (ulong (now w + dt p1) + dt p2) + 1000)) ps = true ->
         (exists w',
             destroySabotage_loop cfg (S (S f)) t0 d w = Ok (Goto PSabotage) w'
             /\ script w' = rest
             /\ iTime w' = iTime w /\ start w' = false
             /\ forall fuel',
                  iTime (final (sabotage cfg fuel' w')) = iTime w
                  /\ forall n x, sabotage cfg fuel' w' = Ok n x ->
                                 n = Goto PDestroySabotage \/ n = Goto PFailSplash)
         /\ (exists w',
                destroy_loop cfg (S (S f)) t0 d w = Ok (Goto PDisarmedSplash) w'
                /\ script w' = rest))
  /\ (forall cfg w, exists w', disarmedSplash cfg w = Ok (Goto PPlayAgain) w')
  /\ (forall cfg fuel' t0' d' x n x',
         destroySabotage_loop cfg fuel' t0' d' x = Ok n x' ->
         (n = Goto PSabotage \/ n = Goto PExplodeSplash \/ n = Goto PFailSplash)
         /\ iTime x' = iTime x /\ start x' = start x)
  /\ (forall cfg fuel' t0' d' x n x',
         destroy_loop cfg fuel' t0' d' x = Ok n x' ->
         n = Goto PDisarmedSplash \/ n = Goto PExplodeSplash)
  /\ (forall cfg fuel' x n x', sabotage cfg fuel' x = Ok n x' -> start x' = false).
Proof.
  split; [|split; [|split; [|split; [|split]]]].
  - intros cfg f t0 d w p1 p2 pre last rest HA Hp Heg Hst Hs Hf Hne Hd Hip He Hc.
    split.
    + destruct (destroySabotage_disarm_by_hold cfg f t0 d w p1 p2 pre last rest
                  HA Hp Heg Hs Hf Hne Hd Hip He Hc) as (w' & Hrun & Hu & Hs').
      exists w'. split; [exact Hrun|]. split; [exact Hs'|].
      exact (sabotage_after_disarm cfg w w' Hu Hst).
    + destruct (destroy_disarm_by_hold cfg f t0 d w p1 p2 pre last rest
                  HA Hp Heg Hs Hf Hne Hd Hip He Hc) as (w' & Hrun & _ & Hs').
      exists w'. split; [exact Hrun | exact Hs'].
  - intros cfg f t0 d w p1 p2 ps rest Hp Hd Hlp Hlc Heg Hst Hs Hf Hne Hk Hps Ht.
    split.
    + destruct (destroySabotage_disarm_by_code cfg f t0 d w p1 p2 ps rest
                  Hp Heg Hs Hf Hne Hk Hps Hd Hlp Hlc Ht) as (w' & Hrun & Hu & Hs').
      exists w'. split; [exact Hrun|]. split; [exact Hs'|].
      exact (sabotage_after_disarm cfg w w' Hu Hst).
    + destruct (destroy_disarm_by_code cfg f t0 d w p1 p2 ps rest
                  Hp Heg Hs Hf Hne Hk Hps Hd Hlp Hlc Ht) as (w' & Hrun & _ & Hs').
      exists w'. split; [exact Hrun | exact Hs'].
  - intros cfg w. unfold disarmedSplash.
    destruct (sdStatus cfg || saStatus cfg); eexists; reflexivity.
  - intros cfg fuel' t0' d' x n x' E.
    pose proof (destroySabotage_loop_exits cfg x fuel' t0' d' x
                  (conj eq_refl eq_refl)) as Hx.
    rewrite E in Hx. destruct Hx as [[Hi Hs'] Hn]. auto.
  - intros cfg fuel' t0' d' x n x' E.
    pose proof (destroy_loop_exits cfg fuel' t0' d' x I) as Hx.
    rewrite E in Hx. exact Hx.
  - intros cfg fuel' x n x' E. exact (sabotage_clears_start cfg fuel' x n x' E).
Qed.

(** An armed bomb disarmed by a 5 s hold in Sabotage, and by its code in
    Search and Destroy. *)
Lemma disarm_differs_witness :
  (exists w', destroySabotage_loop cfg_sabotage 11 0 50 (world_armed script_hold)
              = Ok (Goto PSabotage) w' /\ iTime w' = 0)
  /\ (exists w', destroy_loop cfg_code 12 0 50 (world_armed script_code_typed)
                 = Ok (Goto PDisarmedSplash) w' /\ script w' = []).
Proof.
  split.
  - destruct (proj1 disarm_differs cfg_sabotage 10%nat 0 50 (world_armed script_hold)
                (idle_poll 10 true false) (idle_poll 10 true false)
                [idle_poll 2500 true false] (idle_poll 2500 true false) [])
      as ((w1 & H1 & _ & Hi & _) & _).
    + cbn; lia.
    + reflexivity.
    + reflexivity.
    + reflexivity.
    + reflexivity.
    + cbn; lia.
    + vm_compute; reflexivity.
    + reflexivity.
    + vm_compute; reflexivity.
    + vm_compute; reflexivity.
    + vm_compute. split; congruence.
    + exists w1; split; [exact H1 | exact Hi].
  - destruct (proj1 (proj2 disarm_differs) cfg_code 10%nat 0 50
                (world_armed script_code_typed)
                (idle_poll 10 false false) (key_poll 10 "d")
                presses_code_typed [])
      as (_ & (w2 & H2 & Hs2)).
    + reflexivity.
    + vm_compute; reflexivity.
    + reflexivity.
    + reflexivity.
    + reflexivity.
    + reflexivity.
    + reflexivity.
    + cbn; lia.
    + vm_compute; reflexivity.
    + reflexivity.
    + reflexivity.
    + vm_compute; reflexivity.
    + exists w2. split; [exact H2 | exact Hs2].
Defined.
